(** * Data-source profiling pipeline: a shallow embedding and its properties

    The development follows the Python sources of the [alias] agent:
    - [data_source.py]          : [DataSourceManager._sanitize_name], [_generate_name]
    - [_data_profiler_factory.py] : [is_irregular], [_extract_schema_from_table],
      [_wrap_data_response], the relational introspection loop and
      [generate_profile]
    - [text_post_hook.py]       : [TextPostHook.truncate_and_save_response]
    - [_typing.py], [utils.py], [data_profile.py] : the source types,
      [replace_placeholders] and [data_profile], with the registry and
      [prepare_profile] of [data_source.py]

    Python values are modelled as follows.  A [str] is a sequence of Unicode
    code points; exceptions are values of [exn] carried by an [outcome];
    dictionaries with a fixed set of keys are records whose optional keys are
    [option] fields; a dictionary used as a look-up table is a [gmap]. *)

From Stdlib Require Import ZArith QArith Lia String Ascii.
From stdpp Require Import base option list gmap.

Set Warnings "-register-all".
Local Open Scope Z_scope.
Local Open Scope list_scope.

(** ** Python strings *)

Module PyStr.

(** A character is a Unicode code point, a string a list of them, so that
    [len(s)] is [length s] and [s[:n]] is [take n s]. *)
Definition char := N.
Definition str := list char.

Definition ord (a : ascii) : char := N_of_ascii a.

(** A Python string literal. *)
Definition lit (s : string) : str := List.map ord (list_ascii_of_string s).

(** [s.startswith(p)] *)
Fixpoint startswith (s p : str) {struct p} : bool :=
  match p, s with
  | [], _ => true
  | _ :: _, [] => false
  | a :: p', b :: s' => N.eqb a b && startswith s' p'
  end.

(** [sub in s] *)
Fixpoint contains (sub s : str) {struct s} : bool :=
  startswith s sub ||
  match s with
  | [] => false
  | _ :: s' => contains sub s'
  end.

Definition can_split (maxsplit : option nat) : bool :=
  match maxsplit with
  | None => true
  | Some n => negb (Nat.eqb n 0)
  end.

Definition one_less (maxsplit : option nat) : option nat :=
  match maxsplit with
  | None => None
  | Some n => Some (Nat.pred n)
  end.

(** The scanning loop of [s.split(sep, maxsplit)] for a non-empty [sep]:
    [cur] is the part being read (reversed) and [skip] counts the
    characters of a matched separator that are still to be passed over. *)
Fixpoint split_from (sep : str) (maxsplit : option nat) (skip : nat)
         (cur : str) (s : str) {struct s} : list str :=
  match s with
  | [] => [reverse cur]
  | c :: s' =>
      match skip with
      | S k => split_from sep maxsplit k cur s'
      | O =>
          if startswith s sep && can_split maxsplit
          then reverse cur
               :: split_from sep (one_less maxsplit) (length sep - 1) [] s'
          else split_from sep maxsplit 0 (c :: cur) s'
      end
  end.

(** [s.split(sep)] and [s.split(sep, n)]; every call site passes a
    non-empty literal separator. *)
Definition split (s sep : str) : list str := split_from sep None 0 [] s.
Definition split_max (s sep : str) (n : nat) : list str :=
  split_from sep (Some n) 0 [] s.

(** [parts[0]], [parts[-1]] and [parts[-2]] on a list of strings; [split]
    never returns the empty list, the default is not reached through it. *)
Definition first_part (parts : list str) : str := default [] (head parts).
Definition last_part (parts : list str) : str := default [] (last parts).
Definition second_last_part (parts : list str) : str :=
  default [] (reverse parts !! 1%nat).

Definition is_ascii_upper (c : char) : bool := (N.leb 65 c && N.leb c 90).
Definition is_ascii_lower (c : char) : bool := (N.leb 97 c && N.leb c 122).
Definition is_ascii_letter (c : char) : bool :=
  is_ascii_upper c || is_ascii_lower c.
Definition is_ascii_digit (c : char) : bool := (N.leb 48 c && N.leb c 57).

Definition underscore : char := ord "_".

(** The character class [[a-zA-Z0-9_]]. *)
Definition is_word_char (c : char) : bool :=
  is_ascii_letter c || is_ascii_digit c || N.eqb c underscore.

(** [s.strip(chars)] for a one-character set. *)
Fixpoint lstrip_char (c : char) (s : str) : str :=
  match s with
  | [] => []
  | x :: s' => if N.eqb x c then lstrip_char c s' else s
  end.
Definition strip_char (c : char) (s : str) : str :=
  reverse (lstrip_char c (reverse (lstrip_char c s))).

End PyStr.
Import PyStr.

(** ** Names of data sources ([data_source.py]) *)

Module Naming.

Section WithEnvironment.

(** Unicode tables outside ASCII: [str.isalpha] of a single character and
    [str.lower] of a single character (which may yield several). *)
Variable unicode_isalpha : char -> bool.
Variable unicode_lower : char -> str.

(** The file system and the path and URL library, as seen by
    [_generate_name]: [os.path.isfile], [os.path.basename], the root part
    of [os.path.splitext] and [urlparse] ([None] when it raises). *)
Record parsed_url := ParseResult { netloc : str; path : str }.
Variable isfile : str -> bool.
Variable basename : str -> str.
Variable splitext_root : str -> str.
Variable urlparse : str -> option parsed_url.

Definition isalpha (c : char) : bool :=
  if N.ltb c 128 then is_ascii_letter c else unicode_isalpha c.

Definition lower_char (c : char) : str :=
  if N.ltb c 128
  then [if is_ascii_upper c then (c + 32)%N else c]
  else unicode_lower c.

(** [s.lower()] *)
Definition lower (s : str) : str := concat (List.map lower_char s).

(** [re.sub(r"[^a-zA-Z0-9_]", "_", name)] *)
Definition re_sub_nonword (name : str) : str :=
  List.map (fun c => if is_word_char c then c else underscore) name.

(** [DataSourceManager._sanitize_name] *)
Definition _sanitize_name (name : str) : str :=
  let sanitized := re_sub_nonword name in
  let sanitized :=
    match sanitized with
    | c :: _ =>
        if negb (isalpha c) && negb (N.eqb c underscore)
        then underscore :: sanitized
        else sanitized
    | [] => sanitized
    end in
  let sanitized := take 50 sanitized in
  match sanitized with
  | [] => lit "unknown"
  | _ :: _ => sanitized
  end.

Definition db_indicators : list str :=
  [lit "://"; lit ".db"; lit ".sqlite"; lit "mongodb://";
   lit "mongodb+srv://"; lit "neo4j://"; lit "bolt://"].

(** The body of the [try] that parses a database URL; [None] stands for
    the tuple-unpacking [ValueError], which the source catches and which
    makes control fall through to the URL handling. *)
Definition parse_database_url (endpoint : str) : option str :=
  match split_max endpoint (lit "://") 1 with
  | [scheme; rest] =>
      let scheme := lower scheme in
      rest' ←
        (if contains (lit "@") rest then
           match split_max rest (lit "@") 1 with
           | [auth_part; host_part] =>
               if contains (lit ":") auth_part
               then Some (first_part (split auth_part (lit ":"))
                          ++ lit "@" ++ host_part)
               else Some rest
           | _ => None
           end
         else Some rest);
      let db_name :=
        if contains (lit "/") rest' then
          let path_parts := split rest' (lit "/") in
          if (1 <? length path_parts)%nat then
            let db_name :=
              first_part
                (split (first_part (split (last_part path_parts) (lit "?")))
                       (lit "#")) in
            match db_name with
            | [] =>
                if (2 <? length path_parts)%nat
                then second_last_part path_parts
                else lit "unknown"
            | _ :: _ => db_name
            end
          else lit "unknown"
        else
          last_part
            (split (first_part (split (first_part (split rest' (lit ":")))
                                      (lit "/")))
                   (lit "@")) in
      Some (_sanitize_name (scheme ++ lit "_" ++ db_name))
  | _ => None
  end.

(** The branch for database connections: [Some name] when it returns. *)
Definition database_name_of (endpoint : str) : option str :=
  if existsb (fun indicator => contains indicator (lower endpoint))
             db_indicators
  then
    if contains (lit "://") endpoint then parse_database_url endpoint
    else if contains (lit ".") endpoint
         then Some (_sanitize_name (splitext_root (basename endpoint)))
         else None
  else None.

(** The branch for URLs: [Some name] when it returns. *)
Definition url_name_of (endpoint : str) : option str :=
  if contains (lit "://") endpoint then
    parsed ← urlparse endpoint;
    match netloc parsed with
    | _ :: _ =>
        let domain :=
          last_part
            (split (first_part (split (netloc parsed) (lit ":")))
                   (lit "@")) in
        match path parsed with
        | [] => Some (_sanitize_name domain)
        | _ :: _ =>
            if bool_decide (path parsed = lit "/")
            then Some (_sanitize_name domain)
            else
              let path_parts :=
                split (strip_char (ord "/") (path parsed)) (lit "/") in
              match path_parts with
              | [] => Some (_sanitize_name domain)
              | _ :: _ => Some (_sanitize_name (last_part path_parts))
              end
        end
    | [] =>
        match path parsed with
        | [] => None
        | _ :: _ =>
            let path_parts :=
              split (strip_char (ord "/") (path parsed)) (lit "/") in
            match path_parts with
            | [] => None
            | _ :: _ => Some (_sanitize_name (last_part path_parts))
            end
        end
    end
  else None.

(** [DataSourceManager._generate_name] *)
Definition _generate_name (endpoint : str) : str :=
  if isfile endpoint
  then _sanitize_name (splitext_root (basename endpoint))
  else
    match database_name_of endpoint with
    | Some name => name
    | None =>
        match url_name_of endpoint with
        | Some name => name
        | None => _sanitize_name (take 50 endpoint)
        end
    end.

End WithEnvironment.

(** A string that starts with a letter or an underscore. *)
Definition well_started (s : str) : Prop :=
  match s with
  | [] => False
  | c :: _ => is_ascii_letter c = true \/ c = underscore
  end.

End Naming.

(** ** Exceptions and results *)

Module Py.

(** The exception classes that occur in the modelled code.  The last three
    derive from [BaseException] only, so that [except Exception] does not
    catch them. *)
Inductive exn_class :=
| ConnectionError
| ZeroDivisionError
| KeyError
| TypeError
| ValueError
| UnboundLocalError
| JSONDecodeError
| SQLAlchemyError
| RuntimeError
| CancelledError
| KeyboardInterrupt
| SystemExit.

(** An exception instance: its class and [str(e)]. *)
Record exn := Exn { cls : exn_class; message : str }.

(** [isinstance(e, Exception)] *)
Definition is_Exception (e : exn) : bool :=
  match cls e with
  | CancelledError | KeyboardInterrupt | SystemExit => false
  | _ => true
  end.

(** The result of running a piece of Python: a value or a raised
    exception. *)
Inductive outcome (A : Type) :=
| Return (a : A)
| Raise (e : exn).
Arguments Return {A} a.
Arguments Raise {A} e.

Definition bind {A B} (m : outcome A) (k : A -> outcome B) : outcome B :=
  match m with
  | Return a => k a
  | Raise e => Raise e
  end.

(** [for x in xs: body], where the body may raise. *)
Fixpoint for_each {A B} (body : A -> outcome B) (xs : list A)
  : outcome (list B) :=
  match xs with
  | [] => Return []
  | x :: xs' =>
      bind (body x) (fun y =>
        bind (for_each body xs') (fun ys => Return (y :: ys)))
  end.

(** Parsed JSON.  Numbers are kept as integers: no modelled code computes
    with the numbers of a response. *)
Inductive json :=
| JNull
| JBool (b : bool)
| JNum (n : Z)
| JStr (s : str)
| JList (items : list json)
| JDict (entries : list (str * json)).

(** Look-up of a key in the entries of a dictionary; [json.loads] keeps the
    last of several equal keys. *)
Fixpoint entry (entries : list (str * json)) (key : str) : option json :=
  match entries with
  | [] => None
  | (k, v) :: rest =>
      match entry rest key with
      | Some v' => Some v'
      | None => if bool_decide (k = key) then Some v else None
      end
  end.

(** [repr] of a string that holds no quote, backslash or control
    character, as are the keys and values at hand: the string between
    single quotes. *)
Definition repr_str (s : str) : str := lit "'" ++ s ++ lit "'".

(** [v[key]] for a string key. *)
Definition subscript (v : json) (key : str) : outcome json :=
  match v with
  | JDict entries =>
      match entry entries key with
      | Some x => Return x
      | None => Raise (Exn KeyError (repr_str key))
      end
  | _ => Raise (Exn TypeError (lit "indices must be integers"))
  end.

(** [key in v] for a string [key]: a key of a dictionary, an element of a
    list, a substring of a string. *)
Definition py_in (key : str) (v : json) : outcome bool :=
  match v with
  | JDict entries => Return (bool_decide (is_Some (entry entries key)))
  | JList items =>
      Return (existsb (fun x => match x with
                                | JStr s => bool_decide (s = key)
                                | _ => false
                                end) items)
  | JStr s => Return (contains key s)
  | _ => Raise (Exn TypeError (lit "argument is not iterable"))
  end.

(** The keys of a dictionary, each once, in the order in which they first
    occur. *)
Fixpoint keys_from (seen : list str) (entries : list (str * json))
  : list str :=
  match entries with
  | [] => []
  | (k, _) :: rest =>
      if bool_decide (k ∈ seen) then keys_from seen rest
      else k :: keys_from (k :: seen) rest
  end.

(** [for x in v]: the elements of a list, the keys of a dictionary, the
    characters of a string. *)
Definition iterate (v : json) : outcome (list json) :=
  match v with
  | JList items => Return items
  | JDict entries => Return (List.map JStr (keys_from [] entries))
  | JStr s => Return (List.map (fun c => JStr [c]) s)
  | _ => Raise (Exn TypeError (lit "object is not iterable"))
  end.

(** Truth value of a JSON value. *)
Definition truthy (v : json) : bool :=
  match v with
  | JNull => false
  | JBool b => b
  | JNum n => negb (n =? 0)
  | JStr s => negb (Nat.eqb (length s) 0)
  | JList items => negb (Nat.eqb (length items) 0)
  | JDict entries => negb (Nat.eqb (length entries) 0)
  end.

End Py.
Import Py.

#[export] Instance outcome_ret : MRet outcome := @Return.
#[export] Instance outcome_bind : MBind outcome :=
  fun A B k m => Py.bind m k.
#[export] Instance outcome_fmap : FMap outcome :=
  fun A B f m => Py.bind m (fun a => Return (f a)).

(** ** Structural schemas ([_data_profiler_factory.py]) *)

Module Schema.

(** Which key holds the samples of a column: the file profilers write
    ["data samples"], the database profiler ["data sample"]. *)
Inductive samples_key := DataSamples | DataSample.

(** One entry of a ["columns"] list. *)
Record column_info := ColumnInfo {
  column_name : str;
  data_type : str;
  samples_at : samples_key;
  data_samples : list str
}.

(** The value under ["irregular_judgment"]: the string ["UNSTRUCTURED"] or
    the judgement returned by the model. *)
Inductive judgment :=
| UNSTRUCTURED
| Judged (res : json).

(** The dictionary describing one table.  A field is [None] when the key is
    missing; for [raw_data_snippet] and [row_count] it also stands for the
    value [None], which no reader of the dictionary tells apart. *)
Record table_schema := TableSchema {
  name : str;
  raw_data_snippet : option str;
  row_count : option Z;
  col_count : option nat;
  columns : option (list column_info);
  irregular_judgment : option judgment
}.

(** [self.data]: what [_read_data] returns. *)
Inductive source_data :=
| SingleTable (table : table_schema)
| MultiTable (source_name : str) (tables : list table_schema)
| ImagePath (image_path : str).

(** A profile table, a profile, and the empty dictionary that stands for a
    failed profiling. *)
Record profile_table := ProfileTable {
  pt_name : str;
  pt_description : json;
  pt_columns : option (list column_info);
  pt_irregular_judgment : option judgment
}.

Inductive profile :=
| EmptyProfile
| StructuredProfile (p_name : str) (p_description : json)
                    (p_columns : option (list column_info))
                    (p_tables : option (list profile_table))
| ImageProfile (p_name : str) (p_description p_details : json).

(** A column of a pandas data frame: its label (after [astype(str)]), the
    name of its dtype and its values. *)
Record series (cell : Type) := Series {
  label : str;
  dtype : str;
  values : list cell
}.
Arguments Series {cell} _ _ _.
Arguments label {cell} _.
Arguments dtype {cell} _.
Arguments values {cell} _.

Record dataframe (cell : Type) := DataFrame {
  frame_columns : list (series cell);
  frame_len : nat
}.
Arguments DataFrame {cell} _ _.
Arguments frame_columns {cell} _.
Arguments frame_len {cell} _.

(** [df.columns] *)
Definition column_labels {cell} (df : dataframe cell) : list str :=
  List.map label (frame_columns df).

(** [sum(col.startswith("Unnamed") for col in cols)] *)
Definition unnamed_count (cols : list str) : nat :=
  length (List.filter (fun col => startswith col (lit "Unnamed")) cols).

(** [StructuredDataProfiler.is_irregular].  The quotient of the two
    integers is a float in the source; it is kept here as the exact
    rational, which the comparison with [0.5] cannot tell from the rounded
    one for any list that fits in memory. *)
Definition is_irregular (cols : list str) : outcome bool :=
  let unnamed := unnamed_count cols in
  match length cols with
  | O => Raise (Exn ZeroDivisionError (lit "division by zero"))
  | S _ =>
      let unnamed_columns_ratio : Q :=
        Qmake (Z.of_nat unnamed) (Pos.of_nat (length cols)) in
      Return (Qle_bool (1 # 2) unnamed_columns_ratio)
  end.

(** [Series.drop_duplicates()]: the first occurrence of each value is
    kept, in order. *)
Fixpoint drop_duplicates_seen {cell} `{EqDecision cell}
         (seen : list cell) (vs : list cell) : list cell :=
  match vs with
  | [] => []
  | v :: vs' =>
      if bool_decide (v ∈ seen)
      then drop_duplicates_seen seen vs'
      else v :: drop_duplicates_seen (v :: seen) vs'
  end.
Definition drop_duplicates {cell} `{EqDecision cell} (vs : list cell)
  : list cell := drop_duplicates_seen [] vs.

(** The sum of the lengths of a list of strings. *)
Definition total_length (l : list str) : nat :=
  sum_list_with length l.

(** One turn of the loop that fills [samples]: the state is the list built
    so far and the running [length], which grows at every turn. *)
Definition sample_step (st : list str * nat) (s : str) : list str * nat :=
  let length' := (snd st + length s)%nat in
  (if (length' <=? 1000)%nat then fst st ++ [s] else fst st, length').


(** The loop over [candidates] as it runs: [len(s)] raises on a candidate
    that is no string, and the loop ends there. *)
Fixpoint fill_samples (st : list str * nat) (candidates : list (option str))
  : outcome (list str) :=
  match candidates with
  | [] => Return (fst st)
  | Some s :: rest => fill_samples (sample_step st s) rest
  | None :: _ =>
      Raise (Exn TypeError (lit "object of type 'float' has no len()"))
  end.

(** [str.upper()] on the name of a dtype, which is ASCII. *)
Definition upper (s : str) : str :=
  List.map (fun c => if is_ascii_lower c then (c - 32)%N else c) s.

Section Extraction.

Context {cell : Type} `{EqDecision cell}.

(** [astype(str)] on a value, the fixed-seed shuffle
    [sample(frac=1, random_state=42)] and [to_csv(index=True)].
    [astype(str)] gives [None] for a value that it does not turn into a
    string: a missing value, which pandas 3 keeps as the float [nan]
    (earlier versions write it out, and give a string for every value). *)
Variable cell_str : cell -> option str.
Variable shuffle : list cell -> list cell.
Variable to_csv : dataframe cell -> str.

(** [df.head(n)] *)
Definition head_rows (n : nat) (df : dataframe cell) : dataframe cell :=
  DataFrame
    (List.map (fun c => Series (label c) (dtype c) (take n (values c)))
              (frame_columns df))
    (Nat.min n (frame_len df)).

Definition candidates_of (col : series cell) : list (option str) :=
  List.map cell_str (take 5 (shuffle (drop_duplicates (values col)))).

(** The body of the loop over the columns. *)
Definition column_of (col : series cell) : outcome column_info :=
  samples ← fill_samples ([], 0%nat) (candidates_of col);
  Return (ColumnInfo (label col) (upper (dtype col)) DataSamples samples).

(** [StructuredDataProfiler._extract_schema_from_table] *)
Definition _extract_schema_from_table (df : dataframe cell) (df_name : str)
  : outcome table_schema :=
  col_list ← for_each column_of (frame_columns df);
  let raw_data_snippet := to_csv (head_rows 5 df) in
  Return (TableSchema df_name
                      (Some raw_data_snippet)
                      (if (frame_len df <? 100)%nat
                       then Some (Z.of_nat (frame_len df)) else None)
                      (Some (length (frame_columns df)))
                      (Some col_list)
                      None).

End Extraction.

End Schema.
Import Schema.

(** ** Merging the model's answer with the schema *)

Module Merge.

Definition data_name (data : source_data) : outcome str :=
  match data with
  | SingleTable t => Return (name t)
  | MultiTable n _ => Return n
  | ImagePath _ =>
      Raise (Exn TypeError (lit "string indices must be integers"))
  end.

(** The value under ["columns"] of [self.data], when the key is there. *)
Definition data_columns (data : source_data) : option (list column_info) :=
  match data with
  | SingleTable t => columns t
  | _ => None
  end.

(** The value under ["tables"] of [self.data], when the key is there. *)
Definition data_tables (data : source_data) : option (list table_schema) :=
  match data with
  | MultiTable _ ts => Some ts
  | _ => None
  end.

(** A key of [res_des_map].  Lists and dictionaries are not hashable. *)
Definition hashable (v : json) : bool :=
  match v with
  | JList _ | JDict _ => false
  | _ => true
  end.

(** One entry of the comprehension that builds [res_des_map]: the name and
    the description of a table of the response. *)
Definition described (table : json) : outcome (json * json) :=
  key ← subscript table (lit "name");
  description ← subscript table (lit "description");
  if hashable key then Return (key, description)
  else Raise (Exn TypeError (lit "unhashable type")).

(** [res_des_map], restricted to its string keys: it is only ever looked
    up with the name of a table of the schema, which is a string and is
    equal to no other kind of key.  Later entries replace earlier ones. *)
Definition record_description (m : gmap str json) (kv : json * json)
  : gmap str json :=
  match fst kv with
  | JStr table_name => <[table_name := snd kv]> m
  | _ => m
  end.

Definition res_des_map_of (response_tables : json)
  : outcome (gmap str json) :=
  tables ← iterate response_tables;
  entries ← for_each described tables;
  Return (foldl record_description ∅ entries).

(** The body of the loop over [self.data["tables"]]: [None] is
    [continue]. *)
Definition merge_table (res_des_map : gmap str json) (table : table_schema)
  : option profile_table :=
  let table_name := name table in
  match res_des_map !! table_name with
  | None => None
  | Some description =>
      Some (ProfileTable table_name description
                         (columns table) (irregular_judgment table))
  end.

(** The part of [_wrap_data_response] that builds [new_schema["tables"]];
    [None] when the key is not written. *)
Definition merged_tables (data : source_data) (response : json)
  : outcome (option (list profile_table)) :=
  match data_tables data with
  | None => Return None
  | Some tables =>
      in_response ← py_in (lit "tables") response;
      if in_response : bool then
        response_tables ← subscript response (lit "tables");
        res_des_map ← res_des_map_of response_tables;
        Return (Some (omap (merge_table res_des_map) tables))
      else Return None
  end.

(** [StructuredDataProfiler._wrap_data_response] *)
Definition _wrap_data_response (data : source_data) (response : json)
  : outcome profile :=
  new_name ← data_name data;
  new_description ← subscript response (lit "description");
  let new_columns := data_columns data in
  new_tables ← merged_tables data response;
  Return (StructuredProfile new_name new_description new_columns new_tables).

(** [ImageProfiler._wrap_data_response] *)
Definition image_wrap_data_response (file_name : str) (response : json)
  : outcome profile :=
  description ← subscript response (lit "description");
  details ← subscript response (lit "details");
  Return (ImageProfile file_name description details).

(** What a response says about a table name, read off the list of its
    (name, description) entries: the description of the last table so named,
    and the names that occur at all. *)
Definition named_as (table_name : str) (kv : json * json) : option json :=
  match fst kv with
  | JStr s => if bool_decide (s = table_name) then Some (snd kv) else None
  | _ => None
  end.

Definition description_for (named : list (json * json)) (table_name : str)
  : option json :=
  last (omap (named_as table_name) named).

Definition response_names (named : list (json * json)) : list str :=
  omap (fun kv => match fst kv with JStr s => Some s | _ => None end) named.

(** A table of the response, with its name and description. *)
Definition describes (table : json) (kv : json * json) : Prop :=
  subscript table (lit "name") = Return (fst kv)
  /\ subscript table (lit "description") = Return (snd kv)
  /\ hashable (fst kv) = true.

(** A profile table that has the name, the columns and the judgement of one
    of the tables of the schema. *)
Definition taken_from (tables : list table_schema) (pt : profile_table)
  : Prop :=
  exists t, t ∈ tables
            /\ pt_name pt = name t
            /\ pt_columns pt = columns t
            /\ pt_irregular_judgment pt = irregular_judgment t.

(** The profile table built from a table of the schema and a description:
    the columns and the judgement are those of the schema. *)
Definition carried_over (named : list (json * json)) (table : table_schema)
  : option profile_table :=
  description ← description_for named (name table);
  Some (ProfileTable (name table) description
                     (columns table) (irregular_judgment table)).

End Merge.
Import Merge.

(** ** Relational introspection ([RelationalDatabaseProfiler._read_data]) *)

Module Introspection.

(** A value of a fetched row: [None] or a value known by its [str()]. *)
Inductive dbvalue :=
| DbNull
| DbValue (val_str : str).

Definition row := list dbvalue.

(** An entry of [inspector.get_columns]: [col["name"]] and
    [str(col["type"])]. *)
Record db_column := DbColumn { col_name : str; col_type : str }.

(** What the database answers for one table: the column metadata, the row
    of [SELECT COUNT( * )] ([None] when [fetchone] has no row) and the rows
    of [SELECT * ... LIMIT 5]. *)
Record table_access := TableAccess {
  get_columns : outcome (list db_column);
  count_rows : outcome (option Z);
  select_rows : outcome (list row)
}.

Record database := Database {
  create_engine : outcome unit;
  connect : outcome unit;
  get_table_names : outcome (list str);
  table : str -> table_access
}.

(** [sep.join(parts)] *)
Fixpoint join (sep : str) (parts : list str) : str :=
  match parts with
  | [] => []
  | [p] => p
  | p :: rest => p ++ sep ++ join sep rest
  end.

Definition newline : str := [10%N].
Definition double_quote : str := [34%N].

Definition row_value (value : dbvalue) : str :=
  match value with
  | DbNull => lit "NULL"
  | DbValue val_str =>
      if contains (lit ",") val_str || contains newline val_str
      then double_quote ++ val_str ++ double_quote
      else val_str
  end.

(** The text built under "3. Get raw data snippet". *)
Definition snippet_of (columns : list db_column) (rows : list row) : str :=
  match rows with
  | [] => []
  | _ :: _ =>
      join newline
           (join (lit ", ") (List.map col_name columns)
            :: List.map (fun r => join (lit ", ") (List.map row_value r))
                        rows)
  end.

Definition sample_values (i : nat) (rows : list row) : list str :=
  omap (fun r : row =>
          match r !! i with
          | Some DbNull => Some (lit "NULL")
          | Some (DbValue val_str) => Some val_str
          | None => None
          end) rows.

(** The list built under "4. detailed column info". *)
Definition column_details (columns : list db_column) (rows : list row)
  : list column_info :=
  match rows with
  | [] => []
  | _ :: _ =>
      imap (fun i col =>
              ColumnInfo (col_name col) (col_type col) DataSample
                         (take 3 (sample_values i rows)))
           columns
  end.

(** Steps 4 and after of the loop body.  [rows_var] is the local variable
    [rows]: [None] while it has never been assigned.  It belongs to the
    function, not to the turn of the loop. *)
Definition describe_table (table_name : str) (columns : list db_column)
           (row_count : Z) (snippet : option str)
           (rows_var : option (list row))
  : outcome table_schema * option (list row) :=
  match rows_var with
  | None => (Raise (Exn UnboundLocalError (lit "rows")), None)
  | Some rows =>
      (Return (TableSchema table_name snippet (Some row_count)
                           (Some (length columns))
                           (Some (column_details columns rows))
                           None),
       rows_var)
  end.

(** The body of the outer [try] for one table, with the value of [rows]
    before and after. *)
Definition introspect_table (db : database) (rows_var : option (list row))
           (table_name : str)
  : outcome table_schema * option (list row) :=
  match get_columns (table db table_name) with
  | Raise e => (Raise e, rows_var)
  | Return columns =>
      match count_rows (table db table_name) with
      | Raise e => (Raise e, rows_var)
      | Return row_count_result =>
          let row_count := default 0 row_count_result in
          match select_rows (table db table_name) with
          | Return rows =>
              describe_table table_name columns row_count
                             (Some (snippet_of columns rows)) (Some rows)
          | Raise e =>
              if is_Exception e
              then describe_table table_name columns row_count None rows_var
              else (Raise e, rows_var)
          end
      end
  end.

(** The loop over [table_names]: a table whose body raises an [Exception]
    is logged and skipped. *)
Fixpoint introspect_tables (db : database) (rows_var : option (list row))
         (table_names : list str) : outcome (list table_schema) :=
  match table_names with
  | [] => Return []
  | table_name :: rest =>
      match introspect_table db rows_var table_name with
      | (Return table_info, rows_var') =>
          tables_data ← introspect_tables db rows_var' rest;
          Return (table_info :: tables_data)
      | (Raise e, rows_var') =>
          if is_Exception e
          then introspect_tables db rows_var' rest
          else Raise e
      end
  end.

(** [RelationalDatabaseProfiler._read_data] *)
Definition _read_data (path : str) (db : database) : outcome source_data :=
  _ ← create_engine db;
  match connect db with
  | Raise e =>
      if is_Exception e
      then Raise (Exn ConnectionError
                      (lit "Failed to connect to database: " ++ message e))
      else Raise e
  | Return _ =>
      table_names ← get_table_names db;
      tables_data ← introspect_tables db None table_names;
      Return (MultiTable path tables_data)
  end.

(** Whether a step returned, and whether what it raised, if anything, is an
    [Exception]. *)
Definition fetched {A} (o : outcome A) : bool :=
  match o with
  | Return _ => true
  | Raise _ => false
  end.

Definition fails_softly {A} (o : outcome A) : Prop :=
  match o with
  | Return _ => True
  | Raise e => is_Exception e = true
  end.

(** A table whose column metadata and row count are both obtained. *)
Definition readable (db : database) (table_name : str) : bool :=
  fetched (get_columns (table db table_name))
  && fetched (count_rows (table db table_name)).

(** A table for which every failure is an [Exception] and whose sample query
    succeeds if its column fetch and its count do. *)
Definition well_behaved (db : database) (table_name : str) : Prop :=
  fails_softly (get_columns (table db table_name))
  /\ fails_softly (count_rows (table db table_name))
  /\ (readable db table_name = true ->
      fetched (select_rows (table db table_name)) = true).

(** What the loop makes of a table it keeps. *)
Definition introspected (db : database) (ts : table_schema) : Prop :=
  exists cols rc rows,
    get_columns (table db (name ts)) = Return cols
    /\ count_rows (table db (name ts)) = Return rc
    /\ select_rows (table db (name ts)) = Return rows
    /\ row_count ts = Some (default 0 rc)
    /\ col_count ts = Some (length cols)
    /\ columns ts = Some (column_details cols rows)
    /\ raw_data_snippet ts = Some (snippet_of cols rows).

(** Table isolation as the specification words it: the tables of the result
    are those whose column metadata could be fetched, whatever happened to
    their row count. *)
Definition isolation_as_specified (db : database) (table_names : list str)
  : Prop :=
  forall tables_data,
    introspect_tables db None table_names = Return tables_data ->
    List.map name tables_data
    = List.filter (fun t => fetched (get_columns (table db t))) table_names.

(** A database with the tables [users], [orders] and [audit]: the count
    query on [orders] fails, and so does the column fetch on [audit]. *)
Definition db_error (what : string) : exn := Exn SQLAlchemyError (lit what).

Definition shop_table (table_name : str) : table_access :=
  if bool_decide (table_name = lit "users") then
    TableAccess (Return [DbColumn (lit "id") (lit "INTEGER")])
                (Return (Some 2))
                (Return [[DbValue (lit "1")]; [DbValue (lit "2")]])
  else if bool_decide (table_name = lit "orders") then
    TableAccess (Return [DbColumn (lit "id") (lit "INTEGER")])
                (Raise (db_error "permission denied"))
                (Return [[DbValue (lit "7")]])
  else
    TableAccess (Raise (db_error "no such table"))
                (Raise (db_error "no such table"))
                (Raise (db_error "no such table")).

Definition shop_db : database :=
  Database (Return tt) (Return tt)
           (Return [lit "users"; lit "orders"; lit "audit"])
           shop_table.

(** The same database when the server cannot be reached. *)
Definition unreachable_db : database :=
  Database (Return tt) (Raise (db_error "connection refused"))
           (Return [lit "users"; lit "orders"; lit "audit"])
           shop_table.

End Introspection.

(** ** The profilers and [generate_profile] *)

Module Profiler.

(** What is sent to the model: a text, or a text and an image. *)
Inductive content :=
| TextContent (text : str)
| ImageContent (text : str) (url : str).

Section WithWorld.

Context {cell : Type} `{EqDecision cell}.
Variable cell_str : cell -> option str.
Variable shuffle : list cell -> list cell.
Variable to_csv : dataframe cell -> str.

(** The model gateway (which raises once its retries are used up),
    [json.loads], [str.isspace] on one character, and [str.format] on a
    prompt with the data or with a raw snippet. *)
Variable llm_call_manager : content -> outcome str.
Variable json_loads : str -> outcome json.
Variable isspace : char -> bool.
Variable format_data : str -> source_data -> outcome str.
Variable format_snippet : str -> str -> outcome str.

(** A CSV file as the two readers see it: the row count of the polars
    scan and the first 100 rows read by pandas. *)
Record csv_file := CsvFile {
  scan_count : outcome Z;
  read_csv : outcome (dataframe cell)
}.

(** An Excel file: its sheet names, the first 100 rows of a sheet read by
    pandas, the rows of a sheet read by openpyxl (a cell is [None] or its
    [str()]), the prompt for irregular sheets and the second read of a
    sheet directed by a judgement (lines 370 to 379 of the source, which
    read ["reasoning"], ["row_start_index"] and ["col_ranges"]). *)
Record workbook := Workbook {
  sheet_names : outcome (list str);
  read_excel : str -> outcome (dataframe cell);
  iter_rows : str -> outcome (list (list (option str)));
  load_irregular_prompt : outcome str;
  read_excel_region : str -> json -> outcome (dataframe cell)
}.

Inductive source :=
| CsvSource (f : csv_file)
| ExcelSource (wb : workbook)
| RelationalSource (db : Introspection.database)
| ImageSource.

Record profiler := Build_profiler {
  path : str;
  file_name : str;
  prompt : str;
  kind : source
}.

Fixpoint lstrip (s : str) : str :=
  match s with
  | [] => []
  | c :: s' => if isspace c then lstrip s' else s
  end.
Definition rstrip (s : str) : str := reverse (lstrip (reverse s)).
Definition strip (s : str) : str := rstrip (lstrip s).
Definition endswith (s p : str) : bool :=
  startswith (reverse s) (reverse p).

Definition fence : str := lit "```".
Definition json_fence : str := lit "```json".

(** [BaseDataProfiler.tool_clean_json] *)
Definition tool_clean_json (raw_response : str) : outcome json :=
  let cleaned_response := strip raw_response in
  let cleaned_response :=
    if startswith cleaned_response json_fence
    then lstrip (drop (length json_fence) cleaned_response)
    else cleaned_response in
  let cleaned_response :=
    if startswith cleaned_response fence
    then lstrip (drop (length fence) cleaned_response)
    else cleaned_response in
  let cleaned_response :=
    if endswith cleaned_response fence
    then rstrip (take (length cleaned_response - 3) cleaned_response)
    else cleaned_response in
  json_loads cleaned_response.

(** [BaseDataProfiler._generate_profile_by_llm] *)
Definition _generate_profile_by_llm (c : content) : outcome json :=
  response ← llm_call_manager c;
  tool_clean_json response.

Definition unstructured (sheet_name raw_data_snippet : str)
  : table_schema :=
  TableSchema sheet_name (Some raw_data_snippet) None None None
              (Some UNSTRUCTURED).

(** [ExcelProfiler._extract_irregular_table] *)
Definition _extract_irregular_table (wb : workbook)
           (raw_data_snippet sheet_name : str) : outcome table_schema :=
  irregular_prompt ← load_irregular_prompt wb;
  text ← format_snippet irregular_prompt raw_data_snippet;
  res ← _generate_profile_by_llm (TextContent text);
  has_flag ← py_in (lit "is_extractable_table") res;
  extractable ←
    (if has_flag : bool
     then truthy <$> subscript res (lit "is_extractable_table")
     else Return false);
  if extractable : bool then
    df ← read_excel_region wb sheet_name res;
    irregular ← is_irregular (column_labels df);
    if irregular : bool
    then Return (unstructured sheet_name raw_data_snippet)
    else
      schema ← _extract_schema_from_table cell_str shuffle to_csv
                                          df sheet_name;
      Return (TableSchema (name schema) (Schema.raw_data_snippet schema)
                          (row_count schema) (col_count schema)
                          (columns schema) (Some (Judged res)))
  else Return (unstructured sheet_name raw_data_snippet).

Definition row_text (r : list (option str)) : str :=
  Introspection.join (lit ",") (List.map (default []) r).

(** The body of the loop over the sheets in [ExcelProfiler._read_data]. *)
Definition read_sheet (wb : workbook) (sheet_name : str)
  : outcome table_schema :=
  df ← read_excel wb sheet_name;
  irregular ← is_irregular (column_labels df);
  if irregular : bool then
    rows ← iter_rows wb sheet_name;
    let rows_data := List.map row_text (take 100 rows) in
    _extract_irregular_table wb
      (Introspection.join Introspection.newline rows_data) sheet_name
  else
    _extract_schema_from_table cell_str shuffle to_csv df sheet_name.

(** [ExcelProfiler._read_data] *)
Definition excel_read_data (p : profiler) (wb : workbook)
  : outcome source_data :=
  names ← sheet_names wb;
  table_schemas ← for_each (read_sheet wb) names;
  Return (MultiTable (file_name p) table_schemas).

(** [CsvProfiler._read_data]: the schema is always extracted directly;
    the check for irregular columns is commented out in the source. *)
Definition csv_read_data (p : profiler) (f : csv_file)
  : outcome source_data :=
  row_count' ← scan_count f;
  df ← read_csv f;
  schema ← _extract_schema_from_table cell_str shuffle to_csv
                                      df (file_name p);
  Return (SingleTable
            (TableSchema (name schema) (raw_data_snippet schema)
                         (Some row_count') (col_count schema)
                         (columns schema) (irregular_judgment schema))).

(** [_read_data] of the profiler chosen by [DataProfilerFactory]. *)
Definition _read_data (p : profiler) : outcome source_data :=
  match kind p with
  | CsvSource f => csv_read_data p f
  | ExcelSource wb => excel_read_data p wb
  | RelationalSource db => Introspection._read_data (path p) db
  | ImageSource => Return (ImagePath (path p))
  end.

(** [_build_content_with_prompt_and_data] *)
Definition _build_content_with_prompt_and_data (p : profiler)
           (prompt' : str) (data : source_data) : outcome content :=
  match kind p, data with
  | ImageSource, ImagePath url => Return (ImageContent prompt' url)
  | ImageSource, _ =>
      (* not reached: the image profiler reads an [ImagePath] *)
      Raise (Exn TypeError (lit "image data is a path"))
  | _, _ => TextContent <$> format_data prompt' data
  end.

(** [_wrap_data_response] *)
Definition wrap_data_response (p : profiler) (data : source_data)
           (response : json) : outcome profile :=
  match kind p with
  | ImageSource => image_wrap_data_response (file_name p) response
  | _ => _wrap_data_response data response
  end.

(** The body of the [try] in [generate_profile]. *)
Definition profile_lifecycle (p : profiler) : outcome profile :=
  data ← _read_data p;
  c ← _build_content_with_prompt_and_data p (prompt p) data;
  res ← _generate_profile_by_llm c;
  wrap_data_response p data res.

(** [BaseDataProfiler.generate_profile] *)
Definition generate_profile (p : profiler) : outcome profile :=
  match profile_lifecycle p with
  | Return profile' => Return profile'
  | Raise e =>
      if is_Exception e then Return EmptyProfile else Raise e
  end.

End WithWorld.

(** A string of white space only. *)
Definition blank (isspace : char -> bool) (ws : str) : Prop :=
  Forall (fun c => isspace c = true) ws.

(** A result that comes from the recovery path for irregular tables: a
    single table that carries a judgement. *)
Definition routed_to_irregular (o : outcome source_data) : Prop :=
  exists table, o = Return (SingleTable table)
                /\ is_Some (irregular_judgment table).

End Profiler.

(** ** Truncation of tool responses ([text_post_hook.py]) *)

Module TextPostHook.

(** A content block of a tool response; only its ["type"] and, for a text
    block, its ["text"] are read. *)
Inductive block :=
| TextBlock (text : str)
| ImageBlock (url : str)
| AudioBlock (url : str)
| VideoBlock (url : str).

(** [tool_response.content] *)
Inductive response_content :=
| ContentList (blocks : list block)
| ContentStr (text : str).

Record hook := Hook { budget : Z; auto_save : bool }.

Definition append_hint : str :=
  [10%N; 10%N] ++ lit "[Content is too long and truncated....]".

(** [text[:n]], for an [n] of either sign. *)
Definition slice_to (text : str) (n : Z) : str :=
  if 0 <=? n then take (Z.to_nat n) text
  else take (length text - Z.to_nat (- n)) text.

(** [int(budget * 0.85)]: the product is a float in the source and [int]
    rounds towards zero; for the character counts at hand the float product
    has the same integer part as the exact one. *)
Definition threshold_of (remaining : Z) : Z := Z.quot (remaining * 85) 100.

(** The loop over [tool_response.content]: the blocks appended to the new
    response and the final [is_truncated].  [remaining] is the local
    variable [budget], which each text block decrements. *)
Fixpoint truncate_blocks (remaining : Z) (blocks : list block)
  : list block * bool :=
  match blocks with
  | [] => ([], false)
  | TextBlock text :: rest =>
      let text_len := Z.of_nat (length text) in
      let is_truncated := remaining <? text_len in
      let new_block :=
        if is_truncated
        then TextBlock (slice_to text (threshold_of remaining) ++ append_hint)
        else TextBlock text in
      let remaining' := remaining - text_len in
      if remaining' <=? 0 then ([new_block], is_truncated)
      else
        let '(out, later) := truncate_blocks remaining' rest in
        (new_block :: out, is_truncated || later)
  | _ :: rest => truncate_blocks remaining rest
  end.

(** The file written by [_save_tmp_file]: where, and the content dumped. *)
Record saved_file := SavedFile {
  file_path : str;
  dumped : response_content
}.

Section WithEnvironment.

(** The directory constant of [alias.agent.utils.constants], and the
    threshold of the string branch,
    [int(budget / text_len * len(text) * 0.8)], which is computed in
    floating point. *)
Variable TMP_FILE_DIR : str.
Variable float_threshold : Z -> Z -> Z.

(** [os.path.join] of two components. *)
Definition path_join (a b : str) : str :=
  if startswith b (lit "/") then b
  else
    match last a with
    | None => b
    | Some c => if N.eqb c (ord "/") then a ++ b else a ++ lit "/" ++ b
    end.

(** The text block returned by [_save_tmp_file].  Of the adjacent string
    literals of the long text only the first is an f-string: the path is
    written after [Dump the complete long file at], and the hint for [grep]
    keeps the braces and the name [file_path] as they stand. *)
Definition pointer_block (file_path' : str) (is_truncated : bool) : block :=
  if is_truncated
  then TextBlock
         (lit "Dump the complete long file at " ++ file_path' ++ lit ". "
          ++ lit "Don't try to read the complete file directly. "
          ++ lit "Use `grep -C 10 'YOUR_PATTERN' {file_path}` or "
          ++ lit "other bash command to extract "
          ++ lit "useful information.")
  else TextBlock (lit "Results dumped at " ++ file_path' ++ lit ". ").

(** [_save_tmp_file]: [uuid8] is [uuid.uuid4().hex[:8]]. *)
Definition _save_tmp_file (save_file_name_prefix uuid8 : str)
           (original : response_content) (is_truncated : bool)
  : block * saved_file :=
  let save_file_name := save_file_name_prefix ++ lit "-" ++ uuid8 in
  let file_path' := path_join TMP_FILE_DIR save_file_name in
  (pointer_block file_path' is_truncated, SavedFile file_path' original).

(** [TextPostHook.truncate_and_save_response]: the new content and the
    file written, if any.  [tool_name] is [tool_use.get("name", "")]. *)
Definition truncate_and_save_response (h : hook) (tool_name uuid8 : str)
           (original : response_content)
  : response_content * option saved_file :=
  match original with
  | ContentList blocks =>
      let '(out, is_truncated) := truncate_blocks (budget h) blocks in
      if auto_save h || is_truncated then
        let '(save_text_block, file) :=
          _save_tmp_file tool_name uuid8 original is_truncated in
        (ContentList (out ++ [save_text_block]), Some file)
      else (ContentList out, None)
  | ContentStr text =>
      let text_len := Z.of_nat (length text) in
      let is_truncated := budget h <? text_len in
      if auto_save h || is_truncated then
        let '(save_text_block, file) :=
          _save_tmp_file tool_name uuid8 original is_truncated in
        if is_truncated then
          let threshold := float_threshold (budget h) text_len in
          (ContentList
             [TextBlock (slice_to text threshold ++ append_hint);
              save_text_block],
           Some file)
        else (ContentList [TextBlock text; save_text_block], Some file)
      else (ContentStr text, None)
  end.

End WithEnvironment.

(** The texts of the text blocks of a content, in order. *)
Definition texts_of (blocks : list block) : list str :=
  omap (fun b => match b with TextBlock text => Some text | _ => None end)
       blocks.

Definition is_text (b : block) : Prop :=
  match b with
  | TextBlock _ => True
  | _ => False
  end.

(** The walk over the segments as the specification words it, for text
    segments: a segment within the remaining budget passes and decrements
    the counter; the first one that exceeds it is cut to 85% of the
    configured budget and gets the marker; the following ones are
    dropped. *)
Fixpoint spec_truncate_texts (configured remaining : Z) (segments : list str)
  : list str :=
  match segments with
  | [] => []
  | text :: rest =>
      let text_len := Z.of_nat (length text) in
      if text_len <=? remaining
      then text :: spec_truncate_texts configured (remaining - text_len) rest
      else [take (Z.to_nat (configured * 85 / 100)) text ++ append_hint]
  end.

End TextPostHook.

(** ** Source types ([_typing.py]) and their detection *)

Module Typing.

Inductive SourceType :=
| CSV
| JSON
| EXCEL
| TEXT
| IMAGE
| RELATIONAL_DB
| OTHER.

Inductive SourceAccessType :=
| DIRECT
| VIA_MCP.

(** [t.value], which is also [str(t)]. *)
Definition value (t : SourceType) : str :=
  match t with
  | CSV => lit "csv"
  | JSON => lit "json"
  | EXCEL => lit "excel"
  | TEXT => lit "text"
  | IMAGE => lit "image"
  | RELATIONAL_DB => lit "relational_db"
  | OTHER => lit "other"
  end.

Definition members : list SourceType :=
  [CSV; JSON; EXCEL; TEXT; IMAGE; RELATIONAL_DB; OTHER].

(** [SourceType(v)]: the member with that value, or [ValueError]. *)
Definition SourceType_of (v : str) : outcome SourceType :=
  match List.find (fun t => bool_decide (value t = v)) members with
  | Some t => Return t
  | None =>
      Raise (Exn ValueError (repr_str v ++ lit " is not a valid SourceType"))
  end.

(** [SourceType.is_valid_source_type] *)
Definition is_valid_source_type (v : str) : bool :=
  match SourceType_of v with
  | Return _ => true
  | Raise _ => false
  end.

(** [SOURCE_TYPE_TO_ACCESS_TYPE[t]]: every member is a key; the value for
    [OTHER] is [None]. *)
Definition SOURCE_TYPE_TO_ACCESS_TYPE (t : SourceType)
  : option SourceAccessType :=
  match t with
  | CSV | JSON | EXCEL | TEXT | IMAGE => Some DIRECT
  | RELATIONAL_DB => Some VIA_MCP
  | OTHER => None
  end.

Section Detection.

Variable unicode_lower : char -> str.

(** [s.endswith((a, b, ...))] *)
Definition endswith_any (s : str) (suffixes : list str) : bool :=
  existsb (Profiler.endswith s) suffixes.

Definition relational_keywords : list str :=
  [lit "postgresql://"; lit "postgres://"; lit "pg://"; lit "mysql://";
   lit "mariadb://"; lit "sqlserver://"].

(** [DataSourceManager._detect_source_type] *)
Definition _detect_source_type (endpoint : str) : SourceType :=
  let endpoint_lower := Naming.lower unicode_lower endpoint in
  if Profiler.endswith endpoint_lower (lit ".csv") then CSV
  else if endswith_any endpoint_lower [lit ".xls"; lit ".xlsx"; lit "xlsm"]
  then EXCEL
  else if Profiler.endswith endpoint_lower (lit ".json") then JSON
  else if endswith_any endpoint_lower [lit ".txt"; lit ".log"; lit ".md"]
  then TEXT
  else if endswith_any endpoint_lower
            [lit ".jpg"; lit ".jpeg"; lit ".png"; lit ".gif"; lit ".bmp"]
  then IMAGE
  else if existsb (fun keyword => contains keyword endpoint_lower)
                  relational_keywords
  then RELATIONAL_DB
  else if contains (lit "sqlite://") endpoint_lower
          || Profiler.endswith endpoint_lower (lit ".db")
          || Profiler.endswith endpoint_lower (lit ".sqlite")
  then RELATIONAL_DB
  else OTHER.

End Detection.

End Typing.

(** ** Placeholders in configurations ([utils.py]) *)

Module Placeholders.

Definition dollar : char := ord "$".
Definition closing_brace : char := ord "}".

(** The characters before the first [}] and what follows it. *)
Fixpoint until_brace (s : str) : option (str * str) :=
  match s with
  | [] => None
  | c :: s' =>
      if N.eqb c closing_brace then Some ([], s')
      else match until_brace s' with
           | Some (v, rest) => Some (c :: v, rest)
           | None => None
           end
  end.

(** The variable of the match of [\$\{([^}]+)\}] at the start of [s], if
    there is one: [${], then at least one character other than [}], then
    [}]. *)
Definition placeholder_at (s : str) : option str :=
  if startswith s (lit "${") then
    match until_brace (drop 2 s) with
    | Some (c :: v, _) => Some (c :: v)
    | _ => None
    end
  else None.

(** [re.finditer(pattern, s)], as the list of the variables matched;
    [skip] counts the characters of the last match still to be passed. *)
Fixpoint find_placeholders (skip : nat) (s : str) : list str :=
  match s with
  | [] => []
  | _ :: s' =>
      match skip with
      | S k => find_placeholders k s'
      | O =>
          match placeholder_at s with
          | Some var => var :: find_placeholders (length var + 2) s'
          | None => find_placeholders 0 s'
          end
      end
  end.

(** [s.replace(old, new)] for a non-empty [old]. *)
Fixpoint replace_from (old new : str) (skip : nat) (s : str) : str :=
  match s with
  | [] => []
  | c :: s' =>
      match skip with
      | S k => replace_from old new k s'
      | O =>
          if startswith s old
          then new ++ replace_from old new (length old - 1) s'
          else c :: replace_from old new 0 s'
      end
  end.

Definition replace (s old new : str) : str := replace_from old new 0 s.

(** [match.group(0)] for a variable. *)
Definition placeholder (var : str) : str := lit "${" ++ var ++ lit "}".

(** One turn of the loop over the matches: [source_config] maps a variable
    to the string that stands for it. *)
Definition substitute (source_config : gmap str str) (result var : str)
  : str :=
  match source_config !! var with
  | Some v => replace result (placeholder var) v
  | None => result
  end.

Definition replace_in_string (s : str) (source_config : gmap str str) : str :=
  foldl (substitute source_config) s (find_placeholders 0 s).

(** [replace_placeholders] *)
Fixpoint replace_placeholders (obj : json) (source_config : gmap str str)
  : json :=
  match obj with
  | JStr s => JStr (replace_in_string s source_config)
  | JDict entries =>
      JDict (List.map
               (fun kv => match kv with
                          | (k, v) => (k, replace_placeholders v source_config)
                          end)
               entries)
  | JList items =>
      JList (List.map (fun item => replace_placeholders item source_config)
                      items)
  | _ => obj
  end.

(** Two objects of the same shape: the same keys in the same order, lists of
    the same length, equal values everywhere except in strings. *)
Fixpoint same_shape (a b : json) : Prop :=
  match a, b with
  | JStr _, JStr _ => True
  | JList xs, JList ys =>
      (fix all2 (xs ys : list json) : Prop :=
         match xs, ys with
         | [], [] => True
         | x :: xs', y :: ys' => same_shape x y /\ all2 xs' ys'
         | _, _ => False
         end) xs ys
  | JDict xs, JDict ys =>
      (fix all2 (xs ys : list (str * json)) : Prop :=
         match xs, ys with
         | [], [] => True
         | (k, x) :: xs', (k', y) :: ys' =>
             k = k' /\ same_shape x y /\ all2 xs' ys'
         | _, _ => False
         end) xs ys
  | _, _ => a = b
  end.

(** The variables of all the placeholders of an object. *)
Fixpoint variables_of (obj : json) : list str :=
  match obj with
  | JStr s => find_placeholders 0 s
  | JList items => concat (List.map variables_of items)
  | JDict entries =>
      concat (List.map (fun kv => match kv with
                                  | (_, v) => variables_of v
                                  end) entries)
  | _ => []
  end.

End Placeholders.

(** ** Induction over JSON values *)

Module JsonInduction.

Section Principle.

Variable P : json -> Prop.
Hypothesis on_null : P JNull.
Hypothesis on_bool : forall b, P (JBool b).
Hypothesis on_num : forall n, P (JNum n).
Hypothesis on_str : forall s, P (JStr s).
Hypothesis on_list : forall items, Forall P items -> P (JList items).
Hypothesis on_dict :
  forall entries, Forall (fun kv => P (snd kv)) entries -> P (JDict entries).

(** The induction principle that goes through lists and dictionaries. *)
Fixpoint json_nested_ind (v : json) : P v :=
  match v with
  | JNull => on_null
  | JBool b => on_bool b
  | JNum n => on_num n
  | JStr s => on_str s
  | JList items =>
      on_list items
        ((fix all (l : list json) : Forall P l :=
            match l with
            | [] => @List.Forall_nil _ P
            | x :: l' =>
                @List.Forall_cons _ P x l' (json_nested_ind x) (all l')
            end) items)
  | JDict entries =>
      on_dict entries
        ((fix all (l : list (str * json))
            : Forall (fun kv => P (snd kv)) l :=
            match l with
            | [] => @List.Forall_nil _ (fun kv => P (snd kv))
            | (k, x) :: l' =>
                @List.Forall_cons _ (fun kv => P (snd kv)) (k, x) l'
                                  (json_nested_ind x) (all l')
            end) entries)
  end.

End Principle.

End JsonInduction.

(** ** The registry of data sources ([data_source.py]) *)

Module Registry.

Import Typing Placeholders.

(** A [DataSource].  [profile] is [None] for Python's [None]; a source
    starts with the empty dictionary.  [source_access] is [None] until
    [prepare] has set the attribute. *)
Record DataSource := Build_DataSource {
  endpoint : str;
  ds_name : str;
  source_access_type : option SourceAccessType;
  source_type : SourceType;
  config : json;
  profile : option Schema.profile;
  source_access : option str
}.

(** Truth value of an optional configuration. *)
Definition configured (conn_config : option json) : bool :=
  match conn_config with
  | None => false
  | Some c => truthy c
  end.

(** [DataSource.__init__]: every source type is a key of
    [SOURCE_TYPE_TO_ACCESS_TYPE], so that the default of [get] is never
    taken; [config or {}]. *)
Definition new_data_source (endpoint' : str) (source_type' : SourceType)
           (name' : str) (conn_config : option json) : DataSource :=
  Build_DataSource endpoint' name'
                   (SOURCE_TYPE_TO_ACCESS_TYPE source_type') source_type'
                   (match conn_config with
                    | Some c => if truthy c then c else JDict []
                    | None => JDict []
                    end)
                   (Some EmptyProfile) None.

(** [d[k] = v] on a dictionary that keeps the order of insertion. *)
Fixpoint dict_set {V} (d : list (str * V)) (k : str) (v : V)
  : list (str * V) :=
  match d with
  | [] => [(k, v)]
  | (k', v') :: d' =>
      if bool_decide (k' = k) then (k, v) :: d'
      else (k', v') :: dict_set d' k v
  end.

Fixpoint dict_get {V} (d : list (str * V)) (k : str) : option V :=
  match d with
  | [] => None
  | (k', v') :: d' => if bool_decide (k' = k) then Some v' else dict_get d' k
  end.

(** [del d[k]] *)
Fixpoint dict_del {V} (d : list (str * V)) (k : str) : list (str * V) :=
  match d with
  | [] => []
  | (k', v') :: d' =>
      if bool_decide (k' = k) then d' else (k', v') :: dict_del d' k
  end.

(** The manager: [_data_sources], keyed by endpoint, and [_type_defaults],
    keyed by source type, that is by its value. *)
Record manager := Build_manager {
  _data_sources : list (str * DataSource);
  _type_defaults : gmap str json
}.

(** [DataSourceManager._load_default_config] on what the file holds: [None]
    when it is missing or is not JSON, else the members of its top-level
    object. *)
Definition _load_default_config (file : option (list (str * json)))
  : gmap str json :=
  match file with
  | None => ∅
  | Some entries =>
      foldl (fun defaults kv =>
               match SourceType_of (fst kv) with
               | Return t => <[value t := snd kv]> defaults
               | Raise _ => defaults
               end) ∅ entries
  end.

(** [DataSourceManager.get_default_config] *)
Definition get_default_config (m : manager) (t : SourceType) : json :=
  default (JDict []) (_type_defaults m !! value t).

(** What is passed to [add_data_source]: an endpoint, or a dictionary. *)
Inductive source_spec :=
| Endpoint (endpoint' : str)
| Config (entries : list (str * json)).

(** [config["endpoint"]].  A value that is not a string makes the path
    functions or [lower] raise an [Exception] of one class or another; it is
    written as a [TypeError]. *)
Definition endpoint_of (entries : list (str * json)) : outcome str :=
  match entry entries (lit "endpoint") with
  | None => Raise (Exn KeyError (repr_str (lit "endpoint")))
  | Some (JStr s) => Return s
  | Some _ => Raise (Exn TypeError (lit "endpoint is not a string"))
  end.

Section WithEnvironment.

Variable unicode_isalpha : char -> bool.
Variable unicode_lower : char -> str.
Variable isfile : str -> bool.
Variable basename : str -> str.
Variable splitext_root : str -> str.
Variable urlparse : str -> option Naming.parsed_url.

(** [os.path.isdir], and the names of [os.listdir] in the order in which
    the set of the joined paths is iterated. *)
Variable isdir : str -> bool.
Variable listdir : str -> list str.

(** The body of the loop over [sources]; the state is the registry and the
    variable [conn_config], which is not reset between two turns. *)
Definition add_one (m : manager)
           (st : list (str * DataSource) * option json) (endpoint' : str)
  : list (str * DataSource) * option json :=
  let source_type' := _detect_source_type unicode_lower endpoint' in
  let name' :=
    Naming._generate_name unicode_isalpha unicode_lower isfile basename
                          splitext_root urlparse endpoint' in
  let conn_config :=
    if configured (snd st) then snd st
    else Some (get_default_config m source_type') in
  let conn_config :=
    if configured conn_config
    then option_map
           (fun c => replace_placeholders
                       c (<[lit "endpoint" := endpoint']> ∅))
           conn_config
    else conn_config in
  (dict_set (fst st) endpoint'
            (new_data_source endpoint' source_type' name' conn_config),
   conn_config).

(** The set [sources]. *)
Definition sources_of (endpoint' : str) : list str :=
  if isdir endpoint'
  then List.map (fun filename => TextPostHook.path_join endpoint' filename)
                (listdir endpoint')
  else [endpoint'].

(** [DataSourceManager.add_data_source] *)
Definition add_data_source (m : manager) (spec : source_spec)
  : outcome manager :=
  start ←
    match spec with
    | Endpoint e => Return (e, None)
    | Config entries =>
        e ← endpoint_of entries; Return (e, Some (JDict entries))
    end;
  Return (Build_manager
            (fst (foldl (add_one m) (_data_sources m, snd start)
                        (sources_of (fst start))))
            (_type_defaults m)).

End WithEnvironment.

(** [DataSourceManager.remove_data_source]: the answer and the manager
    afterwards. *)
Definition remove_data_source (m : manager) (key : str) : bool * manager :=
  match dict_get (_data_sources m) key with
  | Some _ =>
      (true, Build_manager (dict_del (_data_sources m) key) (_type_defaults m))
  | None => (false, m)
  end.

(** [DataSourceManager.get_all_data_sources_name]: the keys of the
    registry. *)
Definition get_all_data_sources_name (m : manager) : list str :=
  List.map fst (_data_sources m).

(** [DataSourceManager.get_local_data_sources] *)
Definition get_local_data_sources (m : manager) : list str :=
  List.map (fun kv => endpoint (snd kv))
           (List.filter
              (fun kv =>
                 match source_access_type (snd kv) with
                 | Some DIRECT => true
                 | _ => false
                 end)
              (_data_sources m)).

(** [len(manager)] *)
Definition manager_len (m : manager) : nat := length (_data_sources m).

(** The keys of the registry, and a registry in good order: distinct keys,
    each one the endpoint of its source. *)
Definition keys {V} (d : list (str * V)) : list str := List.map fst d.

Definition in_good_order (d : list (str * DataSource)) : Prop :=
  NoDup (keys d) /\ Forall (fun kv => endpoint (snd kv) = fst kv) d.

(** The configuration [{"endpoint": e}]. *)
Definition endpoint_config (e : str) : gmap str str :=
  <[lit "endpoint" := e]> ∅.

(** A configuration that is a non-empty object. *)
Definition object_config (c : json) : Prop :=
  exists entries, c = JDict entries /\ entries <> [].

(** The configuration after the endpoints [paths] have been written into
    it, one after the other. *)
Definition resolved_along (c : json) (paths : list str) : json :=
  foldl (fun c q => replace_placeholders c (endpoint_config q)) c paths.

End Registry.

(** ** Profiling a registered source ([data_profile.py], [data_source.py]) *)

Module Profiling.

Import Typing Registry Profiler.

(** Truth value of [self.profile]: [None] and the empty dictionary are
    false; a profile that was built has its name and is true. *)
Definition profile_truthy (p : option Schema.profile) : bool :=
  match p with
  | None | Some EmptyProfile => false
  | Some _ => true
  end.

(** [DataSource._general_profile]; the empty string when there is no
    profile. *)
Definition _general_profile (p : option Schema.profile) : json :=
  match p with
  | Some (StructuredProfile _ description _ _) => description
  | Some (ImageProfile _ description _) => description
  | _ => JStr []
  end.

(** [v[:100]].  Strings and lists can be sliced; for a dictionary the
    exception is a [KeyError] from Python 3.12 on. *)
Definition slice_100 (v : json) : outcome json :=
  match v with
  | JStr s => Return (JStr (take 100 s))
  | JList items => Return (JList (take 100 items))
  | JDict _ => Raise (Exn TypeError (lit "unhashable type: 'slice'"))
  | _ => Raise (Exn TypeError (lit "object is not subscriptable"))
  end.

(** A description that can be cut to its first hundred items. *)
Definition sliceable (v : json) : bool :=
  match v with
  | JStr _ | JList _ => true
  | _ => false
  end.

(** The source types for which there is a profiler. *)
Definition profiled_type (t : SourceType) : bool :=
  match t with
  | CSV | EXCEL | IMAGE | RELATIONAL_DB => true
  | _ => false
  end.

(** The source with another profile. *)
Definition with_profile (ds : DataSource) (p : option Schema.profile)
  : DataSource :=
  Build_DataSource (endpoint ds) (ds_name ds) (source_access_type ds)
                   (source_type ds) (config ds) p (source_access ds).

Section WithWorld.

Context {cell : Type} `{EqDecision cell}.
Variable cell_str : cell -> option str.
Variable shuffle : list cell -> list cell.
Variable to_csv : dataframe cell -> str.
Variable json_loads : str -> outcome json.
Variable isspace : char -> bool.
Variable format_data : str -> source_data -> outcome str.
Variable format_snippet : str -> str -> outcome str.

(** The world outside: the temporary file to which a file of the sandbox
    is copied under its own name, the prompt file of a source type,
    [os.path.basename], and what the readers find at a local path. *)
Variable copy_to_temporary_file : str -> outcome str.
Variable load_prompt : SourceType -> outcome str.
Variable basename : str -> str.
Variable csv_at : str -> csv_file (cell := cell).
Variable workbook_at : str -> workbook (cell := cell).
Variable database_at : str -> Introspection.database.

(** [_copy_file_from_sandbox_with_original_name] *)
Definition _copy_file_from_sandbox_with_original_name (file_path : str)
  : outcome str :=
  if startswith file_path (lit "http://")
     || startswith file_path (lit "https://")
  then Return file_path
  else copy_to_temporary_file file_path.

(** [BaseDataProfiler.__init__] for one of the four types that
    [get_profiler] passes to it; each has its prompt and its model. *)
Definition new_profiler (path' : str) (source_type' : SourceType)
           (kind' : source (cell := cell)) : outcome profiler :=
  prompt' ← load_prompt source_type';
  Return (Build_profiler path' (basename path') prompt' kind').

(** [DataProfilerFactory.get_profiler] *)
Definition get_profiler (path' : str) (source_type' : SourceType)
  : outcome (profiler (cell := cell)) :=
  match source_type' with
  | IMAGE => new_profiler path' source_type' ImageSource
  | CSV => new_profiler path' source_type' (CsvSource (csv_at path'))
  | EXCEL =>
      new_profiler path' source_type' (ExcelSource (workbook_at path'))
  | RELATIONAL_DB =>
      new_profiler path' source_type' (RelationalSource (database_at path'))
  | _ =>
      Raise (Exn ValueError
                 (lit "Unsupported source type: " ++ value source_type'))
  end.

(** [data_profile] *)
Definition data_profile (llm_call_manager : content -> outcome str)
           (sandbox_path : str) (source_type' : SourceType)
  : outcome Schema.profile :=
  local_path ←
    match source_type' with
    | CSV | EXCEL | IMAGE =>
        _copy_file_from_sandbox_with_original_name sandbox_path
    | RELATIONAL_DB => Return sandbox_path
    | _ =>
        Raise (Exn ValueError
                   (lit "Unsupported source type " ++ value source_type'))
    end;
  profiler' ← get_profiler local_path source_type';
  generate_profile cell_str shuffle to_csv llm_call_manager json_loads
                   isspace format_data format_snippet profiler'.

(** The two handlers of [prepare_profile]: a [ValueError] (of which
    [JSONDecodeError] is a subclass) is logged as a warning, any other
    [Exception] as an error, and both leave the source without a profile;
    what is no [Exception] goes through. *)
Definition on_failure (ds : DataSource) (e : exn) : outcome DataSource :=
  match cls e with
  | ValueError | JSONDecodeError => Return (with_profile ds None)
  | _ =>
      if is_Exception e then Return (with_profile ds None) else Raise e
  end.

(** [DataSource.prepare_profile]: the source afterwards, whose profile is
    what the method returns.  [llm_call_manager] is [None] when there is no
    manager.  Reading [self.source_access] before [prepare] has set it
    raises an [AttributeError] inside the [try], which the second handler
    catches. *)
Definition prepare_profile (llm_call_manager : option (content -> outcome str))
           (ds : DataSource) : outcome DataSource :=
  match llm_call_manager with
  | Some llm =>
      if profile_truthy (profile ds) then Return ds
      else
        match source_access ds with
        | None => Return (with_profile ds None)
        | Some sandbox_path =>
            match data_profile llm sandbox_path (source_type ds) with
            | Return p =>
                let ds' := with_profile ds (Some p) in
                match slice_100 (_general_profile (profile ds')) with
                | Return _ => Return ds'
                | Raise e => on_failure ds' e
                end
            | Raise e => on_failure ds e
            end
        end
  | None => Return ds
  end.

End WithWorld.

End Profiling.

(** ** Concrete worlds *)

Module Examples.

Import Profiler.

(** Cells that are strings, a shuffle that moves nothing, a model that always
    answers with an empty JSON object. *)
Definition plain_csv (df : dataframe str) : str :=
  Introspection.join (lit ",") (column_labels df).

Definition answer_nothing (c : content) : outcome str := Return (lit "{}").

Definition parse_nothing (s : str) : outcome json := Return (JDict []).

Definition is_blank (c : char) : bool := N.eqb c 32 || N.eqb c 10.

Definition paste_data (prompt' : str) (data : source_data) : outcome str :=
  Return prompt'.

Definition paste_snippet (prompt' snippet : str) : outcome str :=
  Return (prompt' ++ snippet).

(** [generate_profile] and [_read_data] in that world. *)
Definition generate_profile_in_example (p : profiler (cell := str))
  : outcome profile :=
  generate_profile Some (fun l => l) plain_csv answer_nothing
                   parse_nothing is_blank paste_data paste_snippet p.

Definition read_data_in_example (p : profiler (cell := str))
  : outcome source_data :=
  Profiler._read_data Some (fun l => l) plain_csv answer_nothing
                      parse_nothing is_blank paste_snippet p.

(** A profiler for the database that cannot be reached. *)
Definition unreachable_profiler : profiler (cell := str) :=
  Build_profiler (lit "postgresql://u:p@host:5432/shop")
                 (lit "shop") (lit "Describe: {data}")
                 (RelationalSource Introspection.unreachable_db).

(** A CSV file whose header is [id, Unnamed: 0, Unnamed: 1], with one row. *)
Definition unnamed_frame : dataframe str :=
  DataFrame [Series (lit "id") (lit "string") [lit "7"];
             Series (lit "Unnamed: 0") (lit "string") [lit "x"];
             Series (lit "Unnamed: 1") (lit "string") [lit "y"]]
            1.

Definition unnamed_csv : csv_file (cell := str) :=
  CsvFile (Return 1) (Return unnamed_frame).

Definition unnamed_csv_profiler : profiler (cell := str) :=
  Build_profiler (lit "/tmp/data.csv") (lit "data.csv")
                 (lit "Describe: {data}") (CsvSource unnamed_csv).

(** A frame with a proper header, and workbooks: one with a regular sheet
    and a sheet whose columns are mostly unnamed, one with a sheet that
    cannot be read. *)
Definition regular_frame : dataframe str :=
  DataFrame [Series (lit "id") (lit "string") [lit "7"; lit "8"]] 2.

Definition read_error : exn := Exn ValueError (lit "cannot read the sheet").

Definition two_sheet_workbook : workbook (cell := str) :=
  Workbook (Return [lit "good"; lit "odd"])
           (fun sheet => if bool_decide (sheet = lit "good")
                         then Return regular_frame
                         else Return unnamed_frame)
           (fun sheet => Return [[Some (lit "report"); None];
                                 [Some (lit "id"); Some (lit "7")]])
           (Return (lit "Judge: "))
           (fun sheet res => Return regular_frame).

Definition broken_workbook : workbook (cell := str) :=
  Workbook (Return [lit "good"; lit "bad"])
           (fun sheet => if bool_decide (sheet = lit "good")
                         then Return regular_frame
                         else Raise read_error)
           (fun sheet => Return [])
           (Return (lit "Judge: "))
           (fun sheet res => Return regular_frame).

Definition workbook_profiler : profiler (cell := str) :=
  Build_profiler (lit "/tmp/book.xlsx") (lit "book.xlsx")
                 (lit "Describe: {data}") (ExcelSource two_sheet_workbook).

(** The defaults read from a file that configures the relational sources
    and names a type that does not exist, a manager without sources, and a
    manager with one source. *)
Definition shipped_defaults : gmap str json :=
  Registry._load_default_config
    (Some [(lit "relational_db",
            JDict [(lit "mcp_server",
                    JDict [(lit "command", JStr (lit "db-mcp"));
                           (lit "args", JList [JStr (lit "${endpoint}")])])]);
           (lit "spreadsheet", JDict [(lit "engine", JStr (lit "fast"))])]).

Definition empty_manager : Registry.manager :=
  Registry.Build_manager [] shipped_defaults.

Definition one_source_manager : Registry.manager :=
  Registry.Build_manager
    [(lit "data.csv",
      Registry.new_data_source (lit "data.csv") Typing.CSV (lit "data") None)]
    shipped_defaults.

(** A directory [inbox] that holds a database file and a CSV file. *)
Definition inbox_is_dir (p : str) : bool := bool_decide (p = lit "inbox").

Definition inbox_listing (p : str) : list str :=
  [lit "shop.db"; lit "notes.csv"].

(** Two sources that [prepare] has made accessible, a CSV file and a
    database, and the world in which they are profiled: files are copied
    to [/tmp/copy], every prompt is the same, every CSV file is the one
    above and no database can be reached. *)
Definition prepared_csv_source : Registry.DataSource :=
  Registry.Build_DataSource (lit "data.csv") (lit "data")
                            (Some Typing.DIRECT) Typing.CSV (JDict [])
                            (Some EmptyProfile)
                            (Some (lit "/workspace/data.csv")).

Definition prepared_database_source : Registry.DataSource :=
  Registry.Build_DataSource (lit "postgresql://u:p@host:5432/shop")
                            (lit "shop") (Some Typing.VIA_MCP)
                            Typing.RELATIONAL_DB (JDict [])
                            (Some EmptyProfile)
                            (Some (lit "postgresql://u:p@host:5432/shop")).

Fixpoint after_last_slash (p : str) : str :=
  match p with
  | [] => []
  | c :: p' =>
      if existsb (N.eqb (ord "/")) p' then after_last_slash p'
      else if N.eqb c (ord "/") then p' else p
  end.

Definition copy_to_tmp (p : str) : outcome str :=
  Return (lit "/tmp/copy/" ++ after_last_slash p).

Definition prepare_profile_in_example
           (json_loads : str -> outcome json)
           (llm_call_manager : option (content -> outcome str))
           (ds : Registry.DataSource) : outcome Registry.DataSource :=
  Profiling.prepare_profile
    Some (fun l => l) plain_csv json_loads is_blank paste_data
    paste_snippet copy_to_tmp (fun _ => Return (lit "Describe: {data}"))
    after_last_slash (fun _ => unnamed_csv) (fun _ => two_sheet_workbook)
    (fun _ => Introspection.unreachable_db) llm_call_manager ds.

(** An answer whose description is an object. *)
Definition parse_nested_description (s : str) : outcome json :=
  Return (JDict [(lit "description",
                  JDict [(lit "summary", JStr (lit "three columns"))])]).

(** A CSV file with a missing value, in a world where a cell is a string or
    is missing and [astype(str)] leaves the missing one as it is. *)
Definition gaps_frame : dataframe (option str) :=
  DataFrame [Series (lit "id") (lit "string") [Some (lit "7"); None]] 2.

Definition gaps_csv : csv_file (cell := option str) :=
  CsvFile (Return 2) (Return gaps_frame).

Definition gaps_csv_profiler : profiler (cell := option str) :=
  Build_profiler (lit "/tmp/gaps.csv") (lit "gaps.csv")
                 (lit "Describe: {data}") (CsvSource gaps_csv).

Definition header_csv (df : dataframe (option str)) : str :=
  Introspection.join (lit ",") (column_labels df).

(** A formatting that writes the data into the prompt: the name of the
    source and the names of its tables. *)
Definition write_data (prompt' : str) (data : source_data) : outcome str :=
  Return (prompt' ++ lit " "
          ++ match data with
             | SingleTable table => name table
             | MultiTable source_name tables =>
                 source_name ++ lit ": "
                 ++ Introspection.join (lit ",") (List.map name tables)
             | ImagePath image_path => image_path
             end).

(** An answer that describes the file, and an answer that points at a
    region of a sheet. *)
Definition parse_described (s : str) : outcome json :=
  Return (JDict [(lit "description", JStr (lit "three columns"));
                 (lit "columns", JList [])]).

Definition region_judgment : json :=
  JDict [(lit "is_extractable_table", JBool true);
         (lit "reasoning", JStr (lit "the table starts at the second row"));
         (lit "row_start_index", JNum 1);
         (lit "col_ranges", JList [JNum 0; JNum 0])].

Definition parse_region (s : str) : outcome json := Return region_judgment.

End Examples.

(** * Properties *)

(** ** Names *)

Module NamingFacts.

Import Naming.

Lemma underscore_is_word_char : is_word_char underscore = true.
Proof. reflexivity. Qed.

Lemma re_sub_nonword_word (nm : str) :
  Forall (fun c => is_word_char c = true) (re_sub_nonword nm).
Proof.
  induction nm as [|c nm IH]; simpl; constructor; auto.
  destruct (is_word_char c) eqn:Hc; [exact Hc | exact underscore_is_word_char].
Qed.

Lemma word_char_is_ascii (c : char) :
  is_word_char c = true -> (c < 128)%N.
Proof.
  unfold is_word_char, is_ascii_letter, is_ascii_upper, is_ascii_lower,
    is_ascii_digit, underscore, ord.
  simpl.
  rewrite !orb_true_iff, !andb_true_iff, !N.leb_le, N.eqb_eq.
  lia.
Qed.

Lemma sanitize_shape (unicode_isalpha : char -> bool) (nm : str) :
  let r := _sanitize_name unicode_isalpha nm in
  (length r <= 50)%nat /\ Forall (fun c => is_word_char c = true) r
  /\ well_started r.
Proof.
  unfold _sanitize_name.
  pose proof (re_sub_nonword_word nm) as Hword.
  destruct (re_sub_nonword nm) as [|c s] eqn:Hs.
  - simpl. repeat split.
    + vm_compute. lia.
    + repeat constructor.
    + left. reflexivity.
  - assert (Hc : is_word_char c = true) by (inversion Hword; assumption).
    pose proof (word_char_is_ascii c Hc) as Hlt.
    destruct (negb (isalpha unicode_isalpha c) && negb (N.eqb c underscore))
      eqn:Hfix.
    + change (take 50 (underscore :: c :: s))
        with (underscore :: take 49 (c :: s)).
      cbv zeta. repeat split.
      * simpl. rewrite length_take. lia.
      * constructor; [exact underscore_is_word_char |].
        apply Forall_take. exact Hword.
      * right. reflexivity.
    + change (take 50 (c :: s)) with (c :: take 49 s).
      cbv zeta. repeat split.
      * simpl. rewrite length_take. lia.
      * constructor; [exact Hc |].
        apply Forall_take. inversion Hword; assumption.
      * simpl. apply andb_false_iff in Hfix as [Hfix | Hfix].
        -- left. apply negb_false_iff in Hfix.
           unfold isalpha in Hfix.
           apply N.ltb_lt in Hlt. rewrite Hlt in Hfix. exact Hfix.
        -- right. apply negb_false_iff in Hfix.
           apply N.eqb_eq in Hfix. exact Hfix.
Qed.

(** C8. For every input string, [_sanitize_name] returns a non-empty string
    of at most 50 characters, all of them in [[A-Za-z0-9_]], whose first
    character is a letter or an underscore; the empty input, the only one
    whose sanitized form is empty, yields ["unknown"]. *)
Theorem sanitize_name_invariant (unicode_isalpha : char -> bool) (nm : str) :
  let r := _sanitize_name unicode_isalpha nm in
  r <> []
  /\ (length r <= 50)%nat
  /\ Forall (fun c => is_word_char c = true) r
  /\ (exists c rest, r = c :: rest
                     /\ (is_ascii_letter c = true \/ c = underscore))
  /\ _sanitize_name unicode_isalpha [] = lit "unknown"
  /\ (take 50 (re_sub_nonword nm) = [] <-> nm = []).
Proof.
  intros r.
  destruct (sanitize_shape unicode_isalpha nm) as (Hlen & Hword & Hstart).
  fold r in Hlen, Hword, Hstart.
  repeat split; auto.
  - intros Hr. rewrite Hr in Hstart. exact Hstart.
  - destruct r as [|c rest]; [destruct Hstart |].
    exists c, rest. split; [reflexivity | exact Hstart].
  - intros Hnil. destruct nm; [reflexivity | discriminate].
  - intros ->. reflexivity.
Qed.

(** C9. For an endpoint that is not a file of the local file system,
    [_generate_name] maps [postgresql://u:p@host:5432/my_db?x=1] to
    [postgresql_my_db], whatever the Unicode tables, the path library and
    the URL parser are: neither the password nor the query string is in the
    name. *)
Theorem generate_name_postgresql
        (unicode_isalpha : char -> bool) (unicode_lower : char -> str)
        (isfile : str -> bool) (basename splitext_root : str -> str)
        (urlparse : str -> option parsed_url) :
  isfile (lit "postgresql://u:p@host:5432/my_db?x=1") = false ->
  _generate_name unicode_isalpha unicode_lower isfile basename splitext_root
                 urlparse (lit "postgresql://u:p@host:5432/my_db?x=1")
  = lit "postgresql_my_db".
Proof.
  intros Hfile. unfold _generate_name. rewrite Hfile.
  vm_compute. reflexivity.
Qed.

Lemma generate_name_postgresql_witness :
  _generate_name (fun _ => false) (fun c => [c]) (fun _ => false)
                 (fun s => s) (fun s => s) (fun _ => None)
                 (lit "postgresql://u:p@host:5432/my_db?x=1")
  = lit "postgresql_my_db".
Proof.
  apply (generate_name_postgresql (fun _ => false) (fun c => [c])
           (fun _ => false) (fun s => s) (fun s => s) (fun _ => None)).
  reflexivity.
Defined.

End NamingFacts.

(** ** The irregularity predicate and the samples of a column *)

Module SchemaFacts.

Lemma is_irregular_cons (col : str) (cols : list str) :
  is_irregular (col :: cols)
  = Return (Qle_bool (1 # 2)
              (Qmake (Z.of_nat (unnamed_count (col :: cols)))
                     (Pos.of_nat (length (col :: cols))))).
Proof. reflexivity. Qed.

Lemma half_le_ratio (c n : nat) :
  (0 < n)%nat ->
  (1 # 2 <= Qmake (Z.of_nat c) (Pos.of_nat n))%Q <-> (n <= 2 * c)%nat.
Proof.
  intros Hn. unfold Qle. simpl.
  assert (Hp : Z.pos (Pos.of_nat n) = Z.of_nat n).
  { destruct n as [|n]; [lia |].
    rewrite <- Pos.of_nat_succ. lia. }
  rewrite Hp. lia.
Qed.

Lemma startswith_prefix (p s : str) :
  startswith s p = true <-> p `prefix_of` s.
Proof.
  revert s. induction p as [|a p IH]; intros s.
  - simpl. split; [intros _; apply prefix_nil | reflexivity].
  - destruct s as [|b s]; simpl.
    + split; [discriminate |]. intros Hp. apply prefix_nil_inv in Hp.
      discriminate.
    + rewrite andb_true_iff, N.eqb_eq, IH. split.
      * intros [-> Hp]. apply prefix_cons. exact Hp.
      * intros Hp. split.
        -- eapply prefix_cons_inv_1. exact Hp.
        -- eapply prefix_cons_inv_2. exact Hp.
Qed.

(** The count of the code is the number of names of which ["Unnamed"] is a
    prefix. *)
Lemma unnamed_count_prefix (cols : list str) :
  unnamed_count cols
  = length (filter (fun col => lit "Unnamed" `prefix_of` col) cols).
Proof.
  unfold unnamed_count. induction cols as [|col cols IH]; [reflexivity |].
  rewrite filter_cons. cbn [List.filter].
  destruct (startswith col (lit "Unnamed")) eqn:Hs.
  - rewrite decide_True by (apply startswith_prefix; exact Hs).
    cbn [length]. f_equal. exact IH.
  - rewrite decide_False; [exact IH |].
    intros Hp. apply startswith_prefix in Hp. congruence.
Qed.

(** C7. On a non-empty list of column names, [is_irregular] returns, and it
    returns [true] exactly when the number of names that start with
    ["Unnamed"], divided by the number of names, is at least one half; so
    2 such names out of 4 give [true] and 2 out of 5 give [false]. *)
Theorem is_irregular_ratio (cols : list str) :
  cols <> [] ->
  let unnamed :=
    length (filter (fun col => lit "Unnamed" `prefix_of` col) cols) in
  exists b : bool,
    is_irregular cols = Return b
    /\ (b = true <->
        (1 # 2 <= Qmake (Z.of_nat unnamed) (Pos.of_nat (length cols)))%Q)
    /\ (unnamed = 2%nat -> length cols = 4%nat -> b = true)
    /\ (unnamed = 2%nat -> length cols = 5%nat -> b = false).
Proof.
  intros Hne unnamed. destruct cols as [|col cols]; [congruence |].
  eexists. split; [apply is_irregular_cons |].
  rewrite unnamed_count_prefix. fold unnamed.
  split; [apply Qle_bool_iff |].
  split; intros Hc Hn.
  - apply Qle_bool_iff, half_le_ratio; lia.
  - apply not_true_is_false. intros Hb.
    apply Qle_bool_iff, half_le_ratio in Hb; lia.
Qed.

Lemma is_irregular_ratio_witness :
  is_irregular [lit "a"; lit "Unnamed: 1"; lit "b"; lit "Unnamed: 3"]
  = Return true
  /\ is_irregular [lit "a"; lit "Unnamed: 1"; lit "b"; lit "Unnamed: 3";
                   lit "c"]
     = Return false.
Proof.
  split.
  - destruct (is_irregular_ratio
                [lit "a"; lit "Unnamed: 1"; lit "b"; lit "Unnamed: 3"])
      as (b & Hb & _ & H4 & _); [discriminate |].
    rewrite Hb. f_equal. apply H4; reflexivity.
  - destruct (is_irregular_ratio
                [lit "a"; lit "Unnamed: 1"; lit "b"; lit "Unnamed: 3";
                 lit "c"])
      as (b & Hb & _ & _ & H5); [discriminate |].
    rewrite Hb. f_equal. apply H5; reflexivity.
Defined.

(** C10. On the empty list of column names [is_irregular] raises
    [ZeroDivisionError], and it raises on no other list: a caller is safe
    exactly when it passes at least one column. *)
Theorem is_irregular_empty_raises :
  is_irregular [] = Raise (Exn ZeroDivisionError (lit "division by zero"))
  /\ forall cols : list str,
       (exists e, is_irregular cols = Raise e) <-> cols = [].
Proof.
  split; [reflexivity |].
  intros cols. split.
  - intros [e He]. destruct cols as [|col cols]; [reflexivity |].
    rewrite is_irregular_cons in He. discriminate.
  - intros ->. eexists. reflexivity.
Qed.

(** *** The sample loop *)

(** Once the running length is over the budget, nothing more is
    appended: the running length never decreases. *)
Lemma sample_loop_over (acc : list str) (n : nat) (cands : list str) :
  (1000 < n)%nat ->
  fst (foldl sample_step (acc, n) cands) = acc.
Proof.
  revert acc n. induction cands as [|s cands IH]; intros acc n Hn.
  - reflexivity.
  - simpl. unfold sample_step at 2. simpl.
    destruct (Nat.leb_spec (n + length s) 1000) as [Hle | Hgt]; [lia |].
    apply IH. lia.
Qed.

(** The loop appends a prefix of the candidates: the longest one whose
    strings fit, together with what was counted before, in 1000
    characters. *)
Lemma sample_loop_prefix (acc : list str) (n : nat) (cands : list str) :
  exists taken rest : list str,
    cands = taken ++ rest
    /\ fst (foldl sample_step (acc, n) cands) = acc ++ taken
    /\ (taken = [] \/ (n + total_length taken <= 1000)%nat)
    /\ match rest with
       | [] => True
       | s :: _ => (1000 < n + total_length taken + length s)%nat
       end.
Proof.
  revert acc n. induction cands as [|s cands IH]; intros acc n.
  - exists [], []. simpl. rewrite app_nil_r. auto.
  - simpl. unfold sample_step at 2. simpl.
    destruct (Nat.leb_spec (n + length s) 1000) as [Hle | Hgt].
    + destruct (IH (acc ++ [s]) (n + length s)%nat)
        as (taken & rest & Hc & Hf & Hb & Hr).
      exists (s :: taken), rest. repeat split.
      * simpl. congruence.
      * rewrite Hf, <- app_assoc. reflexivity.
      * right. destruct Hb as [-> | Hb].
        -- unfold total_length. simpl. lia.
        -- unfold total_length in *. simpl. lia.
      * destruct rest as [|s' rest']; [exact I |].
        unfold total_length in *. simpl. lia.
    + exists [], (s :: cands). repeat split.
      * rewrite sample_loop_over by lia. rewrite app_nil_r. reflexivity.
      * left. reflexivity.
      * unfold total_length. simpl. lia.
Qed.

(** On candidates that are all strings the loop runs to its end, and it is
    the walk over the strings. *)
Lemma fill_samples_strings (l : list str) :
  forall st, fill_samples st (List.map Some l)
             = Return (fst (foldl sample_step st l)).
Proof.
  induction l as [|s l IH]; intros st; [reflexivity |]. simpl. apply IH.
Qed.

(** The loop returns only when every candidate is a string. *)
Lemma fill_samples_returns (cands : list (option str)) :
  forall st samples,
    fill_samples st cands = Return samples ->
    exists l, cands = List.map Some l
              /\ samples = fst (foldl sample_step st l).
Proof.
  induction cands as [|[s|] cands IH]; intros st samples Hfill.
  - exists []. injection Hfill as <-. split; reflexivity.
  - simpl in Hfill. destruct (IH _ _ Hfill) as (l & -> & ->).
    exists (s :: l). split; reflexivity.
  - discriminate.
Qed.

(** A candidate that is no string makes the loop raise a [TypeError]. *)
Lemma fill_samples_missing (cands : list (option str)) :
  None ∈ cands ->
  forall st, exists e, fill_samples st cands = Raise e /\ cls e = TypeError.
Proof.
  induction cands as [|[s|] cands IH]; intros Hin st.
  - inversion Hin.
  - apply elem_of_cons in Hin as [? | Hin]; [discriminate |].
    simpl. apply IH. exact Hin.
  - simpl. eexists. split; reflexivity.
Qed.

Lemma strings_of (cands : list (option str)) :
  None ∉ cands -> exists l, cands = List.map Some l.
Proof.
  induction cands as [|[s|] cands IH]; intros Hnot.
  - exists []. reflexivity.
  - destruct IH as [l ->].
    + intros Hin. apply Hnot. right. exact Hin.
    + exists (s :: l). reflexivity.
  - exfalso. apply Hnot. left.
Qed.

Section Samples.

Context {cell : Type} `{EqDecision cell}.
Variable cell_str : cell -> option str.
Variable shuffle : list cell -> list cell.
Variable to_csv : dataframe cell -> str.

Lemma candidates_prefix (col : series cell) :
  candidates_of cell_str shuffle col
    `prefix_of` List.map cell_str
                         (shuffle (drop_duplicates (values col))).
Proof.
  unfold candidates_of.
  exists (List.map cell_str
            (drop 5 (shuffle (drop_duplicates (values col))))).
  rewrite <- List.map_app, take_drop. reflexivity.
Qed.

Lemma candidates_length (col : series cell) :
  (length (candidates_of cell_str shuffle col) <= 5)%nat.
Proof.
  unfold candidates_of. rewrite length_map, length_take. lia.
Qed.

(** A column is described exactly when its candidates are all strings. *)
Lemma column_of_returns (col : series cell) :
  None ∉ candidates_of cell_str shuffle col
  <-> exists info, column_of cell_str shuffle col = Return info.
Proof.
  unfold column_of. split.
  - intros Hnot. destruct (strings_of _ Hnot) as [l Hl].
    rewrite Hl, fill_samples_strings. simpl. eauto.
  - intros [info Hinfo] Hin.
    destruct (fill_samples_missing _ Hin ([], 0%nat)) as (e & He & _).
    rewrite He in Hinfo. discriminate.
Qed.

(** The samples of one column. *)
Lemma column_samples (col : series cell) (info : column_info) :
  column_of cell_str shuffle col = Return info ->
  column_name info = label col
  /\ List.map Some (data_samples info)
       `prefix_of` List.map cell_str
                            (shuffle (drop_duplicates (values col)))
  /\ (length (data_samples info) <= 5)%nat
  /\ (total_length (data_samples info) <= 1000)%nat
  /\ exists rest,
       List.map cell_str (take 5 (shuffle (drop_duplicates (values col))))
       = List.map Some (data_samples info ++ rest)
       /\ match rest with
          | [] => True
          | s :: _ =>
              (1000 < total_length (data_samples info) + length s)%nat
          end.
Proof.
  unfold column_of.
  destruct (fill_samples _ _) as [samples|] eqn:Hfill; [| discriminate].
  simpl. intros [= <-]. simpl.
  destruct (fill_samples_returns _ _ _ Hfill) as (l & Hl & ->).
  destruct (sample_loop_prefix [] 0 l) as (taken & rest & Hc & Hf & Hb & Hr).
  simpl in Hf. rewrite Hf.
  split; [reflexivity |]. repeat split.
  - transitivity (candidates_of cell_str shuffle col).
    + rewrite Hl, Hc, List.map_app. apply prefix_app_r. reflexivity.
    + apply candidates_prefix.
  - pose proof (candidates_length col) as Hlen.
    rewrite Hl, length_map, Hc, length_app in Hlen. lia.
  - destruct Hb as [-> | Hb]; [unfold total_length; simpl; lia | lia].
  - exists rest. split.
    + fold (candidates_of cell_str shuffle col). rewrite Hl, Hc. reflexivity.
    + destruct rest; [exact I | lia].
Qed.

Lemma columns_returned (cols : list (series cell)) :
  Forall (fun col => None ∉ candidates_of cell_str shuffle col) cols
  <-> exists infos, for_each (column_of cell_str shuffle) cols = Return infos.
Proof.
  induction cols as [|col cols IH]; simpl.
  - split; [eauto | constructor].
  - split.
    + intros Hall. apply Forall_cons in Hall as [Hcol Hcols].
      apply column_of_returns in Hcol as [info ->].
      apply IH in Hcols as [infos ->]. simpl. eauto.
    + intros [infos Hinfos].
      destruct (column_of cell_str shuffle col) as [info|] eqn:Hcol;
        [| discriminate].
      destruct (for_each _ cols) as [infos'|] eqn:Hcols; [| discriminate].
      constructor.
      * apply column_of_returns. eauto.
      * apply IH. eauto.
Qed.

Lemma columns_described (cols : list (series cell)) :
  forall infos,
    for_each (column_of cell_str shuffle) cols = Return infos ->
    Forall2 (fun col info => column_of cell_str shuffle col = Return info)
            cols infos.
Proof.
  induction cols as [|col cols IH]; simpl; intros infos Hinfos.
  - injection Hinfos as <-. constructor.
  - destruct (column_of cell_str shuffle col) as [info|] eqn:Hcol;
      [| discriminate].
    destruct (for_each _ cols) as [infos'|] eqn:Hcols; [| discriminate].
    injection Hinfos as <-. constructor; [exact Hcol | apply IH; reflexivity].
Qed.

(** C6. A schema is extracted from a data frame exactly when the candidates
    of its columns are all strings (a missing value that stays missing has
    no length, and the extraction raises).  Every column of an extracted
    schema comes from a column of the frame, in order, and its samples are
    a prefix of the stringified, shuffled, deduplicated values of that
    column, at most 5 of them, of at most 1000 characters in total; the
    prefix stops at the first candidate that takes the running total over
    1000, and nothing after it is included. *)
Theorem extracted_samples_within_budget
        (df : dataframe cell) (df_name : str) :
  (Forall (fun col => None ∉ candidates_of cell_str shuffle col)
          (frame_columns df)
   <-> exists schema,
         _extract_schema_from_table cell_str shuffle to_csv df df_name
         = Return schema)
  /\ forall schema,
       _extract_schema_from_table cell_str shuffle to_csv df df_name
       = Return schema ->
       exists cols : list column_info,
         columns schema = Some cols
         /\ Forall2
              (fun (col : series cell) (info : column_info) =>
                 column_name info = label col
                 /\ List.map Some (data_samples info)
                      `prefix_of` List.map cell_str
                                    (shuffle (drop_duplicates (values col)))
                 /\ (length (data_samples info) <= 5)%nat
                 /\ (total_length (data_samples info) <= 1000)%nat
                 /\ exists rest,
                      List.map cell_str
                        (take 5 (shuffle (drop_duplicates (values col))))
                      = List.map Some (data_samples info ++ rest)
                      /\ match rest with
                         | [] => True
                         | s :: _ =>
                             (1000 < total_length (data_samples info)
                                     + length s)%nat
                         end)
              (frame_columns df) cols.
Proof.
  unfold _extract_schema_from_table. split.
  - rewrite columns_returned. split.
    + intros [infos ->]. simpl. eauto.
    + intros [schema Hschema].
      destruct (for_each _ (frame_columns df)) as [infos|];
        [eauto | discriminate].
  - intros schema Hschema.
    destruct (for_each _ (frame_columns df)) as [infos|] eqn:Hinfos;
      [| discriminate].
    injection Hschema as <-. exists infos. split; [reflexivity |].
    apply columns_described in Hinfos.
    induction Hinfos as [|col info cols infos Hcol _ IH]; constructor.
    + apply column_samples. exact Hcol.
    + exact IH.
Qed.

End Samples.

Lemma extracted_samples_within_budget_witness :
  exists schema cols,
    _extract_schema_from_table Some (fun l => l) Examples.plain_csv
                               Examples.unnamed_frame (lit "data.csv")
    = Return schema
    /\ columns schema = Some cols
    /\ length cols = 3%nat.
Proof.
  pose proof (extracted_samples_within_budget
                Some (fun l => l) Examples.plain_csv
                Examples.unnamed_frame (lit "data.csv")) as [Hret Hcols].
  destruct (proj1 Hret) as [schema Hschema].
  { repeat constructor; intros Hin;
      repeat (apply elem_of_cons in Hin as [Hin | Hin]; [discriminate |]);
      inversion Hin. }
  destruct (Hcols schema Hschema) as (cols & Hc & Hall).
  exists schema, cols. split; [exact Hschema |]. split; [exact Hc |].
  apply Forall2_length in Hall. rewrite <- Hall. reflexivity.
Defined.

End SchemaFacts.

(** ** The merge *)

Module MergeFacts.

Lemma for_each_described (rts : list json) (named : list (json * json)) :
  Forall2 describes rts named -> for_each described rts = Return named.
Proof.
  induction 1 as [|rt kv rts named (Hn & Hd & Hh) _ IH]; [reflexivity |].
  simpl. unfold described at 1.
  rewrite Hn, Hd. simpl. rewrite Hh. simpl. rewrite IH. simpl.
  destruct kv; reflexivity.
Qed.

Lemma last_cons_or {A} (x : A) (l : list A) :
  last (x :: l) = match last l with Some y => Some y | None => Some x end.
Proof. destruct l as [|y l]; [reflexivity |]. simpl. destruct (last (y :: l)) eqn:E; [reflexivity |]. apply last_None in E. discriminate. Qed.

Lemma description_for_cons (kv : json * json) (named : list (json * json))
      (k : str) :
  description_for (kv :: named) k
  = match description_for named k with
    | Some d => Some d
    | None => named_as k kv
    end.
Proof.
  unfold description_for. simpl.
  destruct (named_as k kv) as [d|]; [| destruct (last _); reflexivity].
  apply last_cons_or.
Qed.

(** [res_des_map] holds, for a name, the description of the last table of
    the response with that name. *)
Lemma res_des_map_lookup (named : list (json * json)) (m : gmap str json)
      (k : str) :
  foldl record_description m named !! k
  = match description_for named k with
    | Some d => Some d
    | None => m !! k
    end.
Proof.
  revert m. induction named as [|kv named IH]; intros m; [reflexivity |].
  simpl. rewrite IH, description_for_cons.
  destruct (description_for named k) as [d|]; [reflexivity |].
  unfold record_description, named_as.
  destruct (fst kv) as [| | |s| |]; try reflexivity.
  case_bool_decide as Hs.
  - subst s. apply lookup_insert_eq.
  - apply lookup_insert_ne. exact Hs.
Qed.

Lemma description_for_names (named : list (json * json)) (k : str) :
  is_Some (description_for named k) <-> k ∈ response_names named.
Proof.
  induction named as [|kv named IH].
  - split; [intros [d Hd]; discriminate | intros Hin; inversion Hin].
  - rewrite description_for_cons. unfold response_names in *. simpl.
    unfold named_as.
    destruct (description_for named k) as [d|] eqn:Hd.
    + assert (Hin : k ∈ omap (fun kv0 : json * json =>
                match fst kv0 with JStr s => Some s | _ => None end) named)
        by (apply IH; eauto).
      split; [intros _ | eauto].
      destruct (fst kv); auto. right. exact Hin.
    + assert (Hnot : ~ k ∈ omap (fun kv0 : json * json =>
                match fst kv0 with JStr s => Some s | _ => None end) named).
      { intros Hin. apply IH in Hin as [? ?]. discriminate. }
      destruct (fst kv) as [| | |s| |];
        try (split; [intros [? ?]; discriminate | intros Hin; tauto]).
      case_bool_decide as Hs.
      * subst s. split; [intros _; left | eauto].
      * split; [intros [? ?]; discriminate |].
        intros Hin. apply elem_of_cons in Hin as [-> | Hin]; tauto.
Qed.

Lemma merge_table_carried (named : list (json * json)) (t : table_schema) :
  merge_table (foldl record_description ∅ named) t = carried_over named t.
Proof.
  unfold merge_table, carried_over.
  rewrite res_des_map_lookup, lookup_empty.
  destruct (description_for named (name t)); reflexivity.
Qed.

Lemma carried_names (named : list (json * json)) (tables : list table_schema) :
  List.map pt_name (omap (carried_over named) tables)
  = filter (fun n => n ∈ response_names named) (List.map name tables).
Proof.
  induction tables as [|t tables IH]; [reflexivity |].
  simpl. rewrite filter_cons.
  unfold carried_over at 1.
  destruct (description_for named (name t)) as [d|] eqn:Hd; simpl.
  - rewrite decide_True by (apply description_for_names; eauto).
    simpl. f_equal. exact IH.
  - rewrite decide_False; [exact IH |].
    intros Hin. apply description_for_names in Hin as [? ?]. congruence.
Qed.

Lemma carried_origin (named : list (json * json)) (tables : list table_schema) :
  Forall (fun pt =>
            exists t, t ∈ tables
                      /\ pt_name pt = name t
                      /\ description_for named (name t)
                         = Some (pt_description pt)
                      /\ pt_columns pt = columns t
                      /\ pt_irregular_judgment pt = irregular_judgment t)
         (omap (carried_over named) tables).
Proof.
  apply Forall_forall. intros pt Hin.
  apply list_elem_of_omap in Hin as (t & Ht & Hpt).
  exists t. split; [exact Ht |].
  unfold carried_over in Hpt.
  destruct (description_for named (name t)) as [d|]; [| discriminate].
  simpl in Hpt. injection Hpt as <-. simpl. auto.
Qed.

(** Whatever the look-up table holds, the loop over the tables of the schema
    only selects among them, in their order. *)
Lemma merge_selects (m : gmap str json) (tables : list table_schema) :
  Forall (taken_from tables) (omap (merge_table m) tables)
  /\ List.map pt_name (omap (merge_table m) tables)
       `sublist_of` List.map name tables.
Proof.
  split.
  - apply Forall_forall. intros pt Hin.
    apply list_elem_of_omap in Hin as (t & Ht & Hpt).
    exists t. split; [exact Ht |].
    unfold merge_table in Hpt.
    destruct (m !! name t); [| discriminate].
    injection Hpt as <-. simpl. auto.
  - induction tables as [|t tables IH]; [constructor |].
    simpl. unfold merge_table at 1.
    destruct (m !! name t); simpl.
    + apply sublist_skip. exact IH.
    + apply sublist_cons. exact IH.
Qed.

(** For any response at all: a profile, when there is one, has the name of
    the schema, no flat column list, and tables taken from the schema. *)
Lemma wrap_never_invents (nm : str) (tables : list table_schema)
      (response : json) (prof : profile) :
  _wrap_data_response (MultiTable nm tables) response = Return prof ->
  exists description merged_opt,
    prof = StructuredProfile nm description None merged_opt
    /\ forall merged, merged_opt = Some merged ->
         Forall (taken_from tables) merged
         /\ List.map pt_name merged `sublist_of` List.map name tables.
Proof.
  unfold _wrap_data_response, merged_tables. simpl.
  destruct (subscript response (lit "description")) as [d|];
    [simpl | discriminate].
  destruct (py_in (lit "tables") response) as [[|]|]; simpl;
    [| intros [= <-]; exists d, None; split; [reflexivity | discriminate]
     | discriminate].
  destruct (subscript response (lit "tables")) as [rts|];
    [simpl | discriminate].
  destruct (res_des_map_of rts) as [m|]; [simpl | discriminate].
  intros [= <-]. exists d, (Some (omap (merge_table m) tables)).
  split; [reflexivity |].
  intros merged [= <-]. apply merge_selects.
Qed.

(** A response without a table list: the profile has no table list. *)
Lemma wrap_without_response_tables (nm : str) (tables : list table_schema)
      (entries : list (str * json)) (description : json) :
  entry entries (lit "description") = Some description ->
  entry entries (lit "tables") = None ->
  _wrap_data_response (MultiTable nm tables) (JDict entries)
  = Return (StructuredProfile nm description None None).
Proof.
  intros Hd Ht. unfold _wrap_data_response, merged_tables. simpl.
  rewrite Hd. simpl. rewrite Ht. reflexivity.
Qed.

(** C4. For a schema with tables and a response that has a description and a
    list of described tables, the merged profile lists the tables of the
    schema, in their order, that the response names; each has the
    description the response gives for its name and the columns and
    judgement of the schema, unchanged; a table the response omits is
    absent, and there is no flat column list.  And for any response at all,
    the tables of a merged profile are taken, in order, from those of the
    schema, with its columns: none is invented. *)
Theorem wrap_keeps_described_tables
        (nm : str) (tables : list table_schema)
        (entries : list (str * json)) (description : json)
        (rts : list json) (named : list (json * json)) :
  entry entries (lit "description") = Some description ->
  entry entries (lit "tables") = Some (JList rts) ->
  Forall2 describes rts named ->
  exists merged : list profile_table,
    _wrap_data_response (MultiTable nm tables) (JDict entries)
    = Return (StructuredProfile nm description None (Some merged))
    /\ merged = omap (carried_over named) tables
    /\ List.map pt_name merged
       = filter (fun n => n ∈ response_names named) (List.map name tables)
    /\ Forall (fun pt =>
                 exists t, t ∈ tables
                           /\ pt_name pt = name t
                           /\ description_for named (name t)
                              = Some (pt_description pt)
                           /\ pt_columns pt = columns t
                           /\ pt_irregular_judgment pt = irregular_judgment t)
              merged
    /\ (forall t, t ∈ tables -> ~ name t ∈ response_names named ->
                  ~ name t ∈ List.map pt_name merged)
    /\ forall (any_response : json) (prof : profile),
         _wrap_data_response (MultiTable nm tables) any_response = Return prof ->
         exists d merged_opt,
           prof = StructuredProfile nm d None merged_opt
           /\ forall kept, merged_opt = Some kept ->
                Forall (taken_from tables) kept
                /\ List.map pt_name kept `sublist_of` List.map name tables.
Proof.
  intros Hd Ht Hnamed.
  exists (omap (carried_over named) tables).
  split; [| split; [reflexivity | split; [apply carried_names |
                      split; [apply carried_origin | split;
                              [| apply wrap_never_invents]]]]].
  - unfold _wrap_data_response, merged_tables. simpl.
    rewrite Hd. simpl. rewrite Ht. simpl.
    unfold res_des_map_of. simpl.
    rewrite (for_each_described _ _ Hnamed). simpl.
    do 3 f_equal.
    apply list_omap_ext, Forall_Forall2_diag, Forall_forall.
    intros t _. apply merge_table_carried.
  - intros t _ Hnot Hin. rewrite carried_names in Hin.
    apply list_elem_of_filter in Hin as [Hin _]. contradiction.
Qed.

Lemma wrap_keeps_described_tables_witness :
  let column := ColumnInfo (lit "id") (lit "INT64") DataSamples [lit "1"] in
  let table_a :=
    TableSchema (lit "A") (Some (lit ",id")) (Some 1) (Some 1%nat)
                (Some [column]) None in
  let table_b :=
    TableSchema (lit "B") (Some (lit ",id")) (Some 1) (Some 1%nat)
                (Some [column]) None in
  let response :=
    JDict [(lit "description", JStr (lit "a workbook"));
           (lit "tables",
            JList [JDict [(lit "name", JStr (lit "A"));
                          (lit "description", JStr (lit "the A sheet"))]])] in
  _wrap_data_response (MultiTable (lit "book.xlsx") [table_a; table_b]) response
  = Return (StructuredProfile
              (lit "book.xlsx") (JStr (lit "a workbook")) None
              (Some [ProfileTable (lit "A") (JStr (lit "the A sheet"))
                                  (Some [column]) None])).
Proof.
  intros column table_a table_b response.
  destruct (wrap_keeps_described_tables
              (lit "book.xlsx") [table_a; table_b]
              [(lit "description", JStr (lit "a workbook"));
               (lit "tables",
                JList [JDict [(lit "name", JStr (lit "A"));
                              (lit "description", JStr (lit "the A sheet"))]])]
              (JStr (lit "a workbook"))
              [JDict [(lit "name", JStr (lit "A"));
                      (lit "description", JStr (lit "the A sheet"))]]
              [(JStr (lit "A"), JStr (lit "the A sheet"))])
    as (merged & Hwrap & Hmerged & _).
  - reflexivity.
  - reflexivity.
  - repeat constructor.
  - unfold response. rewrite Hwrap, Hmerged. reflexivity.
Defined.

End MergeFacts.

(** ** Relational introspection *)

Module IntrospectionFacts.

Import Introspection.

Lemma introspect_table_readable (db : database) (rows_var : option (list row))
      (t : str) (cols : list db_column) (rc : option Z) (rows : list row) :
  get_columns (table db t) = Return cols ->
  count_rows (table db t) = Return rc ->
  select_rows (table db t) = Return rows ->
  introspect_table db rows_var t
  = (Return (TableSchema t (Some (snippet_of cols rows)) (Some (default 0 rc))
                         (Some (length cols))
                         (Some (column_details cols rows)) None),
     Some rows).
Proof.
  intros Hc Hn Hs. unfold introspect_table. rewrite Hc, Hn, Hs. reflexivity.
Qed.

(** A table whose column fetch or row-count query raises is given up, and
    the variable [rows] keeps its value. *)
Lemma introspect_table_unreadable (db : database)
      (rows_var : option (list row)) (t : str) :
  readable db t = false ->
  fails_softly (get_columns (table db t)) ->
  fails_softly (count_rows (table db t)) ->
  exists e, introspect_table db rows_var t = (Raise e, rows_var)
            /\ is_Exception e = true.
Proof.
  unfold readable, introspect_table. intros Hr Hc Hn.
  destruct (get_columns (table db t)) as [cols | e]; [| eauto].
  destruct (count_rows (table db t)) as [rc | e]; [discriminate | eauto].
Qed.

Lemma introspect_tables_readable (db : database) (table_names : list str) :
  Forall (well_behaved db) table_names ->
  forall rows_var,
  exists tables_data,
    introspect_tables db rows_var table_names = Return tables_data
    /\ List.map name tables_data = List.filter (readable db) table_names
    /\ Forall (introspected db) tables_data.
Proof.
  induction 1 as [|t rest (Hc & Hn & Hs) _ IH]; intros rows_var.
  - exists []. repeat split. constructor.
  - simpl. destruct (readable db t) eqn:Hr.
    + specialize (Hs eq_refl). unfold readable in Hr.
      destruct (get_columns (table db t)) as [cols|] eqn:Ecols;
        [| discriminate].
      destruct (count_rows (table db t)) as [rc|] eqn:Ecount;
        [| discriminate].
      destruct (select_rows (table db t)) as [rows|] eqn:Erows;
        [| discriminate].
      rewrite (introspect_table_readable db rows_var t cols rc rows)
        by assumption.
      destruct (IH (Some rows)) as (tables_data & Hrun & Hnames & Hall).
      rewrite Hrun. simpl. eexists. split; [reflexivity |]. split.
      * simpl. f_equal. exact Hnames.
      * constructor; [| exact Hall].
        exists cols, rc, rows. simpl. auto 10.
    + destruct (introspect_table_unreadable db rows_var t Hr Hc Hn)
        as (e & -> & ->).
      apply IH.
Qed.

Lemma filter_complement_length {A} (f : A -> bool) (l : list A) :
  length (List.filter f l)
  = (length l - length (List.filter (fun x => negb (f x)) l))%nat.
Proof.
  induction l as [|x l IH]; [reflexivity |].
  simpl. destruct (f x); simpl.
  - rewrite IH.
    pose proof (List.filter_length_le (fun x => negb (f x)) l). lia.
  - exact IH.
Qed.

(** C2, as the code has it. When the engine is created, the connection is
    made and the tables are enumerated, and when every failure on a table is
    an [Exception] and the sample query of every table succeeds whose column
    fetch and row count succeeded, the aggregate schema holds exactly the
    tables whose column fetch and row-count query both succeeded, in
    enumeration order, each with its name, its exact row count, its
    column count, its columns and its snippet.  A table whose row-count query
    fails is absent, like one whose column fetch fails, and the number of
    tables in the schema is the number enumerated minus the number of those
    for which one of the two failed. *)
Theorem introspection_keeps_readable_tables
        (path : str) (db : database) (table_names : list str) :
  create_engine db = Return tt ->
  connect db = Return tt ->
  get_table_names db = Return table_names ->
  Forall (well_behaved db) table_names ->
  exists tables_data,
    _read_data path db = Return (MultiTable path tables_data)
    /\ List.map name tables_data = List.filter (readable db) table_names
    /\ length tables_data
       = (length table_names
          - length (List.filter (fun t => negb (readable db t)) table_names))%nat
    /\ Forall (introspected db) tables_data
    /\ forall t, fetched (count_rows (table db t)) = false ->
                 ~ In t (List.map name tables_data).
Proof.
  intros He Hc Hn Hall.
  destruct (introspect_tables_readable db table_names Hall None)
    as (tables_data & Hrun & Hnames & Hkept).
  exists tables_data. split; [| split; [exact Hnames | split; [| split]]].
  - unfold _read_data. rewrite He, Hc, Hn. simpl. rewrite Hrun. reflexivity.
  - rewrite <- (length_map name), Hnames. apply filter_complement_length.
  - exact Hkept.
  - intros t Hfail Hin. rewrite Hnames in Hin.
    apply List.filter_In in Hin as [_ Hr].
    unfold readable in Hr. rewrite Hfail, andb_false_r in Hr. discriminate.
Qed.

Lemma shop_db_well_behaved :
  Forall (well_behaved shop_db) [lit "users"; lit "orders"; lit "audit"].
Proof.
  repeat constructor; try reflexivity; intros Hr; vm_compute in Hr;
    discriminate.
Qed.

Lemma introspection_keeps_readable_tables_witness :
  exists tables_data,
    _read_data (lit "sqlite:///shop.db") shop_db
    = Return (MultiTable (lit "sqlite:///shop.db") tables_data)
    /\ List.map name tables_data = [lit "users"].
Proof.
  destruct (introspection_keeps_readable_tables
              (lit "sqlite:///shop.db") shop_db
              [lit "users"; lit "orders"; lit "audit"]
              eq_refl eq_refl eq_refl shop_db_well_behaved)
    as (tables_data & Hread & Hnames & _).
  exists tables_data. split; [exact Hread | exact Hnames].
Defined.

(** The row-count query on [orders] fails while its columns are fetched, and
    [orders] is not in the result: isolation does not hold as worded. *)
Lemma count_failure_drops_table :
  fetched (get_columns (table shop_db (lit "orders"))) = true
  /\ fetched (count_rows (table shop_db (lit "orders"))) = false
  /\ introspect_tables shop_db None [lit "users"; lit "orders"; lit "audit"]
     = Return [TableSchema (lit "users") (Some (lit "id" ++ [10%N] ++ lit "1"
                                                ++ [10%N] ++ lit "2"))
                           (Some 2) (Some 1%nat)
                           (Some [ColumnInfo (lit "id") (lit "INTEGER")
                                             DataSample [lit "1"; lit "2"]])
                           None]
  /\ ~ isolation_as_specified shop_db [lit "users"; lit "orders"; lit "audit"].
Proof.
  split; [reflexivity |]. split; [reflexivity |].
  split; [vm_compute; reflexivity |].
  intros Hspec. specialize (Hspec _ eq_refl). vm_compute in Hspec.
  discriminate.
Qed.

End IntrospectionFacts.

(** ** The profiling lifecycle *)

Module ProfilerFacts.

Import Profiler Examples.

Section Lifecycle.

Context {cell : Type} `{EqDecision cell}.
Variable cell_str : cell -> option str.
Variable shuffle : list cell -> list cell.
Variable to_csv : dataframe cell -> str.
Variable llm_call_manager : content -> outcome str.
Variable json_loads : str -> outcome json.
Variable isspace : char -> bool.
Variable format_data : str -> source_data -> outcome str.
Variable format_snippet : str -> str -> outcome str.

Local Abbreviation generate_profile' :=
  (generate_profile cell_str shuffle to_csv llm_call_manager json_loads
                    isspace format_data format_snippet).
Local Abbreviation profile_lifecycle' :=
  (profile_lifecycle cell_str shuffle to_csv llm_call_manager json_loads
                     isspace format_data format_snippet).
Local Abbreviation read_data' :=
  (Profiler._read_data cell_str shuffle to_csv llm_call_manager json_loads
                       isspace format_snippet).

Lemma generate_profile_raises_only_base (p : profiler) (e : exn) :
  generate_profile' p = Raise e -> is_Exception e = false.
Proof.
  unfold generate_profile.
  destruct (profile_lifecycle' p) as [profile' | e']; [discriminate |].
  destruct (is_Exception e') eqn:He; [discriminate |].
  intros [= <-]. exact He.
Qed.

Lemma generate_profile_swallows (p : profiler) (e : exn) :
  profile_lifecycle' p = Raise e ->
  is_Exception e = true ->
  generate_profile' p = Return EmptyProfile.
Proof.
  intros Hl He. unfold generate_profile. rewrite Hl, He. reflexivity.
Qed.

Lemma connect_failure_raises_connection_error
      (path' : str) (db : Introspection.database) (e : exn) :
  Introspection.create_engine db = Return tt ->
  Introspection.connect db = Raise e ->
  is_Exception e = true ->
  Introspection._read_data path' db
  = Raise (Exn ConnectionError
               (lit "Failed to connect to database: " ++ message e)).
Proof.
  intros Hc Hf He. unfold Introspection._read_data.
  rewrite Hc, Hf. simpl. rewrite He. reflexivity.
Qed.

(** C1, as the code has it. [generate_profile] raises nothing that is an
    [Exception]: whenever a step of the lifecycle fails with one, the result
    is the empty profile.  This includes the failure to connect to a
    relational database: [_read_data] raises a [ConnectionError] that wraps
    the cause, and [generate_profile], its caller, turns it into the empty
    profile like any other. *)
Theorem generate_profile_never_raises_exception (p : profiler) :
  (forall e, generate_profile' p = Raise e -> is_Exception e = false)
  /\ (forall e, profile_lifecycle' p = Raise e -> is_Exception e = true ->
                generate_profile' p = Return EmptyProfile)
  /\ (forall db e,
        kind p = RelationalSource db ->
        Introspection.create_engine db = Return tt ->
        Introspection.connect db = Raise e ->
        is_Exception e = true ->
        read_data' p
        = Raise (Exn ConnectionError
                     (lit "Failed to connect to database: " ++ message e))
        /\ generate_profile' p = Return EmptyProfile).
Proof.
  split; [apply generate_profile_raises_only_base |].
  split; [apply generate_profile_swallows |].
  intros db e Hk Hc Hf He.
  assert (Hread : read_data' p
                  = Raise (Exn ConnectionError
                             (lit "Failed to connect to database: "
                              ++ message e))).
  { unfold Profiler._read_data. rewrite Hk.
    apply connect_failure_raises_connection_error; assumption. }
  split; [exact Hread |].
  apply generate_profile_swallows
    with (e := Exn ConnectionError
                   (lit "Failed to connect to database: " ++ message e)).
  - unfold profile_lifecycle. rewrite Hread. reflexivity.
  - reflexivity.
Qed.

(** Every result of the recovery path carries a judgement. *)
Lemma extract_irregular_has_judgment (wb : workbook) (raw sheet_name : str)
      (ts : table_schema) :
  _extract_irregular_table cell_str shuffle to_csv llm_call_manager json_loads
                           isspace format_snippet wb raw sheet_name
  = Return ts ->
  is_Some (irregular_judgment ts).
Proof.
  unfold _extract_irregular_table.
  destruct (load_irregular_prompt wb) as [pr|]; [simpl | discriminate].
  destruct (format_snippet pr raw) as [text|]; [simpl | discriminate].
  destruct (_generate_profile_by_llm _ _ _ _) as [res|]; [simpl | discriminate].
  destruct (py_in _ res) as [has|]; [simpl | discriminate].
  assert (Hu : forall ts',
             Return (unstructured sheet_name raw) = Return ts' ->
             is_Some (irregular_judgment ts')).
  { intros ts' [= <-]. simpl. eauto. }
  destruct has.
  - destruct (subscript res _) as [flag|]; [simpl | discriminate].
    destruct (truthy flag); [| apply Hu].
    destruct (read_excel_region wb sheet_name res) as [df|];
      [simpl | discriminate].
    destruct (is_irregular (column_labels df)) as [irr|];
      [simpl | discriminate].
    destruct irr; [apply Hu |].
    destruct (_extract_schema_from_table _ _ _ df sheet_name) as [schema|];
      [simpl | discriminate].
    intros [= <-]. simpl. eauto.
  - simpl. apply Hu.
Qed.

(** C5, as the code has it. The three names [id], [Unnamed: 0] and
    [Unnamed: 1] are irregular (2 of 3), but the CSV profiler does not ask:
    whatever the header, it extracts the schema directly from the first
    rows.  When the loop over the columns returns, the result is the
    extracted schema with the scanned row count written into it and no
    judgement; when the loop raises (a missing value has no length), the
    reading raises the same exception.  In no case is the file routed to
    the recovery path. *)
Theorem csv_extracts_directly (p : profiler) (f : csv_file)
        (n : Z) (df : dataframe cell) :
  scan_count f = Return n ->
  read_csv f = Return df ->
  is_irregular [lit "id"; lit "Unnamed: 0"; lit "Unnamed: 1"] = Return true
  /\ (forall infos,
        for_each (column_of cell_str shuffle) (frame_columns df)
        = Return infos ->
        csv_read_data cell_str shuffle to_csv p f
        = Return (SingleTable
                    (TableSchema
                       (file_name p)
                       (Some (to_csv (head_rows 5 df)))
                       (Some n)
                       (Some (length (frame_columns df)))
                       (Some infos)
                       None)))
  /\ (forall e,
        for_each (column_of cell_str shuffle) (frame_columns df) = Raise e ->
        csv_read_data cell_str shuffle to_csv p f = Raise e)
  /\ ~ routed_to_irregular (csv_read_data cell_str shuffle to_csv p f).
Proof.
  intros Hn Hdf.
  split; [reflexivity |].
  unfold csv_read_data, _extract_schema_from_table. rewrite Hn, Hdf. simpl.
  destruct (for_each _ (frame_columns df)) as [infos|e]; simpl.
  - split; [intros ? [= <-]; reflexivity |]. split; [discriminate |].
    intros (table & [= <-] & [j Hj]). discriminate.
  - split; [discriminate |]. split; [intros ? [= <-]; reflexivity |].
    intros (table & Hread & _). discriminate.
Qed.

End Lifecycle.

Lemma generate_profile_never_raises_exception_witness :
  generate_profile_in_example unreachable_profiler = Return EmptyProfile.
Proof.
  apply (generate_profile_never_raises_exception
           Some (fun l => l) plain_csv answer_nothing parse_nothing
           is_blank paste_data paste_snippet unreachable_profiler)
    with (db := Introspection.unreachable_db)
         (e := Introspection.db_error "connection refused");
    reflexivity.
Defined.

(** The connection fails, [_read_data] raises the [ConnectionError], and yet
    the caller of [generate_profile] gets the empty profile, not an
    exception. *)
Lemma connection_error_is_swallowed :
  Introspection.connect Introspection.unreachable_db
  = Raise (Introspection.db_error "connection refused")
  /\ read_data_in_example unreachable_profiler
     = Raise (Exn ConnectionError
                  (lit "Failed to connect to database: connection refused"))
  /\ generate_profile_in_example unreachable_profiler = Return EmptyProfile
  /\ ~ (exists e, generate_profile_in_example unreachable_profiler = Raise e).
Proof.
  split; [reflexivity |]. split; [vm_compute; reflexivity |].
  split; [vm_compute; reflexivity |].
  intros [e He]. vm_compute in He. discriminate.
Qed.

Lemma csv_extracts_directly_witness :
  is_irregular (column_labels unnamed_frame) = Return true
  /\ (exists table,
        read_data_in_example unnamed_csv_profiler
        = Return (SingleTable table)
        /\ irregular_judgment table = None
        /\ row_count table = Some 1)
  /\ exists e,
       csv_read_data (fun c => c) (fun l => l) header_csv
                     gaps_csv_profiler gaps_csv
       = Raise e
       /\ cls e = TypeError.
Proof.
  split; [reflexivity |]. split.
  - destruct (csv_extracts_directly Some (fun l => l) plain_csv
                unnamed_csv_profiler unnamed_csv 1 unnamed_frame
                eq_refl eq_refl)
      as (_ & Hread & _).
    eexists. split; [apply Hread; reflexivity |]. split; reflexivity.
  - destruct (csv_extracts_directly (fun c => c) (fun l => l) header_csv
                gaps_csv_profiler gaps_csv 2 gaps_frame eq_refl eq_refl)
      as (_ & _ & Hraise & _).
    eexists. split; [apply Hraise; reflexivity | reflexivity].
Defined.

(** The header is irregular and the CSV profiler returns the directly
    extracted schema all the same: it is not routed to the recovery path. *)
Lemma csv_is_not_routed_to_irregular :
  is_irregular (column_labels unnamed_frame) = Return true
  /\ ~ routed_to_irregular (read_data_in_example unnamed_csv_profiler).
Proof.
  split; [reflexivity |].
  intros (table & Hread & [j Hj]).
  vm_compute in Hread. injection Hread as <-. discriminate.
Qed.

End ProfilerFacts.

(** ** Truncation *)

Module TextPostHookFacts.

Import TextPostHook.

Lemma total_length_cons (text : str) (texts : list str) :
  Z.of_nat (total_length (text :: texts))
  = Z.of_nat (length text) + Z.of_nat (total_length texts).
Proof. unfold total_length. simpl. lia. Qed.

(** Text blocks that fit, with budget to spare, pass unchanged, and the walk
    goes on with what remains. *)
Lemma truncate_blocks_pass (pre : list str) (rest : list block) (b : Z) :
  Z.of_nat (total_length pre) < b ->
  truncate_blocks b (List.map TextBlock pre ++ rest)
  = (List.map TextBlock pre
     ++ fst (truncate_blocks (b - Z.of_nat (total_length pre)) rest),
     snd (truncate_blocks (b - Z.of_nat (total_length pre)) rest)).
Proof.
  revert b. induction pre as [|text pre IH]; intros b Hb.
  - simpl. change (Z.of_nat (total_length [])) with 0.
    rewrite Z.sub_0_r. destruct (truncate_blocks b rest); reflexivity.
  - rewrite total_length_cons in *. simpl.
    destruct (Z.ltb_spec b (Z.of_nat (length text))) as [Hlt | _]; [lia |].
    destruct (Z.leb_spec (b - Z.of_nat (length text)) 0) as [Hle | _]; [lia |].
    rewrite IH by lia.
    replace (b - Z.of_nat (length text) - Z.of_nat (total_length pre))
      with (b - (Z.of_nat (length text) + Z.of_nat (total_length pre)))
      by lia.
    reflexivity.
Qed.

(** A text block longer than what remains is cut to 85% of what remains, and
    the walk stops there. *)
Lemma truncate_blocks_cut (text : str) (post : list block) (r : Z) :
  0 < r ->
  r < Z.of_nat (length text) ->
  truncate_blocks r (TextBlock text :: post)
  = ([TextBlock (take (Z.to_nat (r * 85 / 100)) text ++ append_hint)], true).
Proof.
  intros Hr Hlen. simpl.
  destruct (Z.ltb_spec r (Z.of_nat (length text))) as [_ | Hge]; [| lia].
  destruct (Z.leb_spec (r - Z.of_nat (length text)) 0) as [_ | Hgt]; [| lia].
  unfold slice_to, threshold_of.
  rewrite Z.quot_div_nonneg by lia.
  destruct (Z.leb_spec 0 (r * 85 / 100)) as [_ | Hneg]; [reflexivity |].
  assert (0 <= r * 85 / 100) by (apply Z.div_pos; lia). lia.
Qed.

(** A last text block that fits passes unchanged. *)
Lemma truncate_blocks_fit (text : str) (r : Z) :
  Z.of_nat (length text) <= r ->
  truncate_blocks r [TextBlock text] = ([TextBlock text], false).
Proof.
  intros Hlen. simpl.
  destruct (Z.ltb_spec r (Z.of_nat (length text))) as [Hlt | _]; [lia |].
  destruct (r - Z.of_nat (length text) <=? 0); reflexivity.
Qed.

Section Hook.

Variable TMP_FILE_DIR : str.
Variable float_threshold : Z -> Z -> Z.

(** C3, as the code has it. Let text segments [pre] be followed by a text
    segment [text], and let [r] be the budget that remains after [pre],
    which is positive.  If [text] is longer than [r], the segments of [pre]
    pass unchanged, [text] is replaced by its first [floor(0.85 * r)]
    characters (85% of the remaining budget, which is the configured budget
    only when [pre] holds no character) followed by the marker, everything
    after it is dropped, and the pointer to the saved file is appended.  If
    [text] is the last segment and fits in [r], and auto-save is off, the
    content is returned as it is and nothing is saved. *)
Theorem truncation_cuts_to_remaining_budget
        (h : hook) (tool_name uuid8 : str)
        (pre : list str) (text : str) (post : list block) :
  let r := budget h - Z.of_nat (total_length pre) in
  let cut := TextBlock (take (Z.to_nat (r * 85 / 100)) text ++ append_hint) in
  let saved_at := path_join TMP_FILE_DIR (tool_name ++ lit "-" ++ uuid8) in
  0 < r ->
  (r < Z.of_nat (length text) ->
   truncate_blocks (budget h)
                   (List.map TextBlock pre ++ TextBlock text :: post)
   = (List.map TextBlock pre ++ [cut], true)
   /\ truncate_and_save_response TMP_FILE_DIR float_threshold h tool_name uuid8
        (ContentList (List.map TextBlock pre ++ TextBlock text :: post))
      = (ContentList (List.map TextBlock pre
                      ++ [cut; pointer_block saved_at true]),
         Some (SavedFile saved_at
                 (ContentList
                    (List.map TextBlock pre ++ TextBlock text :: post)))))
  /\ (Z.of_nat (length text) <= r ->
      auto_save h = false ->
      truncate_and_save_response TMP_FILE_DIR float_threshold h tool_name uuid8
        (ContentList (List.map TextBlock (pre ++ [text])))
      = (ContentList (List.map TextBlock (pre ++ [text])), None)).
Proof.
  intros r cut saved_at Hr. split.
  - intros Hlen.
    assert (Hwalk : truncate_blocks (budget h)
                      (List.map TextBlock pre ++ TextBlock text :: post)
                    = (List.map TextBlock pre ++ [cut], true)).
    { rewrite truncate_blocks_pass by (unfold r in Hr; lia).
      fold r. rewrite truncate_blocks_cut by assumption. reflexivity. }
    split; [exact Hwalk |].
    unfold truncate_and_save_response. rewrite Hwalk.
    rewrite orb_true_r. simpl. rewrite <- app_assoc. reflexivity.
  - intros Hlen Hauto.
    unfold truncate_and_save_response.
    rewrite List.map_app. simpl.
    rewrite truncate_blocks_pass by (unfold r in Hr; lia).
    fold r. rewrite truncate_blocks_fit by assumption.
    simpl. rewrite Hauto. reflexivity.
Qed.

End Hook.

Lemma truncation_cuts_to_remaining_budget_witness :
  truncate_and_save_response (lit "/tmp") (fun b _ => b) (Hook 100 false)
    (lit "search") (lit "0a1b2c3d")
    (ContentList [TextBlock (replicate 60 (ord "a"));
                  TextBlock (replicate 50 (ord "b"));
                  TextBlock (lit "later")])
  = (ContentList
       [TextBlock (replicate 60 (ord "a"));
        TextBlock (replicate 34 (ord "b") ++ append_hint);
        TextBlock
          (lit "Dump the complete long file at /tmp/search-0a1b2c3d. "
           ++ lit "Don't try to read the complete file directly. "
           ++ lit "Use `grep -C 10 'YOUR_PATTERN' {file_path}` or "
           ++ lit "other bash command to extract useful information.")],
     Some (SavedFile
             (lit "/tmp/search-0a1b2c3d")
             (ContentList [TextBlock (replicate 60 (ord "a"));
                           TextBlock (replicate 50 (ord "b"));
                           TextBlock (lit "later")])))
  /\ truncate_and_save_response (lit "/tmp") (fun b _ => b) (Hook 100 false)
       (lit "search") (lit "0a1b2c3d")
       (ContentList [TextBlock (replicate 60 (ord "a"));
                     TextBlock (replicate 40 (ord "b"))])
     = (ContentList [TextBlock (replicate 60 (ord "a"));
                     TextBlock (replicate 40 (ord "b"))], None).
Proof.
  split.
  - apply (truncation_cuts_to_remaining_budget
             (lit "/tmp") (fun b _ => b) (Hook 100 false)
             (lit "search") (lit "0a1b2c3d")
             [replicate 60 (ord "a")] (replicate 50 (ord "b"))
             [TextBlock (lit "later")]);
      vm_compute; reflexivity.
  - apply (truncation_cuts_to_remaining_budget
             (lit "/tmp") (fun b _ => b) (Hook 100 false)
             (lit "search") (lit "0a1b2c3d")
             [replicate 60 (ord "a")] (replicate 40 (ord "b")) []);
      [vm_compute; reflexivity | vm_compute; discriminate | reflexivity].
Defined.

(** With a budget of 100, a first segment of 60 characters leaves 40: the
    second segment, of 50 characters, is cut to 34 characters, not to the 85
    that the configured budget would give. *)
Lemma truncation_is_not_of_configured_budget :
  fst (truncate_blocks 100
         (List.map TextBlock
                   [replicate 60 (ord "a"); replicate 50 (ord "b")]))
  = [TextBlock (replicate 60 (ord "a"));
     TextBlock (replicate 34 (ord "b") ++ append_hint)]
  /\ spec_truncate_texts 100 100
       [replicate 60 (ord "a"); replicate 50 (ord "b")]
     = [replicate 60 (ord "a"); replicate 50 (ord "b") ++ append_hint]
  /\ fst (truncate_blocks 100
            (List.map TextBlock
                      [replicate 60 (ord "a"); replicate 50 (ord "b")]))
     <> List.map TextBlock
                 (spec_truncate_texts 100 100
                    [replicate 60 (ord "a"); replicate 50 (ord "b")]).
Proof.
  split; [vm_compute; reflexivity |]. split; [vm_compute; reflexivity |].
  vm_compute. discriminate.
Qed.

End TextPostHookFacts.

(** ** Names: every path of the generator, and the sanitizer as a
    projection *)

Module NameProperties.

Import Naming NamingFacts.

Section Generator.

Variable unicode_isalpha : char -> bool.
Variable unicode_lower : char -> str.
Variable isfile : str -> bool.
Variable basename : str -> str.
Variable splitext_root : str -> str.
Variable urlparse : str -> option parsed_url.

Lemma parse_database_url_sanitized (endpoint name : str) :
  parse_database_url unicode_isalpha unicode_lower endpoint = Some name ->
  exists raw, name = _sanitize_name unicode_isalpha raw.
Proof.
  unfold parse_database_url.
  destruct (split_max endpoint (lit "://") 1) as [|scheme [|rest [|? ?]]];
    try discriminate.
  match goal with
  | |- context [mbind _ ?m] => destruct m as [rest'|]
  end; simpl; [| discriminate].
  intros [= <-]. eexists. reflexivity.
Qed.

Lemma database_name_sanitized (endpoint name : str) :
  database_name_of unicode_isalpha unicode_lower basename splitext_root
                   endpoint = Some name ->
  exists raw, name = _sanitize_name unicode_isalpha raw.
Proof.
  unfold database_name_of.
  destruct (existsb _ _); [| discriminate].
  destruct (contains (lit "://") endpoint).
  - apply parse_database_url_sanitized.
  - destruct (contains (lit ".") endpoint); [| discriminate].
    intros [= <-]. eexists. reflexivity.
Qed.

Lemma url_name_sanitized (endpoint name : str) :
  url_name_of unicode_isalpha urlparse endpoint = Some name ->
  exists raw, name = _sanitize_name unicode_isalpha raw.
Proof.
  unfold url_name_of.
  destruct (contains (lit "://") endpoint); [| discriminate].
  destruct (urlparse endpoint) as [parsed|]; simpl; [| discriminate].
  destruct (netloc parsed), (path parsed); try discriminate;
    repeat match goal with
      | |- context [if ?b then _ else _] => destruct b
      | |- context [match ?l with [] => _ | _ :: _ => _ end] => destruct l
      end;
    try discriminate; intros [= <-]; eexists; reflexivity.
Qed.

Lemma generate_name_is_sanitized (endpoint : str) :
  exists raw,
    _generate_name unicode_isalpha unicode_lower isfile basename splitext_root
                   urlparse endpoint
    = _sanitize_name unicode_isalpha raw.
Proof.
  unfold _generate_name.
  destruct (isfile endpoint); [eexists; reflexivity |].
  destruct (database_name_of _ _ _ _ endpoint) as [name|] eqn:Hdb.
  - eapply database_name_sanitized. exact Hdb.
  - destruct (url_name_of _ _ endpoint) as [name|] eqn:Hurl.
    + eapply url_name_sanitized. exact Hurl.
    + eexists. reflexivity.
Qed.

(** X1. Whatever the endpoint, the file system, the path library and the
    URL parser, the name that [_generate_name] derives is a sanitized one:
    not empty, at most 50 characters, made of [[A-Za-z0-9_]] only, and
    starting with a letter or an underscore. *)
Theorem generated_name_is_identifier (endpoint : str) :
  let r := _generate_name unicode_isalpha unicode_lower isfile basename
                          splitext_root urlparse endpoint in
  r <> []
  /\ (length r <= 50)%nat
  /\ Forall (fun c => is_word_char c = true) r
  /\ well_started r.
Proof.
  intros r. destruct (generate_name_is_sanitized endpoint) as [raw Hraw].
  unfold r. rewrite Hraw.
  destruct (sanitize_shape unicode_isalpha raw) as (Hlen & Hword & Hstart).
  repeat split; auto.
  intros Hnil. rewrite Hnil in Hstart. exact Hstart.
Qed.

(** A name that already is an identifier of at most 50 characters is left
    as it is. *)
Lemma sanitize_fixes_identifiers (s : str) :
  (length s <= 50)%nat ->
  Forall (fun c => is_word_char c = true) s ->
  well_started s ->
  _sanitize_name unicode_isalpha s = s.
Proof.
  intros Hlen Hword Hstart. unfold _sanitize_name.
  assert (Hsub : re_sub_nonword s = s).
  { clear Hlen Hstart. induction Hword as [|c s Hc _ IH]; [reflexivity |].
    simpl. rewrite Hc, IH. reflexivity. }
  rewrite Hsub.
  destruct s as [|c s]; [destruct Hstart |].
  assert (Hc : is_word_char c = true) by (inversion Hword; assumption).
  assert (Hfix : negb (isalpha unicode_isalpha c) && negb (N.eqb c underscore)
                 = false).
  { destruct Hstart as [Hletter | ->].
    - unfold isalpha.
      pose proof (word_char_is_ascii c Hc) as Hlt.
      apply N.ltb_lt in Hlt. rewrite Hlt, Hletter. reflexivity.
    - rewrite N.eqb_refl. apply andb_false_r. }
  rewrite Hfix. rewrite take_ge by exact Hlen. reflexivity.
Qed.

(** X2. Sanitizing is idempotent: a sanitized name is not changed by
    sanitizing it again. *)
Theorem sanitize_name_idempotent (nm : str) :
  _sanitize_name unicode_isalpha (_sanitize_name unicode_isalpha nm)
  = _sanitize_name unicode_isalpha nm.
Proof.
  destruct (sanitize_shape unicode_isalpha nm) as (Hlen & Hword & Hstart).
  apply sanitize_fixes_identifiers; assumption.
Qed.

(** X3. A name that starts with a digit gets an underscore in front before
    it is cut to 50 characters: the result is the underscore followed by
    the first 49 characters of the name, each one outside [[A-Za-z0-9_]]
    replaced by an underscore, so that the 50th character of the name is
    lost. *)
Theorem sanitize_name_prefixes_underscore (c : char) (rest : str) :
  is_ascii_digit c = true ->
  _sanitize_name unicode_isalpha (c :: rest)
  = underscore :: c :: take 48 (re_sub_nonword rest).
Proof.
  intros Hdigit. unfold _sanitize_name. simpl re_sub_nonword.
  assert (Hrange : (48 <= c <= 57)%N).
  { unfold is_ascii_digit in Hdigit.
    apply andb_true_iff in Hdigit as [H1 H2].
    apply N.leb_le in H1, H2. lia. }
  assert (Hword : is_word_char c = true).
  { unfold is_word_char. rewrite Hdigit, orb_true_r. reflexivity. }
  assert (Halpha : isalpha unicode_isalpha c = false).
  { unfold isalpha, is_ascii_letter, is_ascii_upper, is_ascii_lower.
    destruct (N.ltb_spec c 128) as [_ | Hge]; [| lia].
    apply orb_false_iff. split; apply andb_false_iff.
    - left. apply N.leb_gt. lia.
    - left. apply N.leb_gt. lia. }
  assert (Hunder : N.eqb c underscore = false).
  { apply N.eqb_neq. unfold underscore, ord. simpl. lia. }
  rewrite Hword, Halpha, Hunder. reflexivity.
Qed.

End Generator.

Lemma sanitize_name_prefixes_underscore_witness :
  _sanitize_name (fun _ => false) (lit "2024 sales")
  = lit "_2024_sales".
Proof.
  exact (sanitize_name_prefixes_underscore (fun _ => false)
           (ord "2") (lit "024 sales") eq_refl).
Defined.

End NameProperties.

(** ** Unwrapping the model's answer *)

Module ResponseCleaning.

Import Profiler.

Section Cleaning.

Variable json_loads : str -> outcome json.
Variable isspace : char -> bool.

Lemma lstrip_blank (ws s : str) :
  blank isspace ws -> lstrip isspace (ws ++ s) = lstrip isspace s.
Proof.
  induction 1 as [|c ws Hc _ IH]; [reflexivity |].
  simpl. rewrite Hc. exact IH.
Qed.

Lemma rstrip_blank (s ws : str) :
  blank isspace ws -> rstrip isspace (s ++ ws) = rstrip isspace s.
Proof.
  intros Hws. unfold rstrip. rewrite reverse_app, lstrip_blank; [reflexivity |].
  unfold blank. rewrite reverse_Permutation. exact Hws.
Qed.

Lemma rstrip_snoc_solid (s : str) (c : char) :
  isspace c = false -> rstrip isspace (s ++ [c]) = s ++ [c].
Proof.
  intros Hc. unfold rstrip.
  rewrite reverse_app. simpl. rewrite Hc.
  change (c :: reverse s) with (reverse [c] ++ reverse s).
  rewrite <- reverse_app. apply reverse_involutive.
Qed.

Lemma startswith_app (p s : str) : startswith (p ++ s) p = true.
Proof.
  induction p as [|a p IH]; [destruct s; reflexivity |].
  simpl. rewrite N.eqb_refl. exact IH.
Qed.

Lemma endswith_app (s p : str) : endswith (s ++ p) p = true.
Proof. unfold endswith. rewrite reverse_app. apply startswith_app. Qed.

Lemma startswith_not_fence (c : char) (s : str) :
  c <> ord "`" ->
  startswith (c :: s) fence = false
  /\ startswith (c :: s) json_fence = false.
Proof.
  intros Hne.
  assert (Hcne : N.eqb (ord "`") c = false).
  { apply N.eqb_neq. intros Heq. apply Hne. symmetry. exact Heq. }
  change fence with (ord "`" :: lit "``").
  change json_fence with (ord "`" :: lit "``json").
  split; cbn [startswith]; rewrite Hcne; reflexivity.
Qed.

(** X4. An answer wrapped in a [```json] fence, with any white space
    around the fence markers, is parsed as the text between them; an answer
    without fences is parsed as its text without the surrounding white
    space.  The text must start and end with a character that is not white
    space and not start with a backquote. *)
Theorem fenced_answer_is_unwrapped
        (ws0 ws1 ws2 ws3 : str) (c : char) (body : str) :
  isspace (ord "`") = false ->
  blank isspace ws0 -> blank isspace ws1 ->
  blank isspace ws2 -> blank isspace ws3 ->
  isspace c = false ->
  c <> ord "`" ->
  rstrip isspace (c :: body) = c :: body ->
  tool_clean_json json_loads isspace
    (ws0 ++ json_fence ++ ws1 ++ (c :: body) ++ ws2 ++ fence ++ ws3)
  = json_loads (c :: body)
  /\ (endswith (c :: body) fence = false ->
      tool_clean_json json_loads isspace (ws0 ++ (c :: body) ++ ws3)
      = json_loads (c :: body)).
Proof.
  intros Htick H0 H1 H2 H3 Hc Hne Hend.
  destruct (startswith_not_fence c body Hne) as [Hnf _].
  split.
  - destruct (startswith_not_fence c (body ++ ws2 ++ fence) Hne)
      as [Hnf' _].
    unfold tool_clean_json, strip.
    (* strip *)
    rewrite lstrip_blank by exact H0.
    change (json_fence ++ ws1 ++ (c :: body) ++ ws2 ++ fence ++ ws3)
      with (ord "`" :: (lit "``json" ++ ws1 ++ (c :: body) ++ ws2
                        ++ fence ++ ws3)).
    cbn [lstrip]. rewrite Htick.
    change (ord "`" :: (lit "``json" ++ ws1 ++ (c :: body) ++ ws2
                        ++ fence ++ ws3))
      with (json_fence ++ ws1 ++ (c :: body) ++ ws2 ++ fence ++ ws3).
    replace (json_fence ++ ws1 ++ (c :: body) ++ ws2 ++ fence ++ ws3)
      with (((json_fence ++ ws1 ++ (c :: body) ++ ws2 ++ lit "``")
             ++ [ord "`"]) ++ ws3)
      by (rewrite <- !app_assoc; reflexivity).
    rewrite rstrip_blank by exact H3.
    rewrite rstrip_snoc_solid by exact Htick.
    replace ((json_fence ++ ws1 ++ (c :: body) ++ ws2 ++ lit "``")
             ++ [ord "`"])
      with (json_fence ++ (ws1 ++ (c :: body ++ ws2 ++ fence)))
      by (rewrite <- !app_assoc; reflexivity).
    (* the opening fence *)
    rewrite startswith_app, drop_app_length.
    rewrite lstrip_blank by exact H1.
    cbn [lstrip]. rewrite Hc.
    (* no second opening fence *)
    rewrite Hnf'.
    (* the closing fence *)
    replace (c :: body ++ ws2 ++ fence)
      with (((c :: body) ++ ws2) ++ fence)
      by (rewrite <- app_assoc; reflexivity).
    rewrite endswith_app.
    rewrite length_app. change (length fence) with 3%nat.
    rewrite Nat.add_sub, take_app_length.
    rewrite rstrip_blank by exact H2. rewrite Hend. reflexivity.
  - intros Hnofence.
    destruct (startswith_not_fence c body Hne) as [_ Hnj].
    unfold tool_clean_json, strip.
    rewrite lstrip_blank by exact H0.
    change ((c :: body) ++ ws3) with (c :: (body ++ ws3)).
    cbn [lstrip]. rewrite Hc.
    change (c :: (body ++ ws3)) with ((c :: body) ++ ws3).
    rewrite rstrip_blank by exact H3. rewrite Hend.
    rewrite Hnj, Hnf, Hnofence. reflexivity.
Qed.

End Cleaning.

Lemma fenced_answer_is_unwrapped_witness :
  tool_clean_json (fun s => Return (JStr s)) Examples.is_blank
    ([10%N] ++ json_fence ++ [10%N] ++ lit "{}" ++ [10%N] ++ fence ++ [32%N])
  = Return (JStr (lit "{}")).
Proof.
  apply (fenced_answer_is_unwrapped (fun s => Return (JStr s))
           Examples.is_blank [10%N] [10%N] [10%N] [32%N]
           (ord "{") (lit "}"));
    try reflexivity; try (repeat constructor); discriminate.
Defined.

End ResponseCleaning.

(** ** The shape and the size of a truncated response *)

Module TruncationBounds.

Import TextPostHook TextPostHookFacts.

(** What the walk returns, for any budget and any blocks: the texts of a
    prefix of the text blocks, unchanged, and, when it cut, the cut of the
    next text. *)
Lemma walk_structure (blocks : list block) :
  forall r : Z,
  exists pre suffix : list str,
    texts_of blocks = pre ++ suffix
    /\ Z.of_nat (total_length pre) <= Z.max 0 r
    /\ if snd (truncate_blocks r blocks)
       then exists text rest,
           suffix = text :: rest
           /\ r - Z.of_nat (total_length pre) < Z.of_nat (length text)
           /\ fst (truncate_blocks r blocks)
              = List.map TextBlock pre
                ++ [TextBlock
                      (slice_to text
                         (threshold_of (r - Z.of_nat (total_length pre)))
                       ++ append_hint)]
       else fst (truncate_blocks r blocks) = List.map TextBlock pre.
Proof.
  induction blocks as [|b blocks IH]; intros r.
  - exists [], []. simpl. split; [reflexivity |]. split; [lia | reflexivity].
  - destruct b as [text | url | url | url];
      [| destruct (IH r) as (pre & suffix & Ht & Hb & Hw);
         exists pre, suffix; simpl; auto ..].
    simpl.
    destruct (Z.ltb_spec r (Z.of_nat (length text))) as [Hlt | Hge].
    + (* cut here *)
      assert (Hbreak : (r - Z.of_nat (length text) <=? 0) = true)
        by (apply Z.leb_le; lia).
      rewrite Hbreak. simpl.
      exists [], (text :: texts_of blocks).
      change (Z.of_nat (total_length [])) with 0. rewrite Z.sub_0_r.
      split; [reflexivity |]. split; [lia |].
      exists text, (texts_of blocks). auto.
    + destruct (Z.leb_spec (r - Z.of_nat (length text)) 0) as [Hle | Hgt].
      * (* passes, and the budget is used up *)
        simpl. exists [text], (texts_of blocks).
        split; [reflexivity |]. split; [| reflexivity].
        rewrite total_length_cons.
        change (Z.of_nat (total_length [])) with 0. lia.
      * destruct (IH (r - Z.of_nat (length text)))
          as (pre & suffix & Ht & Hb & Hw).
        destruct (truncate_blocks (r - Z.of_nat (length text)) blocks)
          as [out later].
        simpl in *.
        exists (text :: pre), suffix.
        split; [rewrite Ht; reflexivity |].
        rewrite total_length_cons.
        split; [lia |].
        replace (r - (Z.of_nat (length text) + Z.of_nat (total_length pre)))
          with (r - Z.of_nat (length text) - Z.of_nat (total_length pre))
          by lia.
        destruct later.
        -- destruct Hw as (t & rest & Hs & Hlen & Hout).
           exists t, rest. rewrite Hout. auto.
        -- rewrite Hw. reflexivity.
Qed.

Lemma texts_of_text_blocks (texts : list str) :
  texts_of (List.map TextBlock texts) = texts.
Proof. induction texts as [|t texts IH]; simpl; [| rewrite IH]; reflexivity. Qed.

Lemma texts_of_app (l1 l2 : list block) :
  texts_of (l1 ++ l2) = texts_of l1 ++ texts_of l2.
Proof. apply omap_app. Qed.

Lemma text_blocks_are_text (texts : list str) :
  Forall is_text (List.map TextBlock texts).
Proof. induction texts; simpl; constructor; simpl; auto. Qed.

(** X5. Whatever the budget, the new content holds text blocks only: an
    image, audio or video block of the response is never passed on, and the
    new content is never longer than the list of the text blocks of the
    response. *)
Theorem truncation_returns_text_only (r : Z) (blocks : list block) :
  Forall is_text (fst (truncate_blocks r blocks))
  /\ (length (fst (truncate_blocks r blocks)) <= length (texts_of blocks))%nat.
Proof.
  destruct (walk_structure blocks r) as (pre & suffix & Ht & _ & Hw).
  rewrite Ht, length_app.
  destruct (snd (truncate_blocks r blocks)).
  - destruct Hw as (text & rest & -> & _ & ->). split.
    + apply Forall_app. split; [apply text_blocks_are_text |].
      repeat constructor.
    + rewrite length_app, length_map. simpl. lia.
  - rewrite Hw. split; [apply text_blocks_are_text |].
    rewrite length_map. lia.
Qed.

(** X6. When nothing was cut, the texts of the new content are the first
    text blocks of the response, as they were. *)
Theorem untruncated_texts_are_a_prefix (r : Z) (blocks : list block) :
  snd (truncate_blocks r blocks) = false ->
  exists pre : list str,
    fst (truncate_blocks r blocks) = List.map TextBlock pre
    /\ pre `prefix_of` texts_of blocks
    /\ Z.of_nat (total_length pre) <= Z.max 0 r.
Proof.
  intros Hflag.
  destruct (walk_structure blocks r) as (pre & suffix & Ht & Hb & Hw).
  rewrite Hflag in Hw. exists pre.
  split; [exact Hw |]. split; [exists suffix; exact Ht | exact Hb].
Qed.

Lemma slice_to_length (text : str) (n : Z) :
  0 <= n -> Z.of_nat (length (slice_to text n)) <= n.
Proof.
  intros Hn. unfold slice_to.
  destruct (Z.leb_spec 0 n) as [_ | Hneg]; [| lia].
  rewrite length_take. lia.
Qed.

(** X7. For a budget that is not negative, the texts of the new content
    hold at most as many characters as the budget, plus the marker when a
    text was cut. *)
Theorem truncated_text_fits_budget (r : Z) (blocks : list block) :
  0 <= r ->
  Z.of_nat (total_length (texts_of (fst (truncate_blocks r blocks))))
  <= r + (if snd (truncate_blocks r blocks)
          then Z.of_nat (length append_hint) else 0).
Proof.
  intros Hr.
  destruct (walk_structure blocks r) as (pre & suffix & Ht & Hb & Hw).
  destruct (snd (truncate_blocks r blocks)).
  - destruct Hw as (text & rest & _ & Hlen & ->).
    rewrite texts_of_app, texts_of_text_blocks. simpl.
    unfold total_length. rewrite sum_list_with_app. simpl.
    fold (total_length pre).
    set (left := r - Z.of_nat (total_length pre)) in *.
    assert (Hleft : 0 <= left) by (unfold left; lia).
    assert (Hq : 0 <= threshold_of left <= left).
    { unfold threshold_of. rewrite Z.quot_div_nonneg by lia.
      split; [apply Z.div_pos; lia |].
      apply Z.div_le_upper_bound; lia. }
    pose proof (slice_to_length text (threshold_of left) (proj1 Hq)) as Hs.
    rewrite length_app.
    change (length append_hint) with 41%nat.
    subst left. lia.
  - rewrite Hw, texts_of_text_blocks. lia.
Qed.

Lemma truncated_text_fits_budget_witness :
  Z.of_nat
    (total_length
       (texts_of
          (fst (truncate_blocks 100
                  [TextBlock (replicate 60 (ord "a")); ImageBlock (lit "u");
                   TextBlock (replicate 50 (ord "b"))]))))
  <= 100 + Z.of_nat (length append_hint).
Proof.
  apply (truncated_text_fits_budget 100
           [TextBlock (replicate 60 (ord "a")); ImageBlock (lit "u");
            TextBlock (replicate 50 (ord "b"))]).
  lia.
Defined.

Lemma untruncated_texts_are_a_prefix_witness :
  exists pre : list str,
    fst (truncate_blocks 10 [TextBlock (lit "short"); ImageBlock (lit "u");
                             TextBlock (lit "texts"); TextBlock (lit "late")])
    = List.map TextBlock pre
    /\ pre `prefix_of` [lit "short"; lit "texts"; lit "late"].
Proof.
  destruct (untruncated_texts_are_a_prefix 10
              [TextBlock (lit "short"); ImageBlock (lit "u");
               TextBlock (lit "texts"); TextBlock (lit "late")] eq_refl)
    as (pre & Hout & Hpre & _).
  exists pre. split; [exact Hout | exact Hpre].
Defined.

End TruncationBounds.

(** ** Relational introspection: what holds for every database *)

Module IntrospectionInvariants.

Import Introspection IntrospectionFacts.

(** What one turn of the loop returns when it keeps the table. *)
Lemma introspect_table_kept (db : database) (rows_var : option (list row))
      (t : str) (ts : table_schema) (rows_var' : option (list row)) :
  introspect_table db rows_var t = (Return ts, rows_var') ->
  name ts = t
  /\ irregular_judgment ts = None
  /\ exists cols rc rows,
      get_columns (table db t) = Return cols
      /\ count_rows (table db t) = Return rc
      /\ rows_var' = Some rows
      /\ row_count ts = Some (default 0 rc)
      /\ col_count ts = Some (length cols)
      /\ columns ts = Some (column_details cols rows).
Proof.
  unfold introspect_table.
  destruct (get_columns (table db t)) as [cols|]; [| discriminate].
  destruct (count_rows (table db t)) as [rc|]; [| discriminate].
  destruct (select_rows (table db t)) as [rows | e].
  - simpl. intros [= <- <-]. simpl.
    split; [reflexivity |]. split; [reflexivity |].
    exists cols, rc, rows. auto 10.
  - destruct (is_Exception e); [| discriminate].
    unfold describe_table. destruct rows_var as [rows|]; [| discriminate].
    intros [= <- <-]. simpl.
    split; [reflexivity |]. split; [reflexivity |].
    exists cols, rc, rows. auto 10.
Qed.

(** X8. For every database and every value of [rows], the loop over the
    tables either returns or raises something that is not an [Exception].
    When it returns, the names of the tables it returns are a subsequence of
    the enumerated names, in order, and each table has the exact row count
    and the number of columns that the database gave for it. *)
Theorem introspection_is_sound (db : database) (table_names : list str) :
  forall rows_var : option (list row),
    match introspect_tables db rows_var table_names with
    | Return tables_data =>
        List.map name tables_data `sublist_of` table_names
        /\ Forall (fun ts =>
                     exists cols rc,
                       get_columns (table db (name ts)) = Return cols
                       /\ count_rows (table db (name ts)) = Return rc
                       /\ row_count ts = Some (default 0 rc)
                       /\ col_count ts = Some (length cols)
                       /\ is_Some (columns ts)
                       /\ irregular_judgment ts = None)
                  tables_data
    | Raise e => is_Exception e = false
    end.
Proof.
  induction table_names as [|t rest IH]; intros rows_var.
  - simpl. split; constructor.
  - simpl.
    destruct (introspect_table db rows_var t) as [[ts | e] rows_var'] eqn:Hstep.
    + specialize (IH rows_var').
      destruct (introspect_tables db rows_var' rest) as [tables_data | e];
        simpl; [| exact IH].
      destruct IH as [Hsub Hall].
      destruct (introspect_table_kept _ _ _ _ _ Hstep)
        as (Hname & Hj & cols & rc & rows & Hc & Hn & _ & Hrc & Hcc & Hcols).
      split.
      * rewrite Hname. apply sublist_skip. exact Hsub.
      * constructor; [| exact Hall].
        exists cols, rc. rewrite Hname, Hcols. eauto 10.
    + destruct (is_Exception e) eqn:He; [| exact He].
      specialize (IH rows_var').
      destruct (introspect_tables db rows_var' rest) as [tables_data | e'];
        [| exact IH].
      destruct IH as [Hsub Hall]. split; [| exact Hall].
      apply sublist_cons. exact Hsub.
Qed.

(** X9. The variable [rows] outlives a turn of the loop.  When the sample
    query of a table fails with an [Exception] while its columns and its
    row count were obtained, the table is described with the rows fetched
    for the last table whose sample query succeeded: its snippet is null and
    its column samples come from that other table.  When no sample query has
    succeeded before, reading [rows] fails and the table is skipped. *)
Theorem failed_sample_query_reuses_rows
        (db : database) (t : str) (rest : list str)
        (cols : list db_column) (rc : option Z) (e : exn) :
  get_columns (table db t) = Return cols ->
  count_rows (table db t) = Return rc ->
  select_rows (table db t) = Raise e ->
  is_Exception e = true ->
  (forall earlier_rows : list row,
     introspect_tables db (Some earlier_rows) (t :: rest)
     = (tables_data ← introspect_tables db (Some earlier_rows) rest;
        Return (TableSchema t None (Some (default 0 rc)) (Some (length cols))
                            (Some (column_details cols earlier_rows)) None
                :: tables_data)))
  /\ introspect_tables db None (t :: rest) = introspect_tables db None rest.
Proof.
  intros Hc Hn Hs He. split; [intros earlier_rows |];
    simpl; unfold introspect_table; rewrite Hc, Hn, Hs, He; reflexivity.
Qed.

Lemma failed_sample_query_reuses_rows_witness :
  let db :=
    Database (Return tt) (Return tt) (Return [lit "a"; lit "b"])
      (fun t =>
         if bool_decide (t = lit "a")
         then TableAccess (Return [DbColumn (lit "id") (lit "INTEGER")])
                          (Return (Some 1)) (Return [[DbValue (lit "41")]])
         else TableAccess (Return [DbColumn (lit "city") (lit "TEXT")])
                          (Return (Some 9))
                          (Raise (db_error "permission denied"))) in
  introspect_tables db None [lit "a"; lit "b"]
  = Return [TableSchema (lit "a") (Some (lit "id" ++ newline ++ lit "41"))
                        (Some 1) (Some 1%nat)
                        (Some [ColumnInfo (lit "id") (lit "INTEGER")
                                          DataSample [lit "41"]])
                        None;
            TableSchema (lit "b") None (Some 9) (Some 1%nat)
                        (Some [ColumnInfo (lit "city") (lit "TEXT")
                                          DataSample [lit "41"]])
                        None].
Proof.
  intros db.
  change (introspect_tables db None [lit "a"; lit "b"])
    with (tables_data ← introspect_tables db (Some [[DbValue (lit "41")]])
                                          [lit "b"];
          Return (TableSchema (lit "a")
                    (Some (lit "id" ++ newline ++ lit "41"))
                    (Some 1) (Some 1%nat)
                    (Some [ColumnInfo (lit "id") (lit "INTEGER")
                                      DataSample [lit "41"]])
                    None :: tables_data)).
  rewrite (proj1 (failed_sample_query_reuses_rows db (lit "b") []
                    [DbColumn (lit "city") (lit "TEXT")] (Some 9)
                    (db_error "permission denied")
                    eq_refl eq_refl eq_refl eq_refl)).
  reflexivity.
Defined.

(** The entries of an indexed map keep the names of what they are made
    from. *)
Lemma imap_names {A} (g : nat -> A -> column_info) (key : A -> str)
      (l : list A) :
  (forall i x, column_name (g i x) = key x) ->
  List.map column_name (imap g l) = List.map key l.
Proof.
  revert g. induction l as [|x l IH]; intros g Hg; [reflexivity |].
  rewrite imap_cons. simpl. rewrite Hg. f_equal.
  apply IH. intros i y. apply Hg.
Qed.

Lemma sample_values_length (i : nat) (rows : list row) :
  (length (sample_values i rows) <= length rows)%nat.
Proof.
  unfold sample_values. induction rows as [|r rows IH]; [simpl; lia |].
  rewrite (omap_app _ [r] rows), length_app.
  assert (Hone : (length (omap (fun r0 : row =>
                     match r0 !! i with
                     | Some DbNull => Some (lit "NULL")
                     | Some (DbValue val_str) => Some val_str
                     | None => None
                     end) [r]) <= 1)%nat).
  { simpl. repeat case_match; simpl; lia. }
  simpl length at 3. lia.
Qed.

(** X10. With at least one fetched row, the database profiler describes each
    column of the table once, in order and under its name, with at most 3
    samples and never more samples than rows; with no row at all the list of
    columns is empty, whatever the columns of the table are. *)
Theorem column_details_shape (columns : list db_column) (rows : list row) :
  column_details columns [] = []
  /\ (rows <> [] ->
      List.map column_name (column_details columns rows)
      = List.map col_name columns
      /\ Forall (fun info =>
                   samples_at info = DataSample
                   /\ (length (data_samples info) <= 3)%nat
                   /\ (length (data_samples info) <= length rows)%nat)
                (column_details columns rows)).
Proof.
  split; [reflexivity |].
  intros Hrows. destruct rows as [|r rows]; [congruence |].
  unfold column_details. split.
  - apply imap_names. reflexivity.
  - apply Forall_forall. intros info Hin.
    apply elem_of_lookup_imap in Hin as (i & col & -> & _).
    cbn [samples_at data_samples].
    split; [reflexivity |].
    pose proof (sample_values_length i (r :: rows)) as Hlen.
    rewrite length_take. split; lia.
Qed.

Lemma column_details_shape_witness :
  List.map column_name
    (column_details [DbColumn (lit "id") (lit "INTEGER");
                     DbColumn (lit "city") (lit "TEXT")]
                    [[DbValue (lit "1"); DbNull]])
  = [lit "id"; lit "city"].
Proof.
  apply (column_details_shape [DbColumn (lit "id") (lit "INTEGER");
                               DbColumn (lit "city") (lit "TEXT")]
                              [[DbValue (lit "1"); DbNull]]).
  discriminate.
Defined.

End IntrospectionInvariants.

(** ** The lifecycle: what a profile is made of *)

Module LifecycleOutcomes.

Import Profiler SchemaFacts.

Lemma subscript_raises_exception (v : json) (key : str) (e : exn) :
  subscript v key = Raise e -> is_Exception e = true.
Proof.
  unfold subscript. destruct v; try (intros [= <-]; reflexivity).
  destruct (entry entries key); [discriminate |].
  intros [= <-]. reflexivity.
Qed.

Lemma for_each_returns {A B} (f : A -> outcome B) (xs : list A)
      (ys : list B) :
  for_each f xs = Return ys -> Forall2 (fun x y => f x = Return y) xs ys.
Proof.
  revert ys. induction xs as [|x xs IH]; intros ys; simpl.
  - intros [= <-]. constructor.
  - destruct (f x) as [y|] eqn:Hx; [simpl | discriminate].
    destruct (for_each f xs) as [ys'|]; [simpl | discriminate].
    intros [= <-]. constructor; [exact Hx | apply IH; reflexivity].
Qed.

Lemma for_each_raises {A B} (f : A -> outcome B) (xs : list A) (x : A)
      (e : exn) :
  x ∈ xs -> f x = Raise e -> exists e', for_each f xs = Raise e'.
Proof.
  intros Hin Hx. induction Hin as [x xs | x y xs _ IH]; simpl.
  - rewrite Hx. eauto.
  - destruct (f y); [simpl | eauto].
    destruct (IH Hx) as [e' ->]. eauto.
Qed.



Section Lifecycle.

Context {cell : Type} `{EqDecision cell}.
Variable cell_str : cell -> option str.
Variable shuffle : list cell -> list cell.
Variable to_csv : dataframe cell -> str.
Variable llm_call_manager : content -> outcome str.
Variable json_loads : str -> outcome json.
Variable isspace : char -> bool.
Variable format_data : str -> source_data -> outcome str.
Variable format_snippet : str -> str -> outcome str.

(** X12. When everything up to the parsing of the answer succeeds but the
    answer has no usable description (it is not an object, or it is an
    object without the key), the profile is empty, for every kind of
    source. *)
Theorem answer_without_description_gives_empty_profile
        (p : profiler) (data : source_data) (c : content) (raw : str)
        (response : json) (e : exn) :
  Profiler._read_data cell_str shuffle to_csv llm_call_manager json_loads
                      isspace format_snippet p = Return data ->
  _build_content_with_prompt_and_data format_data p (prompt p) data
  = Return c ->
  llm_call_manager c = Return raw ->
  tool_clean_json json_loads isspace raw = Return response ->
  subscript response (lit "description") = Raise e ->
  generate_profile cell_str shuffle to_csv llm_call_manager json_loads
                   isspace format_data format_snippet p
  = Return EmptyProfile.
Proof.
  intros Hread Hbuild Hcall Hparse Hdesc.
  pose proof (subscript_raises_exception _ _ _ Hdesc) as He.
  unfold generate_profile, profile_lifecycle.
  rewrite Hread. simpl. rewrite Hbuild. simpl.
  unfold _generate_profile_by_llm. rewrite Hcall. simpl.
  rewrite Hparse. simpl.
  unfold wrap_data_response, _wrap_data_response, image_wrap_data_response.
  destruct (kind p), data; simpl; try reflexivity;
    rewrite Hdesc; simpl; rewrite He; reflexivity.
Qed.

(** X13. The profile of a CSV file takes from the model's answer its
    description and nothing else: when the columns are extracted, the
    schema is written into the prompt and the model answers with an object
    that has a description, the name of the profile is the file name and
    its columns are those extracted from the file, whatever else the answer
    holds. *)
Theorem csv_profile_keeps_extracted_columns
        (p : profiler) (f : csv_file) (n : Z) (df : dataframe cell)
        (infos : list column_info)
        (text raw : str) (entries : list (str * json)) (description : json) :
  kind p = CsvSource f ->
  scan_count f = Return n ->
  read_csv f = Return df ->
  for_each (column_of cell_str shuffle) (frame_columns df) = Return infos ->
  format_data (prompt p)
              (SingleTable
                 (TableSchema (file_name p)
                              (Some (to_csv (head_rows 5 df)))
                              (Some n)
                              (Some (length (frame_columns df)))
                              (Some infos)
                              None))
  = Return text ->
  llm_call_manager (TextContent text) = Return raw ->
  tool_clean_json json_loads isspace raw = Return (JDict entries) ->
  entry entries (lit "description") = Some description ->
  generate_profile cell_str shuffle to_csv llm_call_manager json_loads
                   isspace format_data format_snippet p
  = Return (StructuredProfile (file_name p) description (Some infos) None).
Proof.
  intros Hk Hn Hdf Hinfos Hfmt Hcall Hparse Hdesc.
  unfold generate_profile, profile_lifecycle, Profiler._read_data.
  rewrite Hk. unfold csv_read_data, _extract_schema_from_table.
  rewrite Hn, Hdf. simpl. rewrite Hinfos. simpl.
  unfold _build_content_with_prompt_and_data. rewrite Hk, Hfmt. simpl.
  unfold _generate_profile_by_llm. rewrite Hcall. simpl. rewrite Hparse. simpl.
  unfold wrap_data_response. rewrite Hk.
  unfold _wrap_data_response, merged_tables. simpl. rewrite Hdesc.
  reflexivity.
Qed.

End Lifecycle.

Lemma answer_without_description_gives_empty_profile_witness :
  Examples.generate_profile_in_example Examples.unnamed_csv_profiler
  = Return EmptyProfile.
Proof.
  eapply (answer_without_description_gives_empty_profile
            Some (fun l => l) Examples.plain_csv
            Examples.answer_nothing Examples.parse_nothing Examples.is_blank
            Examples.paste_data Examples.paste_snippet
            Examples.unnamed_csv_profiler _
            (TextContent (lit "Describe: {data}")) (lit "{}") (JDict [])
            (Exn KeyError (lit "'description'")));
    reflexivity.
Defined.

Lemma csv_profile_keeps_extracted_columns_witness :
  generate_profile Some (fun l => l) Examples.plain_csv
    Examples.answer_nothing Examples.parse_described
    Examples.is_blank Examples.write_data Examples.paste_snippet
    Examples.unnamed_csv_profiler
  = Return (StructuredProfile
              (lit "data.csv") (JStr (lit "three columns"))
              (Some [ColumnInfo (lit "id") (lit "STRING") DataSamples
                                [lit "7"];
                     ColumnInfo (lit "Unnamed: 0") (lit "STRING") DataSamples
                                [lit "x"];
                     ColumnInfo (lit "Unnamed: 1") (lit "STRING") DataSamples
                                [lit "y"]])
              None).
Proof.
  apply (csv_profile_keeps_extracted_columns
           Some (fun l => l) Examples.plain_csv
           Examples.answer_nothing Examples.parse_described
           Examples.is_blank Examples.write_data Examples.paste_snippet
           Examples.unnamed_csv_profiler Examples.unnamed_csv 1
           Examples.unnamed_frame
           [ColumnInfo (lit "id") (lit "STRING") DataSamples [lit "7"];
            ColumnInfo (lit "Unnamed: 0") (lit "STRING") DataSamples
                       [lit "x"];
            ColumnInfo (lit "Unnamed: 1") (lit "STRING") DataSamples
                       [lit "y"]]
           (lit "Describe: {data} data.csv") (lit "{}")
           [(lit "description", JStr (lit "three columns"));
            (lit "columns", JList [])]
           (JStr (lit "three columns")));
    reflexivity.
Defined.

End LifecycleOutcomes.

(** ** Reading a workbook *)

Module ExcelReading.

Import Profiler LifecycleOutcomes.

Section Sheets.

Context {cell : Type} `{EqDecision cell}.
Variable cell_str : cell -> option str.
Variable shuffle : list cell -> list cell.
Variable to_csv : dataframe cell -> str.
Variable llm_call_manager : content -> outcome str.
Variable json_loads : str -> outcome json.
Variable isspace : char -> bool.
Variable format_snippet : str -> str -> outcome str.

Local Abbreviation extract_irregular :=
  (_extract_irregular_table cell_str shuffle to_csv llm_call_manager
                            json_loads isspace format_snippet).
Local Abbreviation read_sheet' :=
  (read_sheet cell_str shuffle to_csv llm_call_manager json_loads isspace
              format_snippet).
Local Abbreviation excel_read_data' :=
  (excel_read_data cell_str shuffle to_csv llm_call_manager json_loads
                   isspace format_snippet).

Lemma extract_schema_name (df : dataframe cell) (df_name : str)
      (schema : table_schema) :
  _extract_schema_from_table cell_str shuffle to_csv df df_name
  = Return schema ->
  name schema = df_name.
Proof.
  unfold _extract_schema_from_table.
  destruct (for_each _ (frame_columns df)); [simpl | discriminate].
  intros [= <-]. reflexivity.
Qed.

(** The recovery path answers under the name of the sheet. *)
Lemma extract_irregular_name
      (wb : workbook) (raw sheet_name : str) (ts : table_schema) :
  extract_irregular wb raw sheet_name = Return ts -> name ts = sheet_name.
Proof.
  unfold _extract_irregular_table.
  destruct (load_irregular_prompt wb) as [pr|]; [simpl | discriminate].
  destruct (format_snippet pr raw) as [text|]; [simpl | discriminate].
  destruct (_generate_profile_by_llm _ _ _ _) as [res|]; [simpl | discriminate].
  destruct (py_in _ res) as [has|]; [simpl | discriminate].
  destruct has; simpl.
  - destruct (subscript res _) as [flag|]; [simpl | discriminate].
    destruct (truthy flag); [| intros [= <-]; reflexivity].
    destruct (read_excel_region wb sheet_name res) as [df|];
      [simpl | discriminate].
    destruct (is_irregular (column_labels df)) as [[|]|]; simpl;
      try discriminate; [intros [= <-]; reflexivity |].
    destruct (_extract_schema_from_table _ _ _ df sheet_name)
      as [schema|] eqn:Hschema; [simpl | discriminate].
    intros [= <-]. simpl. eapply extract_schema_name. exact Hschema.
  - intros [= <-]. reflexivity.
Qed.

(** X14. The recovery path for an irregular sheet, by what the model
    answers to the prompt with the raw snippet.  When the answer is an
    object without a true [is_extractable_table], the sheet is recorded as
    [UNSTRUCTURED], with the raw snippet and no columns.  When the answer
    says that a table can be extracted, the region that the answer points
    at is read: if its header is regular and its columns are extracted, the
    result is the schema of that region under the name of the sheet, with
    the answer attached as the judgement; if its header is irregular too,
    the sheet is recorded as [UNSTRUCTURED].  Whatever is returned bears
    the name of the sheet and is the [UNSTRUCTURED] record or carries the
    answer of the model as its judgement. *)
Theorem irregular_recovery_outcomes
        (wb : workbook) (raw sheet_name pr text : str)
        (entries : list (str * json)) :
  load_irregular_prompt wb = Return pr ->
  format_snippet pr raw = Return text ->
  _generate_profile_by_llm llm_call_manager json_loads isspace
                           (TextContent text)
  = Return (JDict entries) ->
  let extractable :=
    match entry entries (lit "is_extractable_table") with
    | Some flag => truthy flag
    | None => false
    end in
  (extractable = false ->
   extract_irregular wb raw sheet_name
   = Return (unstructured sheet_name raw))
  /\ (forall df infos,
        extractable = true ->
        read_excel_region wb sheet_name (JDict entries) = Return df ->
        is_irregular (column_labels df) = Return false ->
        for_each (column_of cell_str shuffle) (frame_columns df)
        = Return infos ->
        extract_irregular wb raw sheet_name
        = Return (TableSchema
                    sheet_name
                    (Some (to_csv (head_rows 5 df)))
                    (if (frame_len df <? 100)%nat
                     then Some (Z.of_nat (frame_len df)) else None)
                    (Some (length (frame_columns df)))
                    (Some infos)
                    (Some (Judged (JDict entries)))))
  /\ (forall df,
        extractable = true ->
        read_excel_region wb sheet_name (JDict entries) = Return df ->
        is_irregular (column_labels df) = Return true ->
        extract_irregular wb raw sheet_name
        = Return (unstructured sheet_name raw))
  /\ (forall ts,
        extract_irregular wb raw sheet_name = Return ts ->
        name ts = sheet_name
        /\ (ts = unstructured sheet_name raw
            \/ irregular_judgment ts = Some (Judged (JDict entries)))).
Proof.
  intros Hprompt Hformat Hanswer extractable.
  assert (Hrun :
    extract_irregular wb raw sheet_name
    = if extractable then
        df ← read_excel_region wb sheet_name (JDict entries);
        irregular ← is_irregular (column_labels df);
        if irregular : bool
        then Return (unstructured sheet_name raw)
        else
          schema ← _extract_schema_from_table cell_str shuffle to_csv
                                              df sheet_name;
          Return (TableSchema (name schema) (Schema.raw_data_snippet schema)
                              (row_count schema) (col_count schema)
                              (columns schema)
                              (Some (Judged (JDict entries))))
      else Return (unstructured sheet_name raw)).
  { unfold _extract_irregular_table, extractable.
    rewrite Hprompt. simpl. rewrite Hformat. simpl. rewrite Hanswer. simpl.
    destruct (entry entries (lit "is_extractable_table")) as [flag|] eqn:He.
    - rewrite bool_decide_eq_true_2 by eauto. simpl. reflexivity.
    - rewrite bool_decide_eq_false_2 by (intros [? ?]; discriminate).
      reflexivity. }
  rewrite Hrun. clear Hrun.
  split; [intros ->; reflexivity |].
  split; [| split].
  - intros df infos -> Hregion Hirr Hinfos.
    rewrite Hregion. simpl. rewrite Hirr. simpl.
    unfold _extract_schema_from_table. rewrite Hinfos. reflexivity.
  - intros df -> Hregion Hirr.
    rewrite Hregion. simpl. rewrite Hirr. reflexivity.
  - intros ts. destruct extractable.
    + destruct (read_excel_region wb sheet_name (JDict entries)) as [df|];
        [simpl | discriminate].
      destruct (is_irregular (column_labels df)) as [[|]|]; simpl;
        try discriminate.
      * intros [= <-]. split; [reflexivity | left; reflexivity].
      * destruct (_extract_schema_from_table _ _ _ df sheet_name)
          as [schema|] eqn:Hschema; [simpl | discriminate].
        intros [= <-]. simpl.
        split; [eapply extract_schema_name; exact Hschema |].
        right. reflexivity.
    + intros [= <-]. split; [reflexivity | left; reflexivity].
Qed.

Lemma read_sheet_name (wb : workbook) (sheet_name : str) (ts : table_schema) :
  read_sheet' wb sheet_name = Return ts -> name ts = sheet_name.
Proof.
  unfold read_sheet.
  destruct (read_excel wb sheet_name) as [df|]; [simpl | discriminate].
  destruct (is_irregular (column_labels df)) as [[|]|]; simpl;
    [| apply extract_schema_name | discriminate].
  destruct (iter_rows wb sheet_name) as [rows|]; [simpl | discriminate].
  apply extract_irregular_name.
Qed.

(** X15. Reading a workbook gives one table for each sheet, in the order of
    the sheets and under their names; there is no isolation between sheets:
    when reading one sheet raises, the whole read raises and no table is
    returned. *)
Theorem workbook_read_is_all_or_nothing (p : profiler) (wb : workbook) :
  (forall data,
     excel_read_data' p wb = Return data ->
     exists names tables,
       sheet_names wb = Return names
       /\ data = MultiTable (file_name p) tables
       /\ List.map name tables = names)
  /\ (forall names sheet e,
        sheet_names wb = Return names ->
        sheet ∈ names ->
        read_sheet' wb sheet = Raise e ->
        exists e', excel_read_data' p wb = Raise e').
Proof.
  split.
  - intros data. unfold excel_read_data.
    destruct (sheet_names wb) as [names|]; [simpl | discriminate].
    destruct (for_each (read_sheet' wb) names) as [tables|] eqn:Hall;
      [simpl | discriminate].
    intros [= <-]. exists names, tables.
    split; [reflexivity |]. split; [reflexivity |].
    apply for_each_returns in Hall.
    induction Hall as [|s ts names tables Hs _ IH]; [reflexivity |].
    simpl. rewrite IH. f_equal. eapply read_sheet_name. exact Hs.
  - intros names sheet e Hnames Hin Hraise. unfold excel_read_data.
    rewrite Hnames. simpl.
    destruct (for_each_raises (read_sheet' wb) names sheet e Hin Hraise)
      as [e' ->].
    eauto.
Qed.

End Sheets.

Lemma irregular_recovery_outcomes_witness :
  _extract_irregular_table Some (fun l => l) Examples.plain_csv
    Examples.answer_nothing Examples.parse_region Examples.is_blank
    Examples.paste_snippet Examples.two_sheet_workbook
    (lit "report,") (lit "odd")
  = Return (TableSchema
              (lit "odd") (Some (lit "id")) (Some 2) (Some 1%nat)
              (Some [ColumnInfo (lit "id") (lit "STRING") DataSamples
                                [lit "7"; lit "8"]])
              (Some (Judged Examples.region_judgment))).
Proof.
  apply (proj1 (proj2 (irregular_recovery_outcomes
                         Some (fun l => l) Examples.plain_csv
                         Examples.answer_nothing Examples.parse_region
                         Examples.is_blank Examples.paste_snippet
                         Examples.two_sheet_workbook
                         (lit "report,") (lit "odd")
                         (lit "Judge: ") (lit "Judge: report,")
                         [(lit "is_extractable_table", JBool true);
                          (lit "reasoning",
                           JStr (lit "the table starts at the second row"));
                          (lit "row_start_index", JNum 1);
                          (lit "col_ranges", JList [JNum 0; JNum 0])]
                         eq_refl eq_refl eq_refl))
               Examples.regular_frame
               [ColumnInfo (lit "id") (lit "STRING") DataSamples
                           [lit "7"; lit "8"]]);
    reflexivity.
Defined.

Lemma workbook_read_is_all_or_nothing_witness :
  (exists tables,
     excel_read_data Some (fun l => l) Examples.plain_csv
       Examples.answer_nothing Examples.parse_nothing Examples.is_blank
       Examples.paste_snippet Examples.workbook_profiler
       Examples.two_sheet_workbook
     = Return (MultiTable (lit "book.xlsx") tables)
     /\ List.map name tables = [lit "good"; lit "odd"])
  /\ exists e,
       excel_read_data Some (fun l => l) Examples.plain_csv
         Examples.answer_nothing Examples.parse_nothing Examples.is_blank
         Examples.paste_snippet Examples.workbook_profiler
         Examples.broken_workbook
       = Raise e.
Proof.
  split.
  - assert (Hread : exists data,
              excel_read_data Some (fun l => l) Examples.plain_csv
                Examples.answer_nothing Examples.parse_nothing
                Examples.is_blank Examples.paste_snippet
                Examples.workbook_profiler Examples.two_sheet_workbook
              = Return data)
      by (eexists; vm_compute; reflexivity).
    destruct Hread as [data Hread].
    destruct (proj1 (workbook_read_is_all_or_nothing
                       Some (fun l => l) Examples.plain_csv
                       Examples.answer_nothing Examples.parse_nothing
                       Examples.is_blank Examples.paste_snippet
                       Examples.workbook_profiler
                       Examples.two_sheet_workbook) data Hread)
      as (names & tables & Hn & Hd & Hm).
    injection Hn as <-. exists tables. split; [| exact Hm].
    change (lit "book.xlsx") with (file_name Examples.workbook_profiler).
    rewrite <- Hd. exact Hread.
  - apply (proj2 (workbook_read_is_all_or_nothing
                    Some (fun l => l) Examples.plain_csv
                    Examples.answer_nothing Examples.parse_nothing
                    Examples.is_blank Examples.paste_snippet
                    Examples.workbook_profiler Examples.broken_workbook)
                 [lit "good"; lit "bad"] (lit "bad") Examples.read_error);
      [reflexivity | | reflexivity].
    right. left.
Defined.

End ExcelReading.

(** ** Source types and their detection *)

Module TypingFacts.

Import Typing.

(** X16. A source type is recovered from its value, only the seven values
    name a source type, and [is_valid_source_type] accepts exactly them. *)
Theorem source_type_round_trip :
  (forall t, SourceType_of (value t) = Return t)
  /\ (forall v t, SourceType_of v = Return t -> value t = v)
  /\ (forall v, is_valid_source_type v = true <-> exists t, v = value t).
Proof.
  assert (Hfwd : forall t, SourceType_of (value t) = Return t)
    by (intros []; reflexivity).
  assert (Hbwd : forall v t, SourceType_of v = Return t -> value t = v).
  { intros v t. unfold SourceType_of.
    destruct (List.find _ members) as [t'|] eqn:Hfind; [| discriminate].
    intros [= <-]. apply List.find_some in Hfind as [_ Hv].
    apply bool_decide_eq_true in Hv. exact Hv. }
  split; [exact Hfwd |]. split; [exact Hbwd |].
  intros v. unfold is_valid_source_type. split.
  - destruct (SourceType_of v) as [t|] eqn:Ht; [| discriminate].
    intros _. exists t. symmetry. apply Hbwd. exact Ht.
  - intros [t ->]. rewrite Hfwd. reflexivity.
Qed.

Section Detection.

Variable unicode_lower : char -> str.

Lemma lower_app (a b : str) :
  Naming.lower unicode_lower (a ++ b)
  = Naming.lower unicode_lower a ++ Naming.lower unicode_lower b.
Proof. unfold Naming.lower. rewrite List.map_app, concat_app. reflexivity. Qed.

(** X17. The file extension is looked at first: an endpoint whose end reads
    [.csv] in lower case is a CSV source, whatever precedes it, be it the
    scheme of a database. *)
Theorem csv_extension_wins (prefix suffix : str) :
  Naming.lower unicode_lower suffix = lit ".csv" ->
  _detect_source_type unicode_lower (prefix ++ suffix) = CSV.
Proof.
  intros Hs. unfold _detect_source_type.
  rewrite lower_app, Hs, ResponseCleaning.endswith_app. reflexivity.
Qed.

(** X18. Among the suffixes of Excel files, [xlsm] is written without its
    dot: every endpoint that ends in the four letters [xlsm] is an Excel
    source, a file extension or not. *)
Theorem xlsm_needs_no_dot (prefix : str) :
  _detect_source_type unicode_lower (prefix ++ lit "xlsm") = EXCEL.
Proof.
  unfold _detect_source_type. rewrite lower_app.
  change (Naming.lower unicode_lower (lit "xlsm")) with (lit "xlsm").
  assert (Hcsv : Profiler.endswith
                   (Naming.lower unicode_lower prefix ++ lit "xlsm")
                   (lit ".csv") = false).
  { unfold Profiler.endswith. rewrite reverse_app. reflexivity. }
  rewrite Hcsv. unfold endswith_any.
  cbn [existsb].
  rewrite (ResponseCleaning.endswith_app _ (lit "xlsm")).
  rewrite !orb_true_r. reflexivity.
Qed.

End Detection.

Lemma csv_extension_wins_witness :
  _detect_source_type (fun c => [c]) (lit "postgresql://host/export.CSV")
  = CSV.
Proof.
  exact (csv_extension_wins (fun c => [c]) (lit "postgresql://host/export")
                            (lit ".CSV") eq_refl).
Defined.

End TypingFacts.

(** ** Placeholders *)

Module PlaceholderFacts.

Import Placeholders JsonInduction.

Lemma substitute_unknown (cfg : gmap str str) (vars : list str) (s : str) :
  Forall (fun var => cfg !! var = None) vars ->
  foldl (substitute cfg) s vars = s.
Proof.
  induction 1 as [|var vars Hvar _ IH]; [reflexivity |].
  simpl. unfold substitute at 2. rewrite Hvar. exact IH.
Qed.

(** X19. Placeholders whose variable the configuration does not know stay
    as they are: an object none of whose placeholders names a key of the
    configuration is returned unchanged. *)
Theorem unknown_placeholders_are_kept (cfg : gmap str str) (obj : json) :
  Forall (fun var => cfg !! var = None) (variables_of obj) ->
  replace_placeholders obj cfg = obj.
Proof.
  induction obj as [| b | n | s | items IH | entries IH]
    using json_nested_ind; intros Hvars; try reflexivity.
  - simpl. unfold replace_in_string.
    rewrite substitute_unknown by exact Hvars. reflexivity.
  - simpl in *. f_equal.
    induction IH as [|x items Hx _ IHitems]; [reflexivity |].
    simpl in Hvars. apply Forall_app in Hvars as [H1 H2].
    simpl. rewrite Hx by exact H1. f_equal. apply IHitems. exact H2.
  - simpl in *. f_equal.
    induction IH as [|[k x] entries Hx _ IHentries]; [reflexivity |].
    simpl in Hvars. apply Forall_app in Hvars as [H1 H2].
    simpl in *. rewrite Hx by exact H1. f_equal. apply IHentries. exact H2.
Qed.

Lemma unknown_placeholders_are_kept_witness :
  replace_placeholders
    (JDict [(lit "command", JStr (lit "run ${tool} on ${}"));
            (lit "count", JNum 2)])
    (<[lit "endpoint" := lit "/data/x.db"]> ∅)
  = JDict [(lit "command", JStr (lit "run ${tool} on ${}"));
           (lit "count", JNum 2)].
Proof.
  apply (unknown_placeholders_are_kept
           (<[lit "endpoint" := lit "/data/x.db"]> ∅)
           (JDict [(lit "command", JStr (lit "run ${tool} on ${}"));
                   (lit "count", JNum 2)])).
  repeat constructor.
Defined.

(** X20. Replacing placeholders changes strings only: the result has the
    keys of the object, in the same order, lists of the same lengths, and
    the same numbers, booleans and nulls. *)
Theorem replacement_keeps_shape (cfg : gmap str str) (obj : json) :
  same_shape obj (replace_placeholders obj cfg).
Proof.
  induction obj as [| b | n | s | items IH | entries IH]
    using json_nested_ind; try reflexivity; try exact I.
  - simpl. induction IH as [|x items Hx _ IHitems]; [exact I |].
    simpl. split; [exact Hx | exact IHitems].
  - simpl. induction IH as [|[k x] entries Hx _ IHentries]; [exact I |].
    simpl. split; [reflexivity |]. split; [exact Hx | exact IHentries].
Qed.

Lemma no_placeholder_without_dollar (c : char) (s : str) :
  c <> dollar -> placeholder_at (c :: s) = None.
Proof.
  intros Hc. unfold placeholder_at.
  change (lit "${") with (dollar :: lit "{").
  cbn [startswith].
  assert (Hne : N.eqb dollar c = false)
    by (apply N.eqb_neq; congruence).
  rewrite Hne. reflexivity.
Qed.

Lemma find_skips_plain_text (pre rest : str) :
  dollar ∉ pre ->
  find_placeholders 0 (pre ++ rest) = find_placeholders 0 rest.
Proof.
  induction pre as [|c pre IH]; intros Hpre; [reflexivity |].
  apply not_elem_of_cons in Hpre as [Hc Hpre].
  change ((c :: pre) ++ rest) with (c :: (pre ++ rest)).
  cbn [find_placeholders].
  rewrite no_placeholder_without_dollar by congruence.
  apply IH. exact Hpre.
Qed.

Lemma find_passes_match (a rest : str) :
  find_placeholders (length a) (a ++ rest) = find_placeholders 0 rest.
Proof. induction a as [|c a IH]; [reflexivity | exact IH]. Qed.

Lemma until_brace_variable (var post : str) :
  closing_brace ∉ var ->
  until_brace (var ++ closing_brace :: post) = Some (var, post).
Proof.
  induction var as [|c var IH]; intros Hvar.
  - reflexivity.
  - apply not_elem_of_cons in Hvar as [Hc Hvar].
    change ((c :: var) ++ closing_brace :: post)
      with (c :: (var ++ closing_brace :: post)).
    cbn [until_brace].
    assert (Hne : N.eqb c closing_brace = false)
      by (apply N.eqb_neq; congruence).
    rewrite Hne, IH by exact Hvar. reflexivity.
Qed.

Lemma find_one_placeholder (var post : str) :
  var <> [] ->
  closing_brace ∉ var ->
  find_placeholders 0 (placeholder var ++ post)
  = var :: find_placeholders 0 post.
Proof.
  intros Hne Hvar.
  change (placeholder var ++ post)
    with (dollar :: (ord "{" :: (var ++ lit "}")) ++ post).
  cbn [find_placeholders].
  assert (Hat : placeholder_at (dollar :: (ord "{" :: var ++ lit "}") ++ post)
                = Some var).
  { unfold placeholder_at.
    change (startswith (dollar :: (ord "{" :: var ++ lit "}") ++ post)
                       (lit "${")) with true.
    cbn [drop app]. rewrite <- app_assoc.
    change (lit "}" ++ post) with (closing_brace :: post).
    rewrite drop_0, until_brace_variable by exact Hvar.
    destruct var; [congruence | reflexivity]. }
  rewrite Hat. f_equal.
  replace (length var + 2)%nat with (length (ord "{" :: var ++ lit "}"))
    by (simpl; rewrite length_app; simpl; lia).
  apply find_passes_match.
Qed.

Lemma replace_skips_plain_text (old new pre rest : str) (old' : str) :
  old = dollar :: old' ->
  dollar ∉ pre ->
  replace_from old new 0 (pre ++ rest) = pre ++ replace_from old new 0 rest.
Proof.
  intros -> Hpre. induction pre as [|c pre IH]; [reflexivity |].
  apply not_elem_of_cons in Hpre as [Hc Hpre].
  change ((c :: pre) ++ rest) with (c :: (pre ++ rest)).
  cbn [replace_from startswith].
  assert (Hne : N.eqb dollar c = false)
    by (apply N.eqb_neq; congruence).
  rewrite Hne. cbn [andb]. rewrite IH by exact Hpre. reflexivity.
Qed.

Lemma replace_passes_match (old new a rest : str) :
  replace_from old new (length a) (a ++ rest) = replace_from old new 0 rest.
Proof. induction a as [|c a IH]; [reflexivity | exact IH]. Qed.

Lemma replace_at_match (new old' post : str) :
  replace_from (dollar :: old') new 0 ((dollar :: old') ++ post)
  = new ++ replace_from (dollar :: old') new 0 post.
Proof.
  change ((dollar :: old') ++ post) with (dollar :: (old' ++ post)).
  cbn [replace_from].
  change (dollar :: (old' ++ post)) with ((dollar :: old') ++ post).
  rewrite ResponseCleaning.startswith_app. f_equal.
  replace (length (dollar :: old') - 1)%nat with (length old')
    by (simpl; lia).
  apply replace_passes_match.
Qed.

(** X21. A string that holds one placeholder and no other dollar sign has
    the placeholder replaced by the configured value, and nothing else
    changed; the value itself is not looked into. *)
Theorem single_placeholder_is_substituted
        (cfg : gmap str str) (var v pre post : str) :
  cfg !! var = Some v ->
  var <> [] ->
  closing_brace ∉ var ->
  dollar ∉ pre ->
  dollar ∉ post ->
  replace_placeholders (JStr (pre ++ placeholder var ++ post)) cfg
  = JStr (pre ++ v ++ post).
Proof.
  intros Hcfg Hne Hvar Hpre Hpost.
  cbn [replace_placeholders]. f_equal. unfold replace_in_string.
  rewrite find_skips_plain_text by exact Hpre.
  rewrite find_one_placeholder by assumption.
  replace (find_placeholders 0 post) with (@nil str).
  2:{ symmetry. rewrite <- (app_nil_r post).
      rewrite find_skips_plain_text by exact Hpost. reflexivity. }
  cbn [foldl]. unfold substitute. rewrite Hcfg. unfold replace.
  change (placeholder var) with (dollar :: (ord "{" :: var ++ lit "}")).
  rewrite (replace_skips_plain_text _ _ pre _ (ord "{" :: var ++ lit "}"))
    by (reflexivity || exact Hpre).
  rewrite replace_at_match.
  rewrite <- (app_nil_r post) at 1.
  rewrite (replace_skips_plain_text _ _ post [] (ord "{" :: var ++ lit "}"))
    by (reflexivity || exact Hpost).
  simpl. rewrite app_nil_r. reflexivity.
Qed.

Lemma single_placeholder_is_substituted_witness :
  replace_placeholders (JStr (lit "sqlite:///${endpoint}?mode=ro"))
                       (<[lit "endpoint" := lit "/data/x.db"]> ∅)
  = JStr (lit "sqlite:////data/x.db?mode=ro").
Proof.
  apply (single_placeholder_is_substituted
           (<[lit "endpoint" := lit "/data/x.db"]> ∅)
           (lit "endpoint") (lit "/data/x.db")
           (lit "sqlite:///") (lit "?mode=ro"));
    try reflexivity; try discriminate;
    intros Hin; repeat (apply elem_of_cons in Hin as [Hin | Hin];
                        [discriminate |]); inversion Hin.
Defined.

End PlaceholderFacts.

(** ** The registry *)

Module RegistryFacts.

Import Typing Placeholders Registry.

Lemma dict_get_set {V} (d : list (str * V)) (k : str) (v : V) :
  dict_get (dict_set d k v) k = Some v.
Proof.
  induction d as [|[k' v'] d IH]; simpl.
  - rewrite bool_decide_eq_true_2; reflexivity.
  - case_bool_decide as Hk; simpl.
    + rewrite bool_decide_eq_true_2; reflexivity.
    + rewrite bool_decide_eq_false_2 by exact Hk. exact IH.
Qed.

Lemma dict_get_set_other {V} (d : list (str * V)) (k k0 : str) (v : V) :
  k0 <> k -> dict_get (dict_set d k v) k0 = dict_get d k0.
Proof.
  intros Hne. induction d as [|[k' v'] d IH]; simpl.
  - rewrite bool_decide_eq_false_2 by congruence. reflexivity.
  - case_bool_decide as Hk; simpl.
    + subst k'. rewrite !bool_decide_eq_false_2 by congruence. reflexivity.
    + rewrite IH. reflexivity.
Qed.

Lemma keys_set {V} (d : list (str * V)) (k : str) (v : V) :
  keys (dict_set d k v)
  = if bool_decide (k ∈ keys d) then keys d else keys d ++ [k].
Proof.
  induction d as [|[k' v'] d IH]; [reflexivity |].
  cbn [dict_set keys List.map fst].
  destruct (bool_decide_reflect (k' = k)) as [Hk | Hk].
  - subst k'. rewrite bool_decide_eq_true_2 by left. reflexivity.
  - cbn [List.map fst]. fold (keys (dict_set d k v)). rewrite IH.
    fold (keys d).
    destruct (bool_decide_reflect (k ∈ keys d)) as [Hin | Hin].
    + rewrite bool_decide_eq_true_2 by (right; exact Hin). reflexivity.
    + rewrite bool_decide_eq_false_2; [reflexivity |].
      intros Hin'. apply elem_of_cons in Hin' as [-> | Hin']; tauto.
Qed.

Lemma dict_get_keys {V} (d : list (str * V)) (k : str) :
  is_Some (dict_get d k) <-> k ∈ keys d.
Proof.
  induction d as [|[k' v'] d IH]; simpl.
  - split; [intros [? ?]; discriminate | intros Hin; inversion Hin].
  - case_bool_decide as Hk.
    + subst k'. split; [intros _; left | eauto].
    + rewrite IH. split; [intros Hin; right; exact Hin |].
      intros Hin. apply elem_of_cons in Hin as [-> | Hin]; tauto.
Qed.

Lemma dict_set_good_order (d : list (str * DataSource)) (ds : DataSource) :
  in_good_order d -> in_good_order (dict_set d (endpoint ds) ds).
Proof.
  intros [Hnd Hall]. split.
  - rewrite keys_set. case_bool_decide as Hin; [exact Hnd |].
    apply NoDup_app. split; [exact Hnd |]. split.
    + intros x Hx Hx'. apply list_elem_of_singleton in Hx'. subst x. tauto.
    + apply NoDup_singleton.
  - clear Hnd. induction Hall as [|[k' v'] d Hkv Hd IH]; simpl.
    + repeat constructor.
    + case_bool_decide as Hk; constructor; auto.
Qed.

Lemma filter_other_all (k : str) (l : list str) :
  k ∉ l -> filter (fun k0 => k0 <> k) l = l.
Proof.
  induction l as [|x l IH]; intros Hnot; [reflexivity |].
  apply not_elem_of_cons in Hnot as [Hx Hnot].
  rewrite filter_cons, decide_True by congruence.
  rewrite IH by exact Hnot. reflexivity.
Qed.

Lemma keys_del {V} (d : list (str * V)) (k : str) :
  NoDup (keys d) -> keys (dict_del d k) = filter (fun k0 => k0 <> k) (keys d).
Proof.
  induction d as [|[k' v'] d IH]; intros Hnd; [reflexivity |].
  simpl in *. apply NoDup_cons in Hnd as [Hnot Hnd].
  rewrite filter_cons. case_bool_decide as Hk.
  - subst k'. rewrite decide_False by tauto.
    symmetry. apply filter_other_all. exact Hnot.
  - rewrite decide_True by exact Hk. simpl. f_equal. apply IH. exact Hnd.
Qed.

Lemma dict_get_del_other {V} (d : list (str * V)) (k k0 : str) :
  k0 <> k -> dict_get (dict_del d k) k0 = dict_get d k0.
Proof.
  intros Hne. induction d as [|[k' v'] d IH]; [reflexivity |].
  simpl. case_bool_decide as Hk; simpl.
  - subst k'. rewrite bool_decide_eq_false_2 by congruence. reflexivity.
  - rewrite IH. reflexivity.
Qed.

Lemma dict_del_good_order (d : list (str * DataSource)) (k : str) :
  in_good_order d -> in_good_order (dict_del d k).
Proof.
  intros [Hnd Hall]. split.
  - rewrite keys_del by exact Hnd. apply NoDup_filter. exact Hnd.
  - clear Hnd. induction Hall as [|[k' v'] d Hkv Hd IH]; simpl.
    + constructor.
    + case_bool_decide as Hk; [assumption | constructor; auto].
Qed.

(** X22. Removing a key answers [True] exactly when the key, which is an
    endpoint and not a name, is registered.  Afterwards the key is gone, the
    other sources are where they were, in the same order, and a key that is
    not registered changes nothing. *)
Theorem remove_data_source_spec (m : manager) (key : str) :
  NoDup (keys (_data_sources m)) ->
  let (answer, m') := remove_data_source m key in
  (answer = true <-> key ∈ get_all_data_sources_name m)
  /\ get_all_data_sources_name m'
     = filter (fun k => k <> key) (get_all_data_sources_name m)
  /\ ~ key ∈ get_all_data_sources_name m'
  /\ (forall k, k <> key ->
                dict_get (_data_sources m') k = dict_get (_data_sources m) k)
  /\ (answer = false -> m' = m).
Proof.
  intros Hnd. unfold remove_data_source, get_all_data_sources_name.
  pose proof (dict_get_keys (_data_sources m) key) as Hkeys.
  unfold keys in *.
  destruct (dict_get (_data_sources m) key) as [ds|] eqn:Hget; simpl.
  - assert (Hin : key ∈ List.map fst (_data_sources m))
      by (apply Hkeys; eauto).
    pose proof (keys_del (_data_sources m) key Hnd) as Hdel.
    unfold keys in Hdel.
    split; [tauto |]. split; [exact Hdel |]. split.
    + rewrite Hdel. intros Hin'.
      apply list_elem_of_filter in Hin' as [Hne _]. congruence.
    + split; [| discriminate].
      intros k Hne. apply dict_get_del_other. exact Hne.
  - assert (Hnot : ~ key ∈ List.map fst (_data_sources m)).
    { intros Hin. apply Hkeys in Hin as [? ?]. discriminate. }
    split; [split; [discriminate | tauto] |].
    split; [symmetry; apply filter_other_all; exact Hnot |].
    split; [exact Hnot |]. split; reflexivity.
Qed.

Section Adding.

Variable unicode_isalpha : char -> bool.
Variable unicode_lower : char -> str.
Variable isfile : str -> bool.
Variable basename : str -> str.
Variable splitext_root : str -> str.
Variable urlparse : str -> option Naming.parsed_url.
Variable isdir : str -> bool.
Variable listdir : str -> list str.

Local Abbreviation add_one' :=
  (add_one unicode_isalpha unicode_lower isfile basename splitext_root
           urlparse).
Local Abbreviation add_data_source' :=
  (add_data_source unicode_isalpha unicode_lower isfile basename
                   splitext_root urlparse isdir listdir).
Local Abbreviation generate_name' :=
  (Naming._generate_name unicode_isalpha unicode_lower isfile basename
                         splitext_root urlparse).

Lemma add_one_good_order (m : manager)
      (st : list (str * DataSource) * option json) (e : str) :
  in_good_order (fst st) -> in_good_order (fst (add_one' m st e)).
Proof.
  intros Hgood. unfold add_one. cbn [fst].
  match goal with
  | |- in_good_order (dict_set _ e ?ds) =>
      change e with (endpoint ds) at 1
  end.
  apply dict_set_good_order. exact Hgood.
Qed.

Lemma add_all_good_order (m : manager) (paths : list str) :
  forall st : list (str * DataSource) * option json,
    in_good_order (fst st) ->
    in_good_order (fst (foldl (add_one' m) st paths)).
Proof.
  induction paths as [|e paths IH]; intros st Hgood; [exact Hgood |].
  simpl. apply IH. apply add_one_good_order. exact Hgood.
Qed.

(** X23. The registry stays in good order: whatever is added, an endpoint, a
    directory or a configuration, the keys remain distinct and every source
    is filed under its own endpoint; the defaults of the types are not
    touched; and removing a source keeps the order as well. *)
Theorem registry_stays_in_good_order (m : manager) (spec : source_spec) :
  in_good_order (_data_sources m) ->
  (forall m', add_data_source' m spec = Return m' ->
              in_good_order (_data_sources m')
              /\ _type_defaults m' = _type_defaults m)
  /\ (forall key,
        in_good_order (_data_sources (snd (remove_data_source m key)))).
Proof.
  intros Hgood. split.
  - intros m'. unfold add_data_source.
    destruct spec as [e | entries]; simpl.
    + intros [= <-]. simpl. split; [| reflexivity].
      apply add_all_good_order. exact Hgood.
    + destruct (endpoint_of entries) as [e|]; simpl; [| discriminate].
      intros [= <-]. simpl. split; [| reflexivity].
      apply add_all_good_order. exact Hgood.
  - intros key. unfold remove_data_source.
    destruct (dict_get (_data_sources m) key); simpl; [| exact Hgood].
    apply dict_del_good_order. exact Hgood.
Qed.

(** X24. Adding an endpoint that is not a directory registers one source
    under that endpoint: its type is the detected one, its name the
    generated one, its access type the one of its type, its profile the
    empty one; the other sources are not changed, and the list of keys
    grows by the endpoint only if it was not a key before. *)
Theorem added_endpoint_is_registered (m : manager) (e : str) :
  isdir e = false ->
  exists m' ds,
    add_data_source' m (Endpoint e) = Return m'
    /\ dict_get (_data_sources m') e = Some ds
    /\ endpoint ds = e
    /\ source_type ds = _detect_source_type unicode_lower e
    /\ ds_name ds = generate_name' e
    /\ source_access_type ds
       = SOURCE_TYPE_TO_ACCESS_TYPE (_detect_source_type unicode_lower e)
    /\ profile ds = Some EmptyProfile
    /\ (forall k, k <> e ->
          dict_get (_data_sources m') k = dict_get (_data_sources m) k)
    /\ get_all_data_sources_name m'
       = if bool_decide (e ∈ get_all_data_sources_name m)
         then get_all_data_sources_name m
         else get_all_data_sources_name m ++ [e].
Proof.
  intros Hdir. unfold add_data_source. simpl.
  unfold sources_of. rewrite Hdir. simpl.
  eexists. eexists. split; [reflexivity |]. simpl.
  split; [apply dict_get_set |].
  repeat (split; [reflexivity |]).
  split; [intros k Hne; apply dict_get_set_other; exact Hne |].
  apply keys_set.
Qed.

(** X25. A configuration given with the endpoint takes the place of the
    default of the type: the source is configured with the given
    dictionary, its [${endpoint}] placeholders replaced, whatever the
    defaults are.  An endpoint given alone gets the default of its type,
    its placeholders replaced, or the empty configuration when the type has
    no default. *)
Theorem given_configuration_overrides_default
        (m : manager) (e : str) (entries : list (str * json)) :
  isdir e = false ->
  (entry entries (lit "endpoint") = Some (JStr e) ->
   exists m' ds,
     add_data_source' m (Config entries) = Return m'
     /\ dict_get (_data_sources m') e = Some ds
     /\ config ds
        = replace_placeholders (JDict entries) (endpoint_config e))
  /\ exists m' ds,
       add_data_source' m (Endpoint e) = Return m'
       /\ dict_get (_data_sources m') e = Some ds
       /\ config ds
          = match _type_defaults m
                  !! value (_detect_source_type unicode_lower e) with
            | Some c =>
                if truthy c
                then if truthy (replace_placeholders c (endpoint_config e))
                     then replace_placeholders c (endpoint_config e)
                     else JDict []
                else JDict []
            | None => JDict []
            end.
Proof.
  intros Hdir. split.
  - intros Hentry.
    assert (Hne : entries <> []) by (intros ->; discriminate).
    unfold add_data_source, endpoint_of.
    rewrite Hentry. simpl. unfold sources_of. rewrite Hdir. simpl.
    eexists. eexists. split; [reflexivity |]. simpl.
    split; [apply dict_get_set |].
    unfold add_one. simpl.
    destruct entries as [|kv entries]; [congruence |]. reflexivity.
  - unfold add_data_source. simpl. unfold sources_of. rewrite Hdir. simpl.
    eexists. eexists. split; [reflexivity |]. simpl.
    split; [apply dict_get_set |].
    unfold add_one, get_default_config. simpl.
    destruct (_type_defaults m !! _) as [c|]; simpl; [| reflexivity].
    destruct (truthy c) eqn:Hc; simpl; [reflexivity |].
    rewrite Hc. reflexivity.
Qed.

Lemma add_one_keeps_others (m : manager)
      (st : list (str * DataSource) * option json) (e k : str) :
  k <> e -> dict_get (fst (add_one' m st e)) k = dict_get (fst st) k.
Proof. intros Hne. unfold add_one. simpl. apply dict_get_set_other. exact Hne. Qed.

Lemma add_all_keeps_others (m : manager) (paths : list str) (k : str) :
  k ∉ paths ->
  forall st : list (str * DataSource) * option json,
    dict_get (fst (foldl (add_one' m) st paths)) k = dict_get (fst st) k.
Proof.
  induction paths as [|e paths IH]; intros Hnot st; [reflexivity |].
  apply not_elem_of_cons in Hnot as [Hne Hnot].
  simpl. rewrite IH by exact Hnot. apply add_one_keeps_others. exact Hne.
Qed.

Lemma replace_keeps_object (c : json) (cfg : gmap str str) :
  object_config c -> object_config (replace_placeholders c cfg).
Proof.
  intros (entries & -> & Hne). simpl. eexists. split; [reflexivity |].
  destruct entries; [congruence | discriminate].
Qed.

Lemma object_is_truthy (c : json) : object_config c -> truthy c = true.
Proof.
  intros (entries & -> & Hne). destruct entries; [congruence | reflexivity].
Qed.

(** With a configuration at hand, a turn of the loop writes the endpoint
    into it, stores it in the source and hands it on to the next turn. *)
Lemma add_one_configured (m : manager) (reg : list (str * DataSource))
      (c : json) (e : str) :
  object_config c ->
  add_one' m (reg, Some c) e
  = (dict_set reg e
       (new_data_source e (_detect_source_type unicode_lower e)
          (generate_name' e)
          (Some (replace_placeholders c (endpoint_config e)))),
     Some (replace_placeholders c (endpoint_config e))).
Proof.
  intros Hc. unfold add_one. simpl.
  rewrite (object_is_truthy c Hc). simpl.
  rewrite (object_is_truthy c Hc). reflexivity.
Qed.

Lemma add_all_configured (m : manager) (paths : list str) :
  NoDup paths ->
  forall (reg : list (str * DataSource)) (c : json),
    object_config c ->
    forall i p,
      paths !! i = Some p ->
      exists ds,
        dict_get (fst (foldl (add_one' m) (reg, Some c) paths)) p = Some ds
        /\ config ds = resolved_along c (take (S i) paths).
Proof.
  induction 1 as [|e paths Hnot Hnd IH]; intros reg c Hc i p Hi;
    [discriminate |].
  cbn [foldl]. rewrite add_one_configured by exact Hc.
  pose proof (replace_keeps_object c (endpoint_config e) Hc) as Hc'.
  destruct i as [|i].
  - injection Hi as <-.
    rewrite add_all_keeps_others by exact Hnot. cbn [fst].
    rewrite dict_get_set. eexists. split; [reflexivity |].
    cbn [config new_data_source]. rewrite (object_is_truthy _ Hc').
    reflexivity.
  - match goal with
    | |- context [foldl _ (?r, _) paths] =>
        destruct (IH r _ Hc' i p Hi) as (ds & Hget & Hcfg)
    end.
    exists ds. split; [exact Hget |]. rewrite Hcfg. reflexivity.
Qed.

(** X26. The variable [conn_config] is not reset between the files of a
    directory.  When a directory is added and the type of the file that the
    loop visits first has a default configuration (a non-empty object),
    every file of the directory is configured from that default, with the
    paths of all the files visited up to it written into it in turn, and
    not from the default of its own type. *)
Theorem directory_shares_first_configuration
        (m : manager) (d first : str) (others : list str) (c : json) :
  isdir d = true ->
  listdir d = first :: others ->
  NoDup (List.map (TextPostHook.path_join d) (first :: others)) ->
  get_default_config
    m (_detect_source_type unicode_lower (TextPostHook.path_join d first))
  = c ->
  object_config c ->
  exists m',
    add_data_source' m (Endpoint d) = Return m'
    /\ forall i p,
         List.map (TextPostHook.path_join d) (first :: others) !! i = Some p ->
         exists ds,
           dict_get (_data_sources m') p = Some ds
           /\ config ds
              = resolved_along
                  c (take (S i)
                          (List.map (TextPostHook.path_join d)
                                    (first :: others))).
Proof.
  intros Hdir Hlist Hnd Hdefault Hc.
  unfold add_data_source. simpl. unfold sources_of. rewrite Hdir, Hlist.
  eexists. split; [reflexivity |]. simpl.
  intros i p Hi.
  (* the first turn takes the default of the first file *)
  assert (Hfirst :
    add_one' m (_data_sources m, None) (TextPostHook.path_join d first)
    = add_one' m (_data_sources m, Some c) (TextPostHook.path_join d first)).
  { unfold add_one, configured. cbn [fst snd]. rewrite Hdefault.
    rewrite !(object_is_truthy c Hc). reflexivity. }
  rewrite Hfirst.
  apply (add_all_configured m
           (List.map (TextPostHook.path_join d) (first :: others)) Hnd
           (_data_sources m) c Hc i p Hi).
Qed.

End Adding.

Lemma source_type_of_value (v : str) (t : SourceType) :
  SourceType_of v = Return t -> value t = v.
Proof.
  unfold SourceType_of.
  destruct (List.find _ members) as [t'|] eqn:Hfind; [| discriminate].
  intros [= <-]. apply List.find_some in Hfind as [_ Hv].
  apply bool_decide_eq_true in Hv. exact Hv.
Qed.

Lemma value_is_valid (t : SourceType) : SourceType_of (value t) = Return t.
Proof. destruct t; reflexivity. Qed.

Lemma loaded_defaults_lookup (entries : list (str * json)) :
  forall (acc : gmap str json) (k : str),
    foldl (fun defaults kv =>
             match SourceType_of (fst kv) with
             | Return t => <[value t := snd kv]> defaults
             | Raise _ => defaults
             end) acc entries !! k
    = match (if is_valid_source_type k then entry entries k else None) with
      | Some c => Some c
      | None => acc !! k
      end.
Proof.
  induction entries as [|[k' v'] entries IH]; intros acc k.
  - simpl. destruct (is_valid_source_type k); reflexivity.
  - cbn [foldl]. rewrite IH. cbn [entry fst snd].
    unfold is_valid_source_type.
    destruct (SourceType_of k) as [t|] eqn:Hk.
    + destruct (entry entries k) as [c|]; [reflexivity |].
      destruct (SourceType_of k') as [t'|] eqn:Hk'.
      * pose proof (source_type_of_value _ _ Hk') as Hv.
        case_bool_decide as Heq.
        -- rewrite Hv, Heq. apply lookup_insert_eq.
        -- rewrite Hv. apply lookup_insert_ne. exact Heq.
      * case_bool_decide as Heq; [| reflexivity].
        congruence.
    + destruct (SourceType_of k') as [t'|] eqn:Hk'; [| reflexivity].
      pose proof (source_type_of_value _ _ Hk') as Hv. rewrite Hv.
      apply lookup_insert_ne. intros Heq. congruence.
Qed.

(** X27. The defaults that are loaded are those of the file that are filed
    under the value of a source type; a key that names no source type is
    passed over, and a file that is missing or is not JSON gives no default
    at all.  A type without a default is configured with the empty
    dictionary. *)
Theorem loaded_defaults_are_the_valid_entries
        (file : option (list (str * json))) :
  (forall k,
     _load_default_config file !! k
     = match file with
       | Some entries =>
           if is_valid_source_type k then entry entries k else None
       | None => None
       end)
  /\ forall (sources : list (str * DataSource)) (t : SourceType),
       get_default_config
         (Build_manager sources (_load_default_config file)) t
       = match file with
         | Some entries => default (JDict []) (entry entries (value t))
         | None => JDict []
         end.
Proof.
  assert (Hlookup : forall k,
     _load_default_config file !! k
     = match file with
       | Some entries =>
           if is_valid_source_type k then entry entries k else None
       | None => None
       end).
  { intros k. destruct file as [entries|]; [| apply lookup_empty].
    unfold _load_default_config. rewrite loaded_defaults_lookup.
    rewrite lookup_empty.
    destruct (if is_valid_source_type k then entry entries k else None);
      reflexivity. }
  split; [exact Hlookup |].
  intros sources t. unfold get_default_config. cbn [_type_defaults].
  rewrite Hlookup. destruct file as [entries|]; [| reflexivity].
  unfold is_valid_source_type. rewrite value_is_valid. reflexivity.
Qed.

Lemma remove_data_source_spec_witness :
  let (answer, m') :=
    remove_data_source Examples.one_source_manager (lit "data.csv") in
  (answer = true
   <-> lit "data.csv" ∈ get_all_data_sources_name Examples.one_source_manager)
  /\ get_all_data_sources_name m'
     = filter (fun k => k <> lit "data.csv")
              (get_all_data_sources_name Examples.one_source_manager)
  /\ ~ lit "data.csv" ∈ get_all_data_sources_name m'
  /\ (forall k, k <> lit "data.csv" ->
                dict_get (_data_sources m') k
                = dict_get (_data_sources Examples.one_source_manager) k)
  /\ (answer = false -> m' = Examples.one_source_manager).
Proof.
  apply (remove_data_source_spec Examples.one_source_manager
                                 (lit "data.csv")).
  apply NoDup_singleton.
Defined.

Lemma registry_stays_in_good_order_witness :
  in_good_order
    (_data_sources
       (snd (remove_data_source Examples.one_source_manager (lit "x")))).
Proof.
  apply (registry_stays_in_good_order
           (fun _ => false) (fun c => [c]) (fun _ => false)
           (fun s => s) (fun s => s) (fun _ => None)
           (fun _ => false) (fun _ => [])
           Examples.one_source_manager (Endpoint (lit "x"))).
  split; [apply NoDup_singleton | repeat constructor].
Defined.

Lemma added_endpoint_is_registered_witness :
  exists m',
    add_data_source (fun _ => false) (fun c => [c]) (fun _ => false)
                    (fun s => s) (fun s => s) (fun _ => None)
                    (fun _ => false) (fun _ => [])
                    Examples.one_source_manager (Endpoint (lit "sales.xlsx"))
    = Return m'
    /\ get_all_data_sources_name m' = [lit "data.csv"; lit "sales.xlsx"].
Proof.
  destruct (added_endpoint_is_registered
              (fun _ => false) (fun c => [c]) (fun _ => false)
              (fun s => s) (fun s => s) (fun _ => None)
              (fun _ => false) (fun _ => [])
              Examples.one_source_manager (lit "sales.xlsx") eq_refl)
    as (m' & ds & Hadd & _ & _ & _ & _ & _ & _ & _ & Hkeys).
  exists m'. split; [exact Hadd |]. rewrite Hkeys. reflexivity.
Defined.

Lemma given_configuration_overrides_default_witness :
  exists m' ds,
    add_data_source (fun _ => false) (fun c => [c]) (fun _ => false)
                    (fun s => s) (fun s => s) (fun _ => None)
                    (fun _ => false) (fun _ => [])
                    Examples.empty_manager
                    (Config [(lit "endpoint", JStr (lit "sqlite:///shop.db"));
                             (lit "dsn", JStr (lit "${endpoint}"))])
    = Return m'
    /\ dict_get (_data_sources m') (lit "sqlite:///shop.db") = Some ds
    /\ config ds
       = JDict [(lit "endpoint", JStr (lit "sqlite:///shop.db"));
                (lit "dsn", JStr (lit "sqlite:///shop.db"))].
Proof.
  destruct (proj1 (given_configuration_overrides_default
                     (fun _ => false) (fun c => [c]) (fun _ => false)
                     (fun s => s) (fun s => s) (fun _ => None)
                     (fun _ => false) (fun _ => [])
                     Examples.empty_manager (lit "sqlite:///shop.db")
                     [(lit "endpoint", JStr (lit "sqlite:///shop.db"));
                      (lit "dsn", JStr (lit "${endpoint}"))]
                     eq_refl) eq_refl)
    as (m' & ds & Hadd & Hget & Hcfg).
  exists m', ds. split; [exact Hadd |]. split; [exact Hget |].
  rewrite Hcfg. reflexivity.
Defined.

Lemma directory_shares_first_configuration_witness :
  exists m' ds,
    add_data_source (fun _ => false) (fun c => [c]) (fun _ => false)
                    (fun s => s) (fun s => s) (fun _ => None)
                    Examples.inbox_is_dir Examples.inbox_listing
                    Examples.empty_manager (Endpoint (lit "inbox"))
    = Return m'
    /\ dict_get (_data_sources m') (lit "inbox/notes.csv") = Some ds
    /\ source_type ds = CSV
    /\ config ds
       = JDict [(lit "mcp_server",
                 JDict [(lit "command", JStr (lit "db-mcp"));
                        (lit "args", JList [JStr (lit "inbox/shop.db")])])].
Proof.
  destruct (directory_shares_first_configuration
              (fun _ => false) (fun c => [c]) (fun _ => false)
              (fun s => s) (fun s => s) (fun _ => None)
              Examples.inbox_is_dir Examples.inbox_listing
              Examples.empty_manager (lit "inbox") (lit "shop.db")
              [lit "notes.csv"]
              (JDict [(lit "mcp_server",
                       JDict [(lit "command", JStr (lit "db-mcp"));
                              (lit "args",
                               JList [JStr (lit "${endpoint}")])])]))
    as (m' & Hadd & Hall).
  - reflexivity.
  - reflexivity.
  - apply NoDup_cons. split; [| apply NoDup_singleton].
    intros Hin. apply list_elem_of_singleton in Hin. discriminate.
  - reflexivity.
  - eexists. split; [reflexivity | discriminate].
  - destruct (Hall 1%nat (lit "inbox/notes.csv") eq_refl)
      as (ds & Hget & Hcfg).
    exists m', ds. split; [exact Hadd |]. split; [exact Hget |].
    injection Hadd as <-. vm_compute in Hget. injection Hget as <-.
    split; reflexivity.
Defined.

End RegistryFacts.

(** ** Profiling a registered source *)

Module ProfilingFacts.

Import Typing Registry Profiler Profiling.

Lemma with_own_profile (ds : DataSource) : with_profile ds (profile ds) = ds.
Proof. destruct ds; reflexivity. Qed.

Section Profiled.

Context {cell : Type} `{EqDecision cell}.
Variable cell_str : cell -> option str.
Variable shuffle : list cell -> list cell.
Variable to_csv : dataframe cell -> str.
Variable json_loads : str -> outcome json.
Variable isspace : char -> bool.
Variable format_data : str -> source_data -> outcome str.
Variable format_snippet : str -> str -> outcome str.
Variable copy_to_temporary_file : str -> outcome str.
Variable load_prompt : SourceType -> outcome str.
Variable basename : str -> str.
Variable csv_at : str -> csv_file (cell := cell).
Variable workbook_at : str -> workbook (cell := cell).
Variable database_at : str -> Introspection.database.

Local Abbreviation data_profile' :=
  (data_profile cell_str shuffle to_csv json_loads isspace format_data
                format_snippet copy_to_temporary_file load_prompt basename
                csv_at workbook_at database_at).
Local Abbreviation prepare_profile' :=
  (prepare_profile cell_str shuffle to_csv json_loads isspace format_data
                   format_snippet copy_to_temporary_file load_prompt basename
                   csv_at workbook_at database_at).
Local Abbreviation get_profiler' :=
  (get_profiler load_prompt basename csv_at workbook_at database_at).
Local Abbreviation profile_lifecycle' :=
  (fun llm => profile_lifecycle cell_str shuffle to_csv llm json_loads
                                isspace format_data format_snippet).

Lemma on_failure_outcome (ds : DataSource) (e : exn) :
  on_failure ds e
  = if is_Exception e then Return (with_profile ds None) else Raise e.
Proof. unfold on_failure, is_Exception. destruct (cls e); reflexivity. Qed.

Lemma slice_raises_exception (v : json) (e : exn) :
  slice_100 v = Raise e -> is_Exception e = true.
Proof. destruct v; simpl; intros [= <-]; reflexivity. Qed.

(** X28. Profiling never breaks the preparation of a source with an
    [Exception]: whatever the world does, [prepare_profile] either returns,
    and then nothing but the profile of the source has changed, or it lets
    through what [data_profile] raised and is no [Exception].  Without a
    manager, or for a source that has a profile, it does nothing. *)
Theorem prepare_profile_never_raises_exception
        (llm_call_manager : option (content -> outcome str))
        (ds : DataSource) :
  (forall e,
     prepare_profile' llm_call_manager ds = Raise e ->
     is_Exception e = false
     /\ exists llm sandbox_path,
          llm_call_manager = Some llm
          /\ source_access ds = Some sandbox_path
          /\ data_profile' llm sandbox_path (source_type ds) = Raise e)
  /\ (forall ds',
        prepare_profile' llm_call_manager ds = Return ds' ->
        ds' = with_profile ds (profile ds'))
  /\ (llm_call_manager = None \/ profile_truthy (profile ds) = true ->
      prepare_profile' llm_call_manager ds = Return ds).
Proof.
  unfold prepare_profile.
  destruct llm_call_manager as [llm|].
  2:{ split; [discriminate |]. split; [| reflexivity].
      intros ds' [= <-]. symmetry. apply with_own_profile. }
  destruct (profile_truthy (profile ds)) eqn:Htruthy.
  { split; [discriminate |]. split; [| reflexivity].
    intros ds' [= <-]. symmetry. apply with_own_profile. }
  split; [| split; [| intros [? | ?]; discriminate]].
  - intros e.
    destruct (source_access ds) as [sandbox_path|]; [| discriminate].
    destruct (data_profile' llm sandbox_path (source_type ds))
      as [p|e'] eqn:Hprofile.
    + cbn zeta.
      destruct (slice_100 _) as [?|e'] eqn:Hslice; [discriminate |].
      rewrite on_failure_outcome.
      rewrite (slice_raises_exception _ _ Hslice). discriminate.
    + rewrite on_failure_outcome.
      destruct (is_Exception e') eqn:He'; [discriminate |].
      intros [= <-]. split; [exact He' |].
      exists llm, sandbox_path. auto.
  - intros ds'.
    destruct (source_access ds) as [sandbox_path|];
      [| intros [= <-]; reflexivity].
    destruct (data_profile' llm sandbox_path (source_type ds))
      as [p|e'] eqn:Hprofile.
    + cbn zeta.
      destruct (slice_100 _) as [?|e'] eqn:Hslice.
      * intros [= <-]. reflexivity.
      * rewrite on_failure_outcome.
        rewrite (slice_raises_exception _ _ Hslice).
        intros [= <-]. reflexivity.
    + rewrite on_failure_outcome.
      destruct (is_Exception e'); [| discriminate].
      intros [= <-]. reflexivity.
Qed.

(** X29. The line that logs the success cuts the description to a hundred
    items, inside the [try].  A profile that [data_profile] has returned is
    kept when its description is a string or a list, or when the profile is
    empty; when the description is anything else (an object, a number, a
    boolean, null), the profile is thrown away and the source is left
    without one. *)
Theorem unsliceable_description_discards_profile
        (llm : content -> outcome str) (ds : DataSource)
        (sandbox_path : str) (p : Schema.profile) :
  profile_truthy (profile ds) = false ->
  source_access ds = Some sandbox_path ->
  data_profile' llm sandbox_path (source_type ds) = Return p ->
  prepare_profile' (Some llm) ds
  = Return (with_profile
              ds (if sliceable (_general_profile (Some p))
                  then Some p else None)).
Proof.
  intros Htruthy Haccess Hprofile. unfold prepare_profile.
  rewrite Htruthy, Haccess, Hprofile. cbn zeta.
  change (profile (with_profile ds (Some p))) with (Some p).
  destruct (_general_profile (Some p)); reflexivity.
Qed.

(** X30. What goes wrong around the profiler leaves the source with no
    profile ([None]): a type without profiler (JSON, text, other), a source
    that [prepare] has not made accessible.  What goes wrong inside the
    profiler leaves it with the empty profile: when the profiler could be
    built and its reading, its model call or its wrapping raises an
    [Exception], the profile is the empty dictionary. *)
Theorem failed_profiling_leaves_none_or_empty
        (llm : content -> outcome str) (ds : DataSource) :
  profile_truthy (profile ds) = false ->
  (profiled_type (source_type ds) = false \/ source_access ds = None ->
   prepare_profile' (Some llm) ds = Return (with_profile ds None))
  /\ forall (sandbox_path local_path : str) (pr : profiler) (e : exn),
       source_access ds = Some sandbox_path ->
       (match source_type ds with
        | RELATIONAL_DB => Return sandbox_path
        | _ => _copy_file_from_sandbox_with_original_name
                 copy_to_temporary_file sandbox_path
        end) = Return local_path ->
       get_profiler' local_path (source_type ds) = Return pr ->
       profile_lifecycle' llm pr = Raise e ->
       is_Exception e = true ->
       prepare_profile' (Some llm) ds
       = Return (with_profile ds (Some EmptyProfile)).
Proof.
  intros Htruthy. split.
  - intros Hcase. unfold prepare_profile. rewrite Htruthy.
    destruct (source_access ds) as [sandbox_path|]; [| reflexivity].
    destruct Hcase as [Htype | ?]; [| discriminate].
    unfold data_profile.
    destruct (source_type ds); try discriminate; reflexivity.
  - intros sandbox_path local_path pr e Haccess Hlocal Hpr Hlife He.
    assert (Hprofile :
      data_profile' llm sandbox_path (source_type ds) = Return EmptyProfile).
    { unfold data_profile.
      assert (Hpath :
        match source_type ds with
        | CSV | EXCEL | IMAGE =>
            _copy_file_from_sandbox_with_original_name
              copy_to_temporary_file sandbox_path
        | RELATIONAL_DB => Return sandbox_path
        | _ => Raise (Exn ValueError
                          (lit "Unsupported source type "
                           ++ value (source_type ds)))
        end = Return local_path).
      { destruct (source_type ds); try exact Hlocal; discriminate. }
      rewrite Hpath. simpl. rewrite Hpr. simpl.
      unfold generate_profile. rewrite Hlife, He. reflexivity. }
    unfold prepare_profile. rewrite Htruthy, Haccess, Hprofile.
    reflexivity.
Qed.

End Profiled.

Lemma unsliceable_description_discards_profile_witness :
  Examples.prepare_profile_in_example
    Examples.parse_nested_description (Some Examples.answer_nothing)
    Examples.prepared_csv_source
  = Return (with_profile Examples.prepared_csv_source None).
Proof.
  apply (unsliceable_description_discards_profile
           Some (fun l => l) Examples.plain_csv
           Examples.parse_nested_description Examples.is_blank
           Examples.paste_data Examples.paste_snippet Examples.copy_to_tmp
           (fun _ => Return (lit "Describe: {data}"))
           Examples.after_last_slash (fun _ => Examples.unnamed_csv)
           (fun _ => Examples.two_sheet_workbook)
           (fun _ => Introspection.unreachable_db)
           Examples.answer_nothing Examples.prepared_csv_source
           (lit "/workspace/data.csv")
           (StructuredProfile
              (lit "data.csv")
              (JDict [(lit "summary", JStr (lit "three columns"))])
              (Some [ColumnInfo (lit "id") (lit "STRING") DataSamples
                                [lit "7"];
                     ColumnInfo (lit "Unnamed: 0") (lit "STRING") DataSamples
                                [lit "x"];
                     ColumnInfo (lit "Unnamed: 1") (lit "STRING") DataSamples
                                [lit "y"]])
              None));
    reflexivity.
Defined.

Lemma failed_profiling_leaves_none_or_empty_witness :
  Examples.prepare_profile_in_example
    Examples.parse_nothing (Some Examples.answer_nothing)
    Examples.prepared_database_source
  = Return (with_profile Examples.prepared_database_source
                         (Some EmptyProfile)).
Proof.
  apply (proj2 (failed_profiling_leaves_none_or_empty
                  Some (fun l => l) Examples.plain_csv
                  Examples.parse_nothing Examples.is_blank
                  Examples.paste_data Examples.paste_snippet
                  Examples.copy_to_tmp
                  (fun _ => Return (lit "Describe: {data}"))
                  Examples.after_last_slash (fun _ => Examples.unnamed_csv)
                  (fun _ => Examples.two_sheet_workbook)
                  (fun _ => Introspection.unreachable_db)
                  Examples.answer_nothing Examples.prepared_database_source
                  eq_refl)
          (lit "postgresql://u:p@host:5432/shop")
          (lit "postgresql://u:p@host:5432/shop")
          (Build_profiler (lit "postgresql://u:p@host:5432/shop")
                          (lit "shop") (lit "Describe: {data}")
                          (RelationalSource Introspection.unreachable_db))
          (Exn ConnectionError
               (lit "Failed to connect to database: connection refused")));
    reflexivity.
Defined.

End ProfilingFacts.
